(** * verify-conformance: the label, comment and status reconcilers

    A shallow embedding of [internal/plugin/plugin.go] and the properties of
    its classifier, of its three reconcilers and of [handle].

    Go strings are byte strings and are modelled by [string], a list of
    [ascii] bytes; slices are lists, a [nil] slice being the empty list; a Go
    [error] is its message text, with [None] for [nil].  Calls on the
    [githubClient] interface are recorded in a trace, and the client is an
    oracle that answers each call from the calls made before it, so that any
    call of a sequence may fail.  The packages [suite] and [common], the file
    system and the network are collaborators given as a record of functions.
    Logging and printing are left out. *)

From Stdlib Require Import String Ascii List Bool Arith ZArith Lia DecimalString.
Import ListNotations.

Open Scope string_scope.
Open Scope list_scope.

(** ** The parts of Go's standard library that the plugin calls *)

Module GoStrings.

(** A byte below [utf8.RuneSelf] (0x80). *)
Definition isASCIIByte (c : ascii) : bool := Nat.ltb (nat_of_ascii c) 128.

Definition isUpperByte (c : ascii) : bool :=
  Nat.leb 65 (nat_of_ascii c) && Nat.leb (nat_of_ascii c) 90.

Definition isLowerByte (c : ascii) : bool :=
  Nat.leb 97 (nat_of_ascii c) && Nat.leb (nat_of_ascii c) 122.

(** [c += 'a' - 'A'] on an upper-case byte. *)
Definition lowerByte (c : ascii) : ascii :=
  if isUpperByte c then ascii_of_nat (nat_of_ascii c + 32) else c.

(** [c -= 'a' - 'A'] on a lower-case byte. *)
Definition upperByte (c : ascii) : ascii :=
  if isLowerByte c then ascii_of_nat (nat_of_ascii c - 32) else c.

Fixpoint isASCII (s : string) : bool :=
  match s with
  | EmptyString => true
  | String c s' => isASCIIByte c && isASCII s'
  end.

Fixpoint mapBytes (f : ascii -> ascii) (s : string) : string :=
  match s with
  | EmptyString => EmptyString
  | String c s' => String (f c) (mapBytes f s')
  end.

(** [strings.HasPrefix s p]. *)
Fixpoint HasPrefix (s p : string) {struct p} : bool :=
  match p, s with
  | EmptyString, _ => true
  | String _ _, EmptyString => false
  | String a p', String b s' => Ascii.eqb a b && HasPrefix s' p'
  end.

(** [strings.Contains s substr]: [substr] occurs at some offset of [s]. *)
Fixpoint Contains (s substr : string) : bool :=
  HasPrefix s substr ||
  match s with
  | EmptyString => false
  | String _ s' => Contains s' substr
  end.

(** The scan of [strings.Replace] with [n < 0] for a non-empty [old]:
    left to right, without overlap.  [skip] counts the bytes of the match
    in progress that are still to be dropped. *)
Fixpoint replaceFrom (skip : nat) (s old new : string) : string :=
  match s with
  | EmptyString => EmptyString
  | String c s' =>
      match skip with
      | S k => replaceFrom k s' old new
      | O =>
          if HasPrefix s old
          then new ++ replaceFrom (String.length old - 1) s' old new
          else String c (replaceFrom 0 s' old new)
      end
  end%string.

(** An empty [old] matches before every rune and at the end; runes are
    bytes here, which is what Go does on ASCII text. *)
Fixpoint insertAround (new s : string) : string :=
  match s with
  | EmptyString => new
  | String c s' => new ++ String c (insertAround new s')
  end%string.

(** [strings.ReplaceAll s old new]. *)
Definition ReplaceAll (s old new : string) : string :=
  match old with
  | EmptyString => insertAround new s
  | String _ _ => replaceFrom 0 s old new
  end.

(** [strconv.Itoa], the way [%v] prints an integer. *)
Definition Itoa (n : Z) : string := NilZero.string_of_int (Z.to_int n).

(** [fmt.Sprintf format args...] for formats whose only verb is [%v] and
    whose operands print as the given texts (strings, integers rendered by
    [Itoa], errors rendered by their message).  A verb without operand
    prints [%!v(MISSING)]. *)
Fixpoint Sprintf (format : string) (args : list string) : string :=
  match format with
  | String "%" (String "v" rest) =>
      match args with
      | a :: args' => a ++ Sprintf rest args'
      | [] => "%!v(MISSING)" ++ Sprintf rest []
      end
  | String c rest => String c (Sprintf rest args)
  | EmptyString => EmptyString
  end%string.

(** [strings.Join elems sep]. *)
Fixpoint Join (elems : list string) (sep : string) : string :=
  match elems with
  | [] => EmptyString
  | [e] => e
  | e :: rest => e ++ sep ++ Join rest sep
  end%string.

(** The byte comparison of the ASCII path of [strings.EqualFold]. *)
Definition foldEqByte (sr tr : ascii) : bool :=
  if Ascii.eqb tr sr then true
  else
    let lo := if Nat.ltb (nat_of_ascii tr) (nat_of_ascii sr) then tr else sr in
    let hi := if Nat.ltb (nat_of_ascii tr) (nat_of_ascii sr) then sr else tr in
    isUpperByte lo && Nat.eqb (nat_of_ascii hi) (nat_of_ascii lo + 32).

Section Unicode.

(** Go's Unicode case tables are not part of the plugin: the paths that
    [strings.ToLower], [strings.ToUpper] and [strings.EqualFold] take
    once they meet a byte at or above 0x80 are parameters. *)
Variable unicodeToLower : string -> string.
Variable unicodeToUpper : string -> string.
Variable unicodeEqualFold : string -> string -> bool.

(** [strings.ToLower]: ASCII-only strings are lowered byte by byte. *)
Definition ToLower (s : string) : string :=
  if isASCII s then mapBytes lowerByte s else unicodeToLower s.

(** [strings.ToUpper]. *)
Definition ToUpper (s : string) : string :=
  if isASCII s then mapBytes upperByte s else unicodeToUpper s.

(** [strings.EqualFold]: bytes are compared pairwise until one of them is
    not ASCII, where the rest of both strings goes to the Unicode path;
    when the shorter string is exhausted the lengths must agree. *)
Fixpoint EqualFold (s t : string) : bool :=
  match s, t with
  | EmptyString, EmptyString => true
  | EmptyString, String _ _ => false
  | String _ _, EmptyString => false
  | String sr s', String tr t' =>
      if negb (isASCIIByte sr && isASCIIByte tr)
      then unicodeEqualFold s t
      else foldEqByte sr tr && EqualFold s' t'
  end.

End Unicode.

End GoStrings.

Import GoStrings.

(** ** Data *)

Definition PluginName : string := "verify-conformance".

Definition managedPRLabels : list string :=
  [ "conformance-product-submission";
    "not-conformance-product-submission";
    "not-verifiable";
    "release-documents-checked";
    "required-tests-missing";
    "evidence-missing";
    "unable-to-process" ].

Definition managedPRLabelTemplatesWithVersion : list string :=
  [ "release-%v"; "no-failed-tests-%v"; "tests-verified-%v" ].

Definition managedPRLabelTemplatesWithFileName : list string :=
  [ "missing-file-%v" ].

Definition godogPaths : list string :=
  [ "./features/"; "./kodata/features/"; "/var/run/ko/features/";
    "../../kodata/features/" ].

(** [githubql.StatusStateSuccess]. *)
Definition StatusStateSuccess : string := "SUCCESS".

(** One entry of [Commit.Status.Contexts]. *)
Record StatusContext : Type := mkStatusContext
  { Context : string;
    State : string }.

(** One entry of [Commits.Nodes]. *)
Record Commit : Type := mkCommit
  { Oid : string;
    Contexts : list StatusContext }.

(** The [PullRequest] query struct ([suite.PullRequestQuery]). *)
Record PullRequestQuery : Type := mkPullRequestQuery
  { Number : Z;
    HeadRefOID : string;
    AuthorLogin : string;
    RepositoryName : string;
    RepositoryOwnerLogin : string;
    LabelNodes : list string;
    FileNodes : list string;
    Title : string;
    Commits : list Commit }.

(** [suite.PullRequestFile]. *)
Record PullRequestFile : Type := mkPullRequestFile
  { Name : string;
    BaseName : string;
    BlobURL : string;
    Contents : string }.

(** [suite.PullRequest], with the fields the plugin reads and writes. *)
Record PullRequest : Type := mkPullRequest
  { Query : PullRequestQuery;
    Labels : list string;
    SupportingFiles : list PullRequestFile;
    ProductYAMLURLDataTypes : list (string * string) }.

(** [suite.PRSuite], with the fields the plugin reads and writes. *)
Record PRSuite : Type := mkPRSuite
  { PR : PullRequest;
    KubernetesReleaseVersion : string;
    KubernetesReleaseVersionLatest : string;
    MissingFiles : list string;
    MetadataFolder : string }.

Definition setLabels (prSuite : PRSuite) (ls : list string) : PRSuite :=
  {| PR := {| Query := Query (PR prSuite);
              Labels := ls;
              SupportingFiles := SupportingFiles (PR prSuite);
              ProductYAMLURLDataTypes := ProductYAMLURLDataTypes (PR prSuite) |};
     KubernetesReleaseVersion := KubernetesReleaseVersion prSuite;
     KubernetesReleaseVersionLatest := KubernetesReleaseVersionLatest prSuite;
     MissingFiles := MissingFiles prSuite;
     MetadataFolder := MetadataFolder prSuite |}.

(** [github.IssueComment], [github.Status], [github.CombinedStatus] and
    [github.PullRequestChange], with the fields the plugin uses. *)
Record IssueComment : Type := mkIssueComment
  { ID : Z;
    Body : string;
    UserLogin : string }.

Record Status : Type := mkStatus
  { StatusState : string;
    StatusContextName : string;
    Description : string }.

Record CombinedStatus : Type := mkCombinedStatus
  { SHA : string;
    CombinedState : string }.

Record PullRequestChange : Type := mkPullRequestChange
  { Filename : string;
    ChangeBlobURL : string }.

(** ** The label classifier *)

Definition labelIsManaged (input : string) : bool :=
  existsb (fun l => String.eqb l input) managedPRLabels.

Definition labelIsVersionLabel (label version : string) : bool :=
  existsb
    (fun ml =>
       Contains label (ReplaceAll ml "%v" "")
       || String.eqb (Sprintf ml [version]) label)
    managedPRLabelTemplatesWithVersion.

Definition labelIsFileLabel (label : string) (missingFiles : list string) : bool :=
  existsb
    (fun ml =>
       Contains label (ReplaceAll ml "%v" "")
       || existsb (fun f => String.eqb (Sprintf ml [f]) label) missingFiles)
    managedPRLabelTemplatesWithFileName.

(** ** The GitHub client *)

(** A call made on the client, with its arguments. *)
Inductive call : Type :=
| CallGetIssueLabels (org repo : string) (number : Z)
| CallGetPullRequestChanges (org repo : string) (number : Z)
| CallAddLabel (org repo : string) (number : Z) (label : string)
| CallRemoveLabel (org repo : string) (number : Z) (label : string)
| CallListIssueComments (org repo : string) (number : Z)
| CallBotUserChecker
| CallDeleteComment (org repo : string) (id : Z)
| CallCreateComment (org repo : string) (number : Z) (comment : string)
| CallGetCombinedStatus (org repo ref : string)
| CallCreateStatus (org repo ref : string) (s : Status).

Definition trace : Type := list call.

(** The [githubClient] interface.  Every method answers from the calls made
    so far, so that a client may fail at any point of a sequence; an answer
    [inr e] or [Some e] is the error [e].  [DeleteComment] is the call that
    the client's [DeleteStaleComments] issues for each stale comment. *)
Record githubClient : Type := mkGithubClient
  { GetIssueLabels : trace -> string -> string -> Z -> list string + string;
    GetPullRequestChanges :
      trace -> string -> string -> Z -> list PullRequestChange + string;
    AddLabel : trace -> string -> string -> Z -> string -> option string;
    RemoveLabel : trace -> string -> string -> Z -> string -> option string;
    ListIssueCommentsWithContext :
      trace -> string -> string -> Z -> list IssueComment + string;
    BotUserChecker : trace -> (string -> bool) + string;
    DeleteComment : trace -> string -> string -> Z -> option string;
    CreateComment : trace -> string -> string -> Z -> string -> option string;
    GetCombinedStatus :
      trace -> string -> string -> string -> CombinedStatus + string;
    CreateStatus : trace -> string -> string -> string -> Status -> option string }.

(** ** Computations that call the client *)

Inductive outcome (A : Type) : Type :=
| Ok (a : A)
| Err (e : string)
| Panicked.

Arguments Ok {A} a.
Arguments Err {A} e.
Arguments Panicked {A}.

Definition M (A : Type) : Type := trace -> outcome A * trace.

Definition ret {A : Type} (a : A) : M A := fun tr => (Ok a, tr).

Definition fail {A : Type} (e : string) : M A := fun tr => (Err e, tr).

Definition bind {A B : Type} (m : M A) (k : A -> M B) : M B :=
  fun tr =>
    match m tr with
    | (Ok a, tr') => k a tr'
    | (Err e, tr') => (Err e, tr')
    | (Panicked, tr') => (Panicked, tr')
    end.

Notation "x <- m ;; k" := (bind m (fun x => k))
  (at level 61, m at next level, right associativity).
Notation "m ;;; k" := (bind m (fun _ => k))
  (at level 61, right associativity).

(** A call that returns a value or an error. *)
Definition request {A : Type} (c : call) (answer : trace -> A + string) : M A :=
  fun tr =>
    (match answer tr with inl a => Ok a | inr e => Err e end, tr ++ [c]).

(** A call that returns only an error. *)
Definition command (c : call) (answer : trace -> option string) : M unit :=
  fun tr =>
    (match answer tr with None => Ok tt | Some e => Err e end, tr ++ [c]).

(** [if err != nil { return fmt.Errorf(...) }] around a step. *)
Definition wrapErr {A : Type} (f : string -> string) (m : M A) : M A :=
  fun tr =>
    match m tr with
    | (Err e, tr') => (Err (f e), tr')
    | r => r
    end.

(** The error of a computation, as Go returns it. *)
Definition errorOf {A : Type} (o : outcome A) : option string :=
  match o with
  | Err e => Some e
  | _ => None
  end.

(** [DeleteStaleComments] of the client: with a [nil] list ([None]) the
    comments of the issue are listed first; then every comment that
    [isStale] accepts is deleted, stopping at the first failure. *)
Fixpoint deleteStale (ghc : githubClient) (org repo : string)
  (comments : list IssueComment) (isStale : IssueComment -> bool) : M unit :=
  match comments with
  | [] => ret tt
  | c :: rest =>
      if isStale c
      then
        wrapErr
          (fun e =>
             Sprintf "failed to delete stale comment with ID '%v': %v" [Itoa (ID c); e])
          (command (CallDeleteComment org repo (ID c))
                   (fun tr => DeleteComment ghc tr org repo (ID c))) ;;;
        deleteStale ghc org repo rest isStale
      else deleteStale ghc org repo rest isStale
  end.

Definition DeleteStaleComments (ghc : githubClient) (org repo : string)
  (number : Z) (comments : option (list IssueComment))
  (isStale : IssueComment -> bool) : M unit :=
  match comments with
  | Some cs => deleteStale ghc org repo cs isStale
  | None =>
      cs <- wrapErr
              (fun e =>
                 Sprintf "failed to list comments while deleting stale comments. err: %v" [e])
              (request (CallListIssueComments org repo number)
                 (fun tr => ListIssueCommentsWithContext ghc tr org repo number)) ;;
      deleteStale ghc org repo cs isStale
  end.

(** ** The label reconciler *)

(** The three values [updateLabels] returns. *)
Record labelsResult : Type := mkLabelsResult
  { newLabels : list string;
    removedLabels : list string;
    err : option string }.

(** The flag loops [for _, x := range xs { if x == l { found = true } }]. *)
Definition foundIn (l : string) (xs : list string) : bool :=
  fold_left (fun found x => if String.eqb x l then true else found) xs false.

(** A label that none of the three classifiers accepts is skipped. *)
Definition unmanaged (prSuite : PRSuite) (l : string) : bool :=
  negb (labelIsVersionLabel l (KubernetesReleaseVersion prSuite))
  && negb (labelIsFileLabel l (MissingFiles prSuite))
  && negb (labelIsManaged l).

Definition org (pr : PullRequestQuery) : string := RepositoryOwnerLogin pr.
Definition repo (pr : PullRequestQuery) : string := RepositoryName pr.

(** The loop labelled [labels]: [inl] is a [return] out of [updateLabels],
    [inr] the value of [newLabels] when the loop ends. *)
Fixpoint addLoop (ghc : githubClient) (pr : PullRequestQuery) (prSuite : PRSuite)
  (labels : list string) (newLabels : list string) (tr : trace)
  : (labelsResult + list string) * trace :=
  match labels with
  | [] => (inr newLabels, tr)
  | l :: rest =>
      if unmanaged prSuite l then addLoop ghc pr prSuite rest newLabels tr
      else if foundIn l (Labels (PR prSuite))
      then addLoop ghc pr prSuite rest newLabels tr
      else
        let tr' := tr ++ [CallAddLabel (org pr) (repo pr) (Number pr) l] in
        match AddLabel ghc tr (org pr) (repo pr) (Number pr) l with
        | Some _ =>
            (inl {| newLabels := [];
                    removedLabels := [];
                    err := Some (Sprintf "failed to add label '%v' to %v/%v!%v"
                                   [l; org pr; repo pr; Itoa (Number pr)]) |},
             tr')
        | None => addLoop ghc pr prSuite rest (newLabels ++ [l]) tr'
        end
  end.

(** The loop labelled [prLabels], over [prLabels], the value of
    [prSuite.PR.Labels] when the loop starts; [labels] is the desired list. *)
Fixpoint removeLoop (ghc : githubClient) (pr : PullRequestQuery) (prSuite : PRSuite)
  (labels : list string) (prLabels : list string) (removedLabels : list string)
  (tr : trace) : (labelsResult + list string) * trace :=
  match prLabels with
  | [] => (inr removedLabels, tr)
  | prl :: rest =>
      if unmanaged prSuite prl
      then removeLoop ghc pr prSuite labels rest removedLabels tr
      else if foundIn prl labels
      then removeLoop ghc pr prSuite labels rest removedLabels tr
      else
        let tr' := tr ++ [CallRemoveLabel (org pr) (repo pr) (Number pr) prl] in
        match RemoveLabel ghc tr (org pr) (repo pr) (Number pr) prl with
        | Some _ =>
            (inl {| newLabels := [];
                    removedLabels := [];
                    err := Some (Sprintf "failed to add remove '%v' to %v/%v!%v"
                                   [prl; org pr; repo pr; Itoa (Number pr)]) |},
             tr')
        | None =>
            removeLoop ghc pr prSuite labels rest (Labels (PR prSuite) ++ [prl]) tr'
        end
  end.

Definition removeSliceOfStringsFromStringSlice
  (originalSlice removeSlice : list string) : list string :=
  filter (fun oItem => negb (existsb (fun delString => String.eqb oItem delString) removeSlice))
         originalSlice.

(** [updateLabels]: the returned values, the suite with its in-memory label
    list as the call leaves it, and the trace. *)
Definition updateLabels (ghc : githubClient) (pr : PullRequestQuery)
  (prSuite : PRSuite) (labels : list string) (tr : trace)
  : labelsResult * PRSuite * trace :=
  match addLoop ghc pr prSuite labels [] tr with
  | (inl early, tr1) => (early, prSuite, tr1)
  | (inr added, tr1) =>
      let prSuite1 := setLabels prSuite (Labels (PR prSuite) ++ added) in
      match removeLoop ghc pr prSuite1 labels (Labels (PR prSuite1)) [] tr1 with
      | (inl early, tr2) => (early, prSuite1, tr2)
      | (inr removed, tr2) =>
          let prSuite2 :=
            setLabels prSuite1
              (removeSliceOfStringsFromStringSlice (Labels (PR prSuite1)) removed) in
          ({| newLabels := added; removedLabels := removed; err := None |},
           prSuite2, tr2)
      end
  end.

(** ** The comment reconciler *)

Fixpoint lastComment (cs : list IssueComment) : option IssueComment :=
  match cs with
  | [] => None
  | [c] => Some c
  | _ :: rest => lastComment rest
  end.

(** The comments kept by the loop of [updateComments]: written by the bot
    and with a body. *)
Definition botCommentsOf (botUserChecker : string -> bool)
  (comments : list IssueComment) : list IssueComment :=
  filter (fun c => botUserChecker (UserLogin c) && negb (String.eqb (Body c) ""))
         comments.

Definition updateComments (ghc : githubClient) (pr : PullRequestQuery)
  (prSuite : PRSuite) (comment : string) : M unit :=
  comments <- wrapErr (fun e => Sprintf "unable to list comments, %v" [e])
                (request (CallListIssueComments (org pr) (repo pr) (Number pr))
                   (fun tr => ListIssueCommentsWithContext ghc tr (org pr) (repo pr) (Number pr))) ;;
  botUserChecker <- wrapErr (fun e => Sprintf "unable to get bot name, %v" [e])
                      (request CallBotUserChecker (BotUserChecker ghc)) ;;
  let botComments := botCommentsOf botUserChecker comments in
  if match lastComment botComments with
     | Some c => String.eqb (Body c) comment
     | None => false
     end
  then ret tt
  else
    let botCommentsToPrune := removelast botComments in
    wrapErr
      (fun e => Sprintf "unable to prune stale comments comments on PR (%v), %v"
                  [Itoa (Number pr); e])
      (DeleteStaleComments ghc (org pr) (repo pr) (Number pr)
         (Some botCommentsToPrune)
         (fun ic => botUserChecker (UserLogin ic))) ;;;
    command (CallCreateComment (org pr) (repo pr) (Number pr) comment)
            (fun tr => CreateComment ghc tr (org pr) (repo pr) (Number pr) comment).

(** ** Collaborators outside the plugin *)

(** What [common.ReadFile] can answer. *)
Inductive readResult : Type :=
| ReadOk (content : string)
| ReadNotExist (e : string)
| ReadFailed (e : string).

(** The packages [suite] and [common], the file system, the network and the
    YAML and path libraries, as the plugin uses them.  The methods of
    [*suite.PRSuite] may write to the suite, so they return it. *)
Record collaborators : Type := mkCollaborators
  { statIsNotExist : string -> bool;
    httpGet : string -> string + string;
    pathBase : string -> string;
    pathJoin : list string -> string;
    yamlUnmarshal : string -> option (string -> string);
    headContentType : string -> option string;
    NewPRSuite : PullRequest -> PRSuite;
    GetStableTxt : string + string;
    GetDataPath : string;
    SetSubmissionMetadatafromFolderStructure : PRSuite -> PRSuite;
    ItIsAValidAndSupportedRelease : PRSuite -> option string * PRSuite;
    ReadFile : string -> readResult;
    RunTestSuite : list string -> PRSuite -> PRSuite;
    GetLabelsAndCommentsFromSuiteResultsBuffer :
      PRSuite -> (string * list string * string * option string) * PRSuite }.

Definition productYAMLRequiredFieldDateTypes : list string :=
  [ "website_url"; "repo_url"; "documentation_url" ].

Fixpoint dropBytes (n : nat) (s : string) : string :=
  match n, s with
  | O, _ => s
  | S _, EmptyString => EmptyString
  | S k, String _ s' => dropBytes k s'
  end.

(** [strings.Replace s old new 1] for a non-empty [old]. *)
Fixpoint replaceFirst (s old new : string) : string :=
  if HasPrefix s old then (new ++ dropBytes (String.length old) s)%string
  else
    match s with
    | EmptyString => EmptyString
    | String c s' => String c (replaceFirst s' old new)
    end.

Definition rawURLForBlobURL (patchUrl : string) : string :=
  let fileUrl := replaceFirst patchUrl "github.com" "raw.githubusercontent.com" in
  replaceFirst fileUrl "/blob" "".

Definition fetchFileFromURI (env : collaborators) (uri : string) : string + string :=
  httpGet env uri.

Definition GetGodogPaths (env : collaborators) : list string :=
  filter (fun p => negb (statIsNotExist env p)) godogPaths.

(** [m[k] = v] on a map kept as an association list. *)
Fixpoint mapSet (k v : string) (m : list (string * string)) : list (string * string) :=
  match m with
  | [] => [(k, v)]
  | (k', v') :: rest =>
      if String.eqb k' k then (k, v) :: rest else (k', v') :: mapSet k v rest
  end.

Definition setPR (prSuite : PRSuite) (p : PullRequest) : PRSuite :=
  {| PR := p;
     KubernetesReleaseVersion := KubernetesReleaseVersion prSuite;
     KubernetesReleaseVersionLatest := KubernetesReleaseVersionLatest prSuite;
     MissingFiles := MissingFiles prSuite;
     MetadataFolder := MetadataFolder prSuite |}.

Definition setLatest (prSuite : PRSuite) (v : string) : PRSuite :=
  {| PR := PR prSuite;
     KubernetesReleaseVersion := KubernetesReleaseVersion prSuite;
     KubernetesReleaseVersionLatest := v;
     MissingFiles := MissingFiles prSuite;
     MetadataFolder := MetadataFolder prSuite |}.

Definition setMetadataFolder (prSuite : PRSuite) (d : string) : PRSuite :=
  {| PR := PR prSuite;
     KubernetesReleaseVersion := KubernetesReleaseVersion prSuite;
     KubernetesReleaseVersionLatest := KubernetesReleaseVersionLatest prSuite;
     MissingFiles := MissingFiles prSuite;
     MetadataFolder := d |}.

Definition addSupportingFile (prSuite : PRSuite) (f : PullRequestFile) : PRSuite :=
  setPR prSuite
    {| Query := Query (PR prSuite);
       Labels := Labels (PR prSuite);
       SupportingFiles := SupportingFiles (PR prSuite) ++ [f];
       ProductYAMLURLDataTypes := ProductYAMLURLDataTypes (PR prSuite) |}.

Definition setDataType (prSuite : PRSuite) (field contentType : string) : PRSuite :=
  setPR prSuite
    {| Query := Query (PR prSuite);
       Labels := Labels (PR prSuite);
       SupportingFiles := SupportingFiles (PR prSuite);
       ProductYAMLURLDataTypes :=
         mapSet field contentType (ProductYAMLURLDataTypes (PR prSuite)) |}.

(** The loop over the changed files of [NewPRSuiteForPR]; [productYAML] is
    the content of the last file named PRODUCT.yaml seen so far. *)
Fixpoint fetchChanges (env : collaborators) (pr : PullRequestQuery)
  (changes : list PullRequestChange) (prSuite : PRSuite) (productYAML : string)
  : M (PRSuite * string) :=
  match changes with
  | [] => ret (prSuite, productYAML)
  | c :: rest =>
      match fetchFileFromURI env (rawURLForBlobURL (ChangeBlobURL c)) with
      | inr e =>
          fail (Sprintf "error fetching content of '%v' in PR (%v) via '%v', %v"
                  [Filename c; Itoa (Number pr); ChangeBlobURL c; e])
      | inl content =>
          let baseName := pathBase env (Filename c) in
          let prFile := {| Name := Filename c; BaseName := baseName;
                           BlobURL := ChangeBlobURL c; Contents := content |} in
          fetchChanges env pr rest (addSupportingFile prSuite prFile)
            (if String.eqb baseName "PRODUCT.yaml" then content else productYAML)
      end
  end.

(** The loop over the URL fields of PRODUCT.yaml. *)
Fixpoint resolveFields (env : collaborators) (productYAML : string -> string)
  (fields : list string) (prSuite : PRSuite) : PRSuite :=
  match fields with
  | [] => prSuite
  | f :: rest =>
      let uri := productYAML f in
      if String.eqb uri "" then resolveFields env productYAML rest prSuite
      else
        let prSuite1 := setDataType prSuite f "" in
        match headContentType env uri with
        | None => resolveFields env productYAML rest prSuite1
        | Some contentType =>
            resolveFields env productYAML rest (setDataType prSuite1 f contentType)
        end
  end.

Definition NewPRSuiteForPR (env : collaborators) (ghc : githubClient)
  (pr : PullRequestQuery) : M PRSuite :=
  let prSuite :=
    NewPRSuite env {| Query := pr; Labels := []; SupportingFiles := [];
                      ProductYAMLURLDataTypes := [] |} in
  issueLabels <-
    wrapErr (fun e => Sprintf "error fetching PR issue labels for issue (%v), %v "
                        [Itoa (Number pr); e])
      (request (CallGetIssueLabels (org pr) (repo pr) (Number pr))
         (fun tr => GetIssueLabels ghc tr (org pr) (repo pr) (Number pr))) ;;
  let prSuite := setLabels prSuite (Labels (PR prSuite) ++ issueLabels) in
  match GetStableTxt env with
  | inr _ => fail "unable to read latest version info"
  | inl stableTxt =>
      let prSuite := setLatest prSuite stableTxt in
      changes <-
        wrapErr (fun e => Sprintf "error fetching PR (%v) changes, %v"
                            [Itoa (Number pr); e])
          (request (CallGetPullRequestChanges (org pr) (repo pr) (Number pr))
             (fun tr => GetPullRequestChanges ghc tr (org pr) (repo pr) (Number pr))) ;;
      fetched <- fetchChanges env pr changes prSuite "" ;;
      let '(prSuite, productYAMLContent) := fetched in
      if String.eqb productYAMLContent "" then ret prSuite
      else
        match yamlUnmarshal env productYAMLContent with
        | None => ret prSuite
        | Some productYAML =>
            ret (resolveFields env productYAML productYAMLRequiredFieldDateTypes prSuite)
        end
  end.

(** ** The status reconciler, the title gate and [handle] *)

Section Plugin.

(** The Unicode paths of the case functions of package [strings]. *)
Variable unicodeToLower : string -> string.
Variable unicodeToUpper : string -> string.
Variable unicodeEqualFold : string -> string -> bool.

Definition isConformancePR (pr : PullRequestQuery) : bool :=
  Contains (ToLower unicodeToLower (Title pr)) "conformance results for".

(** The inner loop of [commitLoop] over the contexts of one commit: the
    first context named like the plugin decides and ends both loops. *)
Fixpoint contextLoop (contexts : list StatusContext) : option bool :=
  match contexts with
  | [] => None
  | context :: rest =>
      if EqualFold unicodeEqualFold (Context context) "verify-conformance"
      then Some (EqualFold unicodeEqualFold (State context) StatusStateSuccess)
      else contextLoop rest
  end.

(** The loop labelled [commitLoop]: the value of
    [currentLatestHasCurrentStatus] when it ends. *)
Fixpoint commitLoop (headRefOID : string) (commits : list Commit) : bool :=
  match commits with
  | [] => false
  | commit :: rest =>
      if negb (String.eqb (Oid commit) headRefOID) then commitLoop headRefOID rest
      else
        match contextLoop (Contexts commit) with
        | Some b => b
        | None => commitLoop headRefOID rest
        end
  end.

Definition descriptionOf (state : string) : string :=
  if String.eqb state "success" then "All checks are passing"
  else if String.eqb state "failure"
       then "Please check failing requirements and update accordingly"
       else "Internal error".

Definition updateStatus (ghc : githubClient) (pr : PullRequestQuery)
  (prSuite : PRSuite) (state : string) : M unit :=
  if commitLoop (HeadRefOID pr) (Commits pr) then ret tt
  else
    let description := descriptionOf state in
    cs <- request (CallGetCombinedStatus (org pr) (repo pr) (HeadRefOID pr))
            (fun tr => GetCombinedStatus ghc tr (org pr) (repo pr) (HeadRefOID pr)) ;;
    if String.eqb (SHA cs) (HeadRefOID pr) && String.eqb (CombinedState cs) state
    then ret tt
    else
      let status := {| StatusState := state;
                       StatusContextName := "verify-conformance";
                       Description := description |} in
      command (CallCreateStatus (org pr) (repo pr) (HeadRefOID pr) status)
              (fun tr => CreateStatus ghc tr (org pr) (repo pr) (HeadRefOID pr) status).

(** [updateLabels] as [handle] calls it: only the error is looked at. *)
Definition runUpdateLabels (ghc : githubClient) (pr : PullRequestQuery)
  (prSuite : PRSuite) (labels : list string) : M (labelsResult * PRSuite) :=
  fun tr =>
    match updateLabels ghc pr prSuite labels tr with
    | (r, prSuite', tr') =>
        (match err r with
         | Some e => Err e
         | None => Ok (r, prSuite')
         end, tr')
    end.

Definition newline : string := String (ascii_of_nat 10) EmptyString.

Definition notConformanceComment : string :=
  Join
    [ "This pull request appears to not be a conformance results submission; Checks will not run.";
      "";
      ("If this change is intended to be verified as a conformance results submission see: "
       ++ "[_content of the PR_](https://github.com/cncf/k8s-conformance/blob/master/instructions.md#contents-of-the-pr), "
       ++ "and [_requirements_](https://github.com/cncf/k8s-conformance/blob/master/instructions.md#requirements)")%string ]
    newline.

Definition missingReleaseError (prSuite : PRSuite) : string :=
  Sprintf "unable to process release file as it is missing for release %v"
    [KubernetesReleaseVersion prSuite].

Definition handle (env : collaborators) (ghc : githubClient)
  (pr : PullRequestQuery) : M unit :=
  let godogFeaturePaths := GetGodogPaths env in
  prSuite <- NewPRSuiteForPR env ghc pr ;;
  let prSuite :=
    setMetadataFolder prSuite (pathJoin env [GetDataPath env; "conformance-testdata"]) in
  let prSuite := SetSubmissionMetadatafromFolderStructure env prSuite in
  if negb (isConformancePR pr) then
    let finalComment := notConformanceComment in
    let labels := ["not-conformance-product-submission"; "unable-to-process"] in
    let state := "pending" in
    updated <- runUpdateLabels ghc pr prSuite labels ;;
    let prSuite := snd updated in
    updateComments ghc pr prSuite finalComment ;;;
    updateStatus ghc pr prSuite state ;;;
    ret tt
  else
    match ItIsAValidAndSupportedRelease env prSuite with
    | (Some finalComment, prSuite) =>
        match finalComment with
        | EmptyString => fun tr => (Panicked, tr)
        | String first rest =>
            let finalComment :=
              Sprintf "%v."
                [(ToUpper unicodeToUpper (String first EmptyString) ++ rest)%string] in
            let labels := ["conformance-product-submission"; "unable-to-process"] in
            let state := "pending" in
            updated <- runUpdateLabels ghc pr prSuite labels ;;
            let prSuite := snd updated in
            updateComments ghc pr prSuite finalComment ;;;
            updateStatus ghc pr prSuite state ;;;
            fail (missingReleaseError prSuite)
        end
    | (None, prSuite) =>
        let conformanceYAMLFilePath :=
          pathJoin env [MetadataFolder prSuite; KubernetesReleaseVersion prSuite;
                        "conformance.yaml"] in
        match ReadFile env conformanceYAMLFilePath with
        | ReadNotExist _ =>
            let finalComment :=
              Sprintf "The release version %v is unable to be processed at this time; Please wait as this version may become available soon."
                [KubernetesReleaseVersion prSuite] in
            let labels := ["conformance-product-submission"; "unable-to-process"] in
            let state := "pending" in
            updated <- runUpdateLabels ghc pr prSuite labels ;;
            let prSuite := snd updated in
            updateComments ghc pr prSuite finalComment ;;;
            updateStatus ghc pr prSuite state ;;;
            fail (missingReleaseError prSuite)
        | _ =>
            let prSuite := RunTestSuite env godogFeaturePaths prSuite in
            match GetLabelsAndCommentsFromSuiteResultsBuffer env prSuite with
            | (_, _, _, Some e, _) => fail e
            | (finalComment, labels, state, None, prSuite) =>
                if String.eqb finalComment "" && Nat.eqb (List.length labels) 0
                then ret tt
                else
                  updated <- runUpdateLabels ghc pr prSuite labels ;;
                  let prSuite := snd updated in
                  updateComments ghc pr prSuite finalComment ;;;
                  updateStatus ghc pr prSuite state ;;;
                  ret tt
            end
        end
    end.

End Plugin.

(** ** Notions used in the statements *)

(** At most one of the three classifiers accepts the label. *)
Definition atMostOneCategory (label version : string) (missingFiles : list string)
  : Prop :=
  ~ (labelIsManaged label = true /\ labelIsVersionLabel label version = true)
  /\ ~ (labelIsManaged label = true /\ labelIsFileLabel label missingFiles = true)
  /\ ~ (labelIsVersionLabel label version = true
        /\ labelIsFileLabel label missingFiles = true).

(** The label carries the literal part of a version template. *)
Definition hasVersionPrefix (label : string) : Prop :=
  Contains label "release-" = true
  \/ Contains label "no-failed-tests-" = true
  \/ Contains label "tests-verified-" = true.

(** ** Sample inputs *)

(** A client scripted by the labels on which adding or removing fails; every
    other call succeeds and the reads return the given data. *)
Definition scriptedClient (issueLabels : list string)
  (comments : list IssueComment) (botLogin : string) (cs : CombinedStatus)
  (addFails removeFails : string -> bool) : githubClient :=
  {| GetIssueLabels := fun _ _ _ _ => inl issueLabels;
     GetPullRequestChanges := fun _ _ _ _ => inl [];
     AddLabel := fun _ _ _ _ l => if addFails l then Some "422" else None;
     RemoveLabel := fun _ _ _ _ l => if removeFails l then Some "404" else None;
     ListIssueCommentsWithContext := fun _ _ _ _ => inl comments;
     BotUserChecker := fun _ => inl (String.eqb botLogin);
     DeleteComment := fun _ _ _ _ => None;
     CreateComment := fun _ _ _ _ _ => None;
     GetCombinedStatus := fun _ _ _ _ => inl cs;
     CreateStatus := fun _ _ _ _ _ => None |}.

Definition noStatus : CombinedStatus := {| SHA := "abc123"; CombinedState := "" |}.

Definition samplePR : PullRequestQuery :=
  {| Number := 42;
     HeadRefOID := "abc123";
     AuthorLogin := "vendor";
     RepositoryName := "k8s-conformance";
     RepositoryOwnerLogin := "cncf";
     LabelNodes := [];
     FileNodes := [];
     Title := "Conformance results for v1.29/acme";
     Commits := [] |}.

Definition sampleSuite (pr : PullRequestQuery) (labels : list string)
  (version : string) : PRSuite :=
  {| PR := {| Query := pr; Labels := labels; SupportingFiles := [];
              ProductYAMLURLDataTypes := [] |};
     KubernetesReleaseVersion := version;
     KubernetesReleaseVersionLatest := "v1.30";
     MissingFiles := [];
     MetadataFolder := "" |}.

Definition okClient : githubClient :=
  scriptedClient [] [] "bot" noStatus (fun _ => false) (fun _ => false).

Definition secondAddFails : githubClient :=
  scriptedClient [] [] "bot" noStatus (String.eqb "unable-to-process")
    (fun _ => false).

Definition freshSuite : PRSuite := sampleSuite samplePR [] "v1.29".

Definition submissionLabels : list string :=
  ["conformance-product-submission"; "unable-to-process"].

(** The scenario of the specification: a stale release label and a label
    that the plugin does not manage. *)
Definition releaseScenarioSuite : PRSuite :=
  sampleSuite samplePR ["release-v1.28"; "unrelated-label"] "v1.29".

(** ** Notions used in the statements on the status reconciler *)

(** Some commit with the head Oid carries a context named verify-conformance
    whose state is success. *)
Definition headCarriesSuccess (pr : PullRequestQuery) : Prop :=
  exists commit context,
    In commit (Commits pr) /\ Oid commit = HeadRefOID pr
    /\ In context (Contexts commit)
    /\ Context context = "verify-conformance" /\ State context = "success".

(** The context is named like the plugin, letter case apart. *)
Definition tracked (unicodeEqualFold : string -> string -> bool)
  (context : StatusContext) : bool :=
  EqualFold unicodeEqualFold (Context context) "verify-conformance".

(** The state is success, letter case apart. *)
Definition saysSuccess (unicodeEqualFold : string -> string -> bool)
  (context : StatusContext) : bool :=
  EqualFold unicodeEqualFold (State context) StatusStateSuccess.

(** [context] is the first tracked context met when the commits with the
    head Oid are read in order, each with its contexts in order. *)
Definition firstTrackedContext (unicodeEqualFold : string -> string -> bool)
  (pr : PullRequestQuery) (context : StatusContext) : Prop :=
  exists before commit after cbefore cafter,
    Commits pr = before ++ commit :: after
    /\ Oid commit = HeadRefOID pr
    /\ (forall c, In c before -> Oid c = HeadRefOID pr ->
        forall x, In x (Contexts c) -> tracked unicodeEqualFold x = false)
    /\ Contexts commit = cbefore ++ context :: cafter
    /\ (forall x, In x cbefore -> tracked unicodeEqualFold x = false)
    /\ tracked unicodeEqualFold context = true.

Definition isCreateStatus (c : call) : bool :=
  match c with
  | CallCreateStatus _ _ _ _ => true
  | _ => false
  end.

(** A head commit with a stale failure context listed before a success
    context of the same name. *)
Definition twoContextsPR : PullRequestQuery :=
  {| Number := 42;
     HeadRefOID := "abc123";
     AuthorLogin := "vendor";
     RepositoryName := "k8s-conformance";
     RepositoryOwnerLogin := "cncf";
     LabelNodes := [];
     FileNodes := [];
     Title := "Conformance results for v1.29/acme";
     Commits :=
       [ {| Oid := "abc123";
            Contexts := [ {| Context := "verify-conformance"; State := "failure" |};
                          {| Context := "verify-conformance"; State := "success" |} ] |} ] |}.

(** A head commit whose only context is a success of the plugin. *)
Definition verifiedPR : PullRequestQuery :=
  {| Number := 42;
     HeadRefOID := "abc123";
     AuthorLogin := "vendor";
     RepositoryName := "k8s-conformance";
     RepositoryOwnerLogin := "cncf";
     LabelNodes := [];
     FileNodes := [];
     Title := "Conformance results for v1.29/acme";
     Commits :=
       [ {| Oid := "000000"; Contexts := [] |};
         {| Oid := "abc123";
            Contexts := [ {| Context := "tide"; State := "PENDING" |};
                          {| Context := "verify-conformance"; State := "SUCCESS" |} ] |} ] |}.

(** No Unicode table: every sample is ASCII. *)
Definition noFold : string -> string -> bool := fun _ _ => false.

(** ** Notions used in the statements on the comment reconciler *)

Definition isDeleteComment (c : call) : bool :=
  match c with
  | CallDeleteComment _ _ _ => true
  | _ => false
  end.

Definition isCreateComment (c : call) : bool :=
  match c with
  | CallCreateComment _ _ _ _ => true
  | _ => false
  end.

(** The delete call for a comment of the pull request. *)
Definition deleteCallFor (pr : PullRequestQuery) (c : IssueComment) : call :=
  CallDeleteComment (org pr) (repo pr) (ID c).

(** The two calls that open [updateComments]. *)
Definition listingCalls (pr : PullRequestQuery) : list call :=
  [ CallListIssueComments (org pr) (repo pr) (Number pr); CallBotUserChecker ].

(** The body of the latest comment of the list is [comment]. *)
Definition latestBodyIs (cs : list IssueComment) (comment : string) : Prop :=
  exists c, lastComment cs = Some c /\ Body c = comment.

(** Two comments of the bot, the older one with an empty body. *)
Definition emptyThenOld : list IssueComment :=
  [ {| ID := 1; Body := ""; UserLogin := "bot" |};
    {| ID := 2; Body := "old"; UserLogin := "bot" |} ].

(** A thread with three comments of the bot and one of the author. *)
Definition threeBotComments : list IssueComment :=
  [ {| ID := 1; Body := "first"; UserLogin := "bot" |};
    {| ID := 2; Body := "thanks"; UserLogin := "vendor" |};
    {| ID := 3; Body := "second"; UserLogin := "bot" |};
    {| ID := 4; Body := "third"; UserLogin := "bot" |} ].

Definition commentingClient (comments : list IssueComment) : githubClient :=
  scriptedClient [] comments "bot" noStatus (fun _ => false) (fun _ => false).

(** ** Notions used in the statements on [handle] *)

(** The calls that change the pull request on GitHub. *)
Definition isMutation (c : call) : bool :=
  match c with
  | CallAddLabel _ _ _ _ => true
  | CallRemoveLabel _ _ _ _ => true
  | CallDeleteComment _ _ _ => true
  | CallCreateComment _ _ _ _ => true
  | CallCreateStatus _ _ _ _ => true
  | _ => false
  end.

(** The suite as [handle] has it when the gates are tried. *)
Definition prepared (env : collaborators) (prSuite : PRSuite) : PRSuite :=
  SetSubmissionMetadatafromFolderStructure env
    (setMetadataFolder prSuite (pathJoin env [GetDataPath env; "conformance-testdata"])).

(** The three reconcilers in their order, stopping at the first error. *)
Definition reconcile (unicodeEqualFold : string -> string -> bool)
  (ghc : githubClient) (pr : PullRequestQuery) (prSuite : PRSuite)
  (labels : list string) (comment state : string) : M unit :=
  updated <- runUpdateLabels ghc pr prSuite labels ;;
  updateComments ghc pr (snd updated) comment ;;;
  updateStatus unicodeEqualFold ghc pr (snd updated) state.

Definition conformanceYAMLFilePath (env : collaborators) (prSuite : PRSuite) : string :=
  pathJoin env [MetadataFolder prSuite; KubernetesReleaseVersion prSuite;
                "conformance.yaml"].

Definition notYetProcessableComment (prSuite : PRSuite) : string :=
  Sprintf "The release version %v is unable to be processed at this time; Please wait as this version may become available soon."
    [KubernetesReleaseVersion prSuite].

(** Two ASCII strings that differ at most in the case of their letters. *)
Fixpoint sameButCase (s t : string) : bool :=
  match s, t with
  | EmptyString, EmptyString => true
  | String a s', String b t' =>
      isASCIIByte a && isASCIIByte b
      && Ascii.eqb (lowerByte a) (lowerByte b) && sameButCase s' t'
  | _, _ => false
  end.

(** Collaborators for a pull request of release [version]: the validator
    answers [validation], the metadata file reads as [metadata] and the rule
    suite returns [verdict]. *)
Definition sampleEnv (version : string) (validation : option string)
  (metadata : readResult) (verdict : string * list string * string * option string)
  : collaborators :=
  {| statIsNotExist := fun _ => false;
     httpGet := fun _ => inl "";
     pathBase := fun p => p;
     pathJoin := fun elems => Join elems "/";
     yamlUnmarshal := fun _ => None;
     headContentType := fun _ => None;
     NewPRSuite := fun p =>
       {| PR := p; KubernetesReleaseVersion := "";
          KubernetesReleaseVersionLatest := ""; MissingFiles := [];
          MetadataFolder := "" |};
     GetStableTxt := inl "v1.30";
     GetDataPath := "/var/run/ko";
     SetSubmissionMetadatafromFolderStructure := fun s =>
       {| PR := PR s; KubernetesReleaseVersion := version;
          KubernetesReleaseVersionLatest := KubernetesReleaseVersionLatest s;
          MissingFiles := MissingFiles s; MetadataFolder := MetadataFolder s |};
     ItIsAValidAndSupportedRelease := fun s => (validation, s);
     ReadFile := fun _ => metadata;
     RunTestSuite := fun _ s => s;
     GetLabelsAndCommentsFromSuiteResultsBuffer := fun s => (verdict, s) |}.

Definition noCase : string -> string := fun s => s.

Definition readmePR : PullRequestQuery :=
  {| Number := 7;
     HeadRefOID := "abc123";
     AuthorLogin := "vendor";
     RepositoryName := "k8s-conformance";
     RepositoryOwnerLogin := "cncf";
     LabelNodes := [];
     FileNodes := [];
     Title := "Update README";
     Commits := [] |}.

(** The computation returns: it does not panic. *)
Definition neverPanics {A : Type} (m : M A) : Prop :=
  forall tr, fst (m tr) <> Panicked.

(** The text [handle] posts when the release validator answers with the
    error text [String first rest]. *)
Definition releaseComment (unicodeToUpper : string -> string) (first : ascii)
  (rest : string) : string :=
  (ToUpper unicodeToUpper (String first EmptyString) ++ rest ++ ".")%string.

(** An error text with its first letter capitalized, for a text that starts
    with an ASCII letter. *)
Definition capitalized (s : string) : string :=
  match s with
  | EmptyString => EmptyString
  | String c rest => String (upperByte c) rest
  end.

Definition unsupportedText : string :=
  "unable to use version v1.99 because it is newer than the current supported release".

Definition unsupportedEnv : collaborators :=
  sampleEnv "v1.99" (Some unsupportedText) (ReadOk "") ("", [], "pending", None).

Definition nothingNewEnv : collaborators :=
  sampleEnv "v1.29" None (ReadOk "") ("", [], "success", None).


(** The suite that [sampleEnv] yields when [handle] tries the gates. *)
Definition gateSuite (pr : PullRequestQuery) (version : string) : PRSuite :=
  {| PR := {| Query := pr; Labels := []; SupportingFiles := [];
              ProductYAMLURLDataTypes := [] |};
     KubernetesReleaseVersion := version;
     KubernetesReleaseVersionLatest := "v1.30";
     MissingFiles := [];
     MetadataFolder := "/var/run/ko/conformance-testdata" |}.

Definition readCalls (pr : PullRequestQuery) : list call :=
  [ CallGetIssueLabels (org pr) (repo pr) (Number pr);
    CallGetPullRequestChanges (org pr) (repo pr) (Number pr) ].

(** The suite that [NewPRSuiteForPR] builds with [sampleEnv]. *)
Definition builtSuite (pr : PullRequestQuery) : PRSuite :=
  {| PR := {| Query := pr; Labels := []; SupportingFiles := [];
              ProductYAMLURLDataTypes := [] |};
     KubernetesReleaseVersion := "";
     KubernetesReleaseVersionLatest := "v1.30";
     MissingFiles := [];
     MetadataFolder := "" |}.

Definition pendingStatus : Status :=
  {| StatusState := "pending";
     StatusContextName := "verify-conformance";
     Description := "Internal error" |}.

(** The calls of each reconciler. *)
Definition isLabelCall (c : call) : bool :=
  match c with
  | CallAddLabel _ _ _ _ => true
  | CallRemoveLabel _ _ _ _ => true
  | _ => false
  end.

Definition isCommentCall (c : call) : bool :=
  match c with
  | CallListIssueComments _ _ _ => true
  | CallBotUserChecker => true
  | CallDeleteComment _ _ _ => true
  | CallCreateComment _ _ _ _ => true
  | _ => false
  end.

Definition isStatusCall (c : call) : bool :=
  match c with
  | CallGetCombinedStatus _ _ _ => true
  | CallCreateStatus _ _ _ _ => true
  | _ => false
  end.

(** Every call the computation makes satisfies [P]. *)
Definition emits {A : Type} (P : call -> bool) (m : M A) : Prop :=
  forall tr, exists calls, snd (m tr) = tr ++ calls /\ forallb P calls = true.

(** The calls made from [tr0] on are label calls, then comment calls, then
    status calls. *)
Definition labelsCommentStatus (tr0 tr' : trace) : Prop :=
  exists ls cs ss,
    tr' = tr0 ++ ls ++ cs ++ ss
    /\ forallb isLabelCall ls = true
    /\ forallb isCommentCall cs = true
    /\ forallb isStatusCall ss = true.


(** * Further notions and samples *)

(** The reason [updateLabels] has for a call: a label is added when it is
    desired, managed and absent from the in-memory list; it is removed when
    it is in the in-memory list, managed and not desired. *)
Definition justifiedLabelCall (pr : PullRequestQuery) (prSuite : PRSuite)
  (labels : list string) (c : call) : Prop :=
  match c with
  | CallAddLabel o r n l =>
      o = org pr /\ r = repo pr /\ n = Number pr
      /\ In l labels /\ unmanaged prSuite l = false
      /\ ~ In l (Labels (PR prSuite))
  | CallRemoveLabel o r n l =>
      o = org pr /\ r = repo pr /\ n = Number pr
      /\ In l (Labels (PR prSuite)) /\ unmanaged prSuite l = false
      /\ ~ In l labels
  | _ => False
  end.

(** A suite that already carries the labels of a processed submission next
    to a label of the repository's own. *)
Definition settledSuite : PRSuite :=
  sampleSuite samplePR
    ["conformance-product-submission"; "release-v1.29"; "needs-review"] "v1.29".

Definition settledLabels : list string :=
  ["release-v1.29"; "conformance-product-submission"].

(** A client on which removing the label release-v1.28 fails. *)
Definition removalFails : githubClient :=
  scriptedClient [] [] "bot" noStatus (fun _ => false) (String.eqb "release-v1.28").

(** The head commit is verified: the first tracked context met on the
    commits with the head Oid says success. *)
Definition verified (unicodeEqualFold : string -> string -> bool)
  (pr : PullRequestQuery) : Prop :=
  exists context,
    firstTrackedContext unicodeEqualFold pr context
    /\ saysSuccess unicodeEqualFold context = true.

(** The status [updateStatus] creates for a state. *)
Definition statusFor (state : string) : Status :=
  {| StatusState := state;
     StatusContextName := "verify-conformance";
     Description := descriptionOf state |}.

Definition getStatusCall (pr : PullRequestQuery) : call :=
  CallGetCombinedStatus (org pr) (repo pr) (HeadRefOID pr).

Definition createStatusCall (pr : PullRequestQuery) (state : string) : call :=
  CallCreateStatus (org pr) (repo pr) (HeadRefOID pr) (statusFor state).

(** A client whose combined status is pending for the head commit. *)
Definition pendingClient : githubClient :=
  scriptedClient [] [] "bot" {| SHA := "abc123"; CombinedState := "pending" |}
    (fun _ => false) (fun _ => false).

Definition createCommentCall (pr : PullRequestQuery) (comment : string) : call :=
  CallCreateComment (org pr) (repo pr) (Number pr) comment.

(** A thread where only the author of the pull request has written. *)
Definition authorOnly : list IssueComment :=
  [ {| ID := 11; Body := "please take a look"; UserLogin := "vendor" |} ].

(** [sampleEnv] with another answer of [common.GetStableTxt]. *)
Definition withStableTxt (env : collaborators) (answer : string + string)
  : collaborators :=
  {| statIsNotExist := statIsNotExist env;
     httpGet := httpGet env;
     pathBase := pathBase env;
     pathJoin := pathJoin env;
     yamlUnmarshal := yamlUnmarshal env;
     headContentType := headContentType env;
     NewPRSuite := NewPRSuite env;
     GetStableTxt := answer;
     GetDataPath := GetDataPath env;
     SetSubmissionMetadatafromFolderStructure :=
       SetSubmissionMetadatafromFolderStructure env;
     ItIsAValidAndSupportedRelease := ItIsAValidAndSupportedRelease env;
     ReadFile := ReadFile env;
     RunTestSuite := RunTestSuite env;
     GetLabelsAndCommentsFromSuiteResultsBuffer :=
       GetLabelsAndCommentsFromSuiteResultsBuffer env |}.

Definition noStableEnv : collaborators :=
  withStableTxt nothingNewEnv (inr "connection refused").

Definition suiteFailsEnv : collaborators :=
  sampleEnv "v1.29" None (ReadOk "") ("", [], "", Some "no results in the buffer").

Definition emptyTextEnv : collaborators :=
  sampleEnv "v1.29" (Some "") (ReadOk "") ("", [], "", None).

(** A passing verdict; the metadata file cannot be read for another reason
    than its absence. *)
Definition passingEnv : collaborators :=
  sampleEnv "v1.29" None (ReadFailed "permission denied")
    ("All requirements (3) have passed for the submission!",
     ["conformance-product-submission"; "release-v1.29"], "success", None).

(** The calls made from [tr] on are reads, then label calls, then comment
    calls, then status calls. *)
Definition readsThenReconciles (tr tr' : trace) : Prop :=
  exists reads,
    existsb isMutation reads = false
    /\ labelsCommentStatus (tr ++ reads) tr'.

(** The pull request [NewPRSuiteForPR] hands to [suite.NewPRSuite]. *)
Definition initialPR (pr : PullRequestQuery) : PullRequest :=
  {| Query := pr; Labels := []; SupportingFiles := [];
     ProductYAMLURLDataTypes := [] |}.

(** The supporting file recorded for a change of the pull request. *)
Definition recordedAs (env : collaborators) (c : PullRequestChange)
  (f : PullRequestFile) : Prop :=
  Name f = Filename c
  /\ BaseName f = pathBase env (Filename c)
  /\ BlobURL f = ChangeBlobURL c
  /\ fetchFileFromURI env (rawURLForBlobURL (ChangeBlobURL c)) = inl (Contents f).

(** [v, ok := m[k]] on a map kept as an association list. *)
Fixpoint mapGet (k : string) (m : list (string * string)) : option string :=
  match m with
  | [] => None
  | (k', v) :: rest => if String.eqb k' k then Some v else mapGet k rest
  end.

(** What the loop over the URL fields records for a URL. *)
Definition dataTypeOf (env : collaborators) (uri : string) : string :=
  match headContentType env uri with
  | Some contentType => contentType
  | None => EmptyString
  end.


(** A client for a pull request with two labels and two changed files. *)
Definition submissionClient : githubClient :=
  {| GetIssueLabels := fun _ _ _ _ => inl ["needs-review"; "release-v1.29"];
     GetPullRequestChanges := fun _ _ _ _ =>
       inl [ {| Filename := "v1.29/acme/README.md";
                ChangeBlobURL := "https://github.com/cncf/k8s-conformance/blob/0a1b/v1.29/acme/README.md" |};
             {| Filename := "v1.29/acme/PRODUCT.yaml";
                ChangeBlobURL := "https://github.com/cncf/k8s-conformance/blob/0a1b/v1.29/acme/PRODUCT.yaml" |} ];
     AddLabel := fun _ _ _ _ _ => None;
     RemoveLabel := fun _ _ _ _ _ => None;
     ListIssueCommentsWithContext := fun _ _ _ _ => inl [];
     BotUserChecker := fun _ => inl (String.eqb "bot");
     DeleteComment := fun _ _ _ _ => None;
     CreateComment := fun _ _ _ _ _ => None;
     GetCombinedStatus := fun _ _ _ _ => inl noStatus;
     CreateStatus := fun _ _ _ _ _ => None |}.

(** The last element of a slash-separated path, for paths that do not end
    with a slash, as [path.Base] gives it. *)
Fixpoint lastElement (acc p : string) : string :=
  match p with
  | EmptyString => acc
  | String c rest =>
      if Ascii.eqb c "/" then lastElement EmptyString rest
      else lastElement (acc ++ String c EmptyString)%string rest
  end.

(** Collaborators that serve every file with a fixed content. *)
Definition fetchingEnv : collaborators :=
  {| statIsNotExist := fun _ => false;
     httpGet := fun _ => inl "vendor: acme";
     pathBase := lastElement EmptyString;
     pathJoin := fun elems => Join elems "/";
     yamlUnmarshal := fun _ => Some (fun field =>
       if String.eqb field "website_url" then "https://acme.example" else EmptyString);
     headContentType := fun _ => Some "text/html";
     NewPRSuite := fun p =>
       {| PR := p; KubernetesReleaseVersion := "";
          KubernetesReleaseVersionLatest := ""; MissingFiles := [];
          MetadataFolder := "" |};
     GetStableTxt := inl "v1.30";
     GetDataPath := "/var/run/ko";
     SetSubmissionMetadatafromFolderStructure := fun s => s;
     ItIsAValidAndSupportedRelease := fun s => (None, s);
     ReadFile := fun _ => ReadOk "";
     RunTestSuite := fun _ s => s;
     GetLabelsAndCommentsFromSuiteResultsBuffer := fun s =>
       (("", [], "success", None), s) |}.

(** No byte of the string is a slash. *)
Fixpoint noSlash (s : string) : bool :=
  match s with
  | EmptyString => true
  | String c rest => negb (Ascii.eqb c "/") && noSlash rest
  end.

(** ** The search *)

(** [SearchQuery], one page of answers. *)
Record SearchQuery : Type := mkSearchQuery
  { RateLimitCost : Z;
    RateLimitRemaining : Z;
    HasNextPage : bool;
    EndCursor : string;
    Nodes : list PullRequestQuery }.

(** A call of [QueryWithGitHubAppsSupport]: the query text, the search
    cursor ([None] for the nil pointer of the first page) and the org. *)
Record queryCall : Type := mkQueryCall
  { QueryText : string;
    QueryCursor : option string;
    QueryOrg : string }.

(** [QueryWithGitHubAppsSupport] for the search query, answering from the
    queries made so far. *)
Definition querier : Type :=
  list queryCall -> string -> option string -> string -> SearchQuery + string.

(** The loop of [search]; it has no bound of its own, so the model counts
    the pages it may still ask for and answers [None] when the count runs
    out before the server reports the last page. *)
Fixpoint searchLoop (pagesLeft : nat) (query : querier) (q org : string)
  (cursor : option string) (ret : list PullRequestQuery) (asked : list queryCall)
  : option (list PullRequestQuery + string) * list queryCall :=
  match pagesLeft with
  | O => (None, asked)
  | S pagesLeft' =>
      let asked' := asked ++ [mkQueryCall q cursor org] in
      match query asked q cursor org with
      | inr e => (Some (inr e), asked')
      | inl sq =>
          let ret := ret ++ Nodes sq in
          if negb (HasNextPage sq) then (Some (inl ret), asked')
          else searchLoop pagesLeft' query q org (Some (EndCursor sq)) ret asked'
      end
  end.

Definition search (pagesLeft : nat) (query : querier) (q org : string)
  (asked : list queryCall) : option (list PullRequestQuery + string) * list queryCall :=
  searchLoop pagesLeft query q org None [] asked.

(** The server answers the queries that start at [cursor] with the given
    pages, the last of which reports no further page. *)
Inductive answersPages (query : querier) (q org : string)
  : list queryCall -> option string -> list SearchQuery -> Prop :=
| answersLast (asked : list queryCall) (cursor : option string) (sq : SearchQuery) :
    query asked q cursor org = inl sq ->
    HasNextPage sq = false ->
    answersPages query q org asked cursor [sq]
| answersNext (asked : list queryCall) (cursor : option string) (sq : SearchQuery)
    (pages : list SearchQuery) :
    query asked q cursor org = inl sq ->
    HasNextPage sq = true ->
    answersPages query q org (asked ++ [mkQueryCall q cursor org])
      (Some (EndCursor sq)) pages ->
    answersPages query q org asked cursor (sq :: pages).

(** The server answers the given pages, each reporting a further page, and
    then fails with [e]. *)
Inductive answersThenFails (query : querier) (q org : string) (e : string)
  : list queryCall -> option string -> list SearchQuery -> Prop :=
| failsNow (asked : list queryCall) (cursor : option string) :
    query asked q cursor org = inr e ->
    answersThenFails query q org e asked cursor []
| failsLater (asked : list queryCall) (cursor : option string) (sq : SearchQuery)
    (pages : list SearchQuery) :
    query asked q cursor org = inl sq ->
    HasNextPage sq = true ->
    answersThenFails query q org e (asked ++ [mkQueryCall q cursor org])
      (Some (EndCursor sq)) pages ->
    answersThenFails query q org e asked cursor (sq :: pages).

(** The cursors of the queries for a run of pages that starts at [cursor]. *)
Fixpoint cursorsOf (cursor : option string) (pages : list SearchQuery)
  : list (option string) :=
  match pages with
  | [] => []
  | sq :: rest => cursor :: cursorsOf (Some (EndCursor sq)) rest
  end.

Definition queriesOf (q org : string) (cursors : list (option string))
  : list queryCall :=
  map (fun cursor => mkQueryCall q cursor org) cursors.

(** A server with two pages, told apart by the cursor. *)
Definition twoPages : querier :=
  fun _ _ cursor _ =>
    match cursor with
    | None =>
        inl {| RateLimitCost := 1; RateLimitRemaining := 4999;
               HasNextPage := true; EndCursor := "Y3Vyc29yOjE=";
               Nodes := [samplePR] |}
    | Some _ =>
        inl {| RateLimitCost := 1; RateLimitRemaining := 4998;
               HasNextPage := false; EndCursor := "";
               Nodes := [readmePR] |}
    end.

(** A server whose second page fails. *)
Definition secondPageFails : querier :=
  fun _ _ cursor _ =>
    match cursor with
    | None =>
        inl {| RateLimitCost := 1; RateLimitRemaining := 0;
               HasNextPage := true; EndCursor := "Y3Vyc29yOjE=";
               Nodes := [samplePR] |}
    | Some _ => inr "API rate limit exceeded"
    end.

(** A server that always reports a further page. *)
Definition endlessPages : querier :=
  fun _ _ _ _ =>
    inl {| RateLimitCost := 1; RateLimitRemaining := 4999;
           HasNextPage := true; EndCursor := "Y3Vyc29yOjE=";
           Nodes := [samplePR] |}.

(** ** The entry points *)

(** The conversion of an [int] to [githubql.Int], an [int32]. *)
Definition toInt32 (n : Z) : Z :=
  ((n + 2147483648) mod 4294967296 - 2147483648)%Z.

(** [github.PullRequest], with the fields the plugin uses. *)
Record GitHubPullRequest : Type := mkGitHubPullRequest
  { GitHubTitle : string;
    GitHubNumber : Z;
    GitHubUserLogin : string }.

Definition NewPullRequestQueryForGithubPullRequest (orgName repoName : string)
  (number : Z) (pr : GitHubPullRequest) : PullRequestQuery :=
  {| Number := toInt32 number;
     HeadRefOID := EmptyString;
     AuthorLogin := GitHubUserLogin pr;
     RepositoryName := repoName;
     RepositoryOwnerLogin := GitHubUserLogin pr;
     LabelNodes := [];
     FileNodes := [];
     Title := GitHubTitle pr;
     Commits := [] |}.

Definition NewGitHubPullRequestForPullRequestQuery (orgName repoName : string)
  (number : Z) (pr : PullRequestQuery) : GitHubPullRequest :=
  {| GitHubTitle := Title pr;
     GitHubNumber := number;
     GitHubUserLogin := AuthorLogin pr |}.

(** [github.PullRequestActionOpened] and [github.PullRequestActionReopened]. *)
Definition PullRequestActionOpened : string := "opened".
Definition PullRequestActionReopened : string := "reopened".

(** [github.PullRequestEvent], with the fields the plugin uses. *)
Record PullRequestEvent : Type := mkPullRequestEvent
  { Action : string;
    EventNumber : Z;
    EventPullRequest : GitHubPullRequest;
    EventRepoOwnerLogin : string;
    EventRepoName : string }.

(** [github.IssueCommentEvent], with the fields the plugin uses;
    [IssueIsPullRequest] is the answer of [ice.Issue.IsPullRequest()]. *)
Record IssueCommentEvent : Type := mkIssueCommentEvent
  { IssueIsPullRequest : bool;
    IssueNumber : Z;
    CommentRepoOwnerLogin : string;
    CommentRepoName : string }.

Section EntryPoints.

Variable unicodeToLower : string -> string.
Variable unicodeToUpper : string -> string.
Variable unicodeEqualFold : string -> string -> bool.

Definition HandlePullRequestEvent (env : collaborators) (ghc : githubClient)
  (pre : PullRequestEvent) : M unit :=
  if String.eqb (Action pre) PullRequestActionOpened
     || String.eqb (Action pre) PullRequestActionReopened
  then
    handle unicodeToLower unicodeToUpper unicodeEqualFold env ghc
      (NewPullRequestQueryForGithubPullRequest (EventRepoOwnerLogin pre)
         (EventRepoName pre) (EventNumber pre) (EventPullRequest pre))
  else ret tt.

(** [GetPullRequest] is the method of the client that answers with the pull
    request of the issue.  It is a read made before every other call; the
    trace holds the calls of [handle] only. *)
Definition HandleIssueCommentEvent
  (GetPullRequest : trace -> string -> string -> Z -> GitHubPullRequest + string)
  (env : collaborators) (ghc : githubClient) (ice : IssueCommentEvent) : M unit :=
  if negb (IssueIsPullRequest ice) then ret tt
  else
    fun tr =>
      match GetPullRequest tr (CommentRepoOwnerLogin ice) (CommentRepoName ice)
              (IssueNumber ice) with
      | inr e => (Err e, tr)
      | inl pr =>
          handle unicodeToLower unicodeToUpper unicodeEqualFold env ghc
            (NewPullRequestQueryForGithubPullRequest (CommentRepoOwnerLogin ice)
               (CommentRepoName ice) (IssueNumber ice) pr) tr
      end.

End EntryPoints.

(** The call is made for the repository, the number and the head commit of
    the pull request. *)
Definition addresses (pr : PullRequestQuery) (c : call) : bool :=
  match c with
  | CallGetIssueLabels o r n
  | CallGetPullRequestChanges o r n
  | CallListIssueComments o r n =>
      String.eqb o (org pr) && String.eqb r (repo pr) && Z.eqb n (Number pr)
  | CallAddLabel o r n _
  | CallRemoveLabel o r n _
  | CallCreateComment o r n _ =>
      String.eqb o (org pr) && String.eqb r (repo pr) && Z.eqb n (Number pr)
  | CallBotUserChecker => true
  | CallDeleteComment o r _ => String.eqb o (org pr) && String.eqb r (repo pr)
  | CallGetCombinedStatus o r ref
  | CallCreateStatus o r ref _ =>
      String.eqb o (org pr) && String.eqb r (repo pr)
      && String.eqb ref (HeadRefOID pr)
  end.

(** An event for a pull request opened by vendor in cncf/k8s-conformance. *)
Definition openedEvent (action : string) : PullRequestEvent :=
  {| Action := action;
     EventNumber := 42;
     EventPullRequest :=
       {| GitHubTitle := "Conformance results for v1.29/acme";
          GitHubNumber := 42;
          GitHubUserLogin := "vendor" |};
     EventRepoOwnerLogin := "cncf";
     EventRepoName := "k8s-conformance" |}.

(** A comment on the pull request 42 of cncf/k8s-conformance, or on an
    issue that is not a pull request. *)
Definition commentEvent (onPullRequest : bool) : IssueCommentEvent :=
  {| IssueIsPullRequest := onPullRequest;
     IssueNumber := 42;
     CommentRepoOwnerLogin := "cncf";
     CommentRepoName := "k8s-conformance" |}.

Definition pullRequestNotFound
  : trace -> string -> string -> Z -> GitHubPullRequest + string :=
  fun _ _ _ _ => inr "404 Not Found".

(** ** The periodic scan *)

(** The number of slashes of a string: [strings.Split s "/"] has one part
    more. *)
Fixpoint countSlashes (s : string) : nat :=
  match s with
  | EmptyString => O
  | String c rest => (if Ascii.eqb c "/" then 1 else 0) + countSlashes rest
  end.

(** [strings.Split(s, "/")[0]]: the text before the first slash. *)
Fixpoint beforeSlash (s : string) : string :=
  match s with
  | EmptyString => EmptyString
  | String c rest =>
      if Ascii.eqb c "/" then EmptyString else String c (beforeSlash rest)
  end.

Definition doubleQuote : string := String (ascii_of_nat 34) EmptyString.

Definition openPRsQuery : string := "archived:false is:pr is:open ".

(** The loop of [HandleAll] over the configured repositories: the orgs to
    search and the text of the query. *)
Fixpoint reposLoop (repos orgs : list string) (queryOpenPRs : string)
  : list string * string :=
  match repos with
  | [] => (orgs, queryOpenPRs)
  | repo :: rest =>
      if negb (Nat.eqb (countSlashes repo + 1) 2)
      then reposLoop rest orgs queryOpenPRs
      else
        reposLoop rest (orgs ++ [beforeSlash repo])
          (queryOpenPRs ++ " repo:" ++ doubleQuote ++ repo ++ doubleQuote)%string
  end.

(** The loop of [HandleAll] over the orgs: one search per org, all with the
    same query text. *)
Fixpoint searchOrgs (pagesLeft : nat) (query : querier) (q : string)
  (orgs : list string) (prs : list PullRequestQuery) (asked : list queryCall)
  : option (list PullRequestQuery + string) * list queryCall :=
  match orgs with
  | [] => (Some (inl prs), asked)
  | org :: rest =>
      match search pagesLeft query q org asked with
      | (Some (inl prSearch), asked') =>
          searchOrgs pagesLeft query q rest (prs ++ prSearch) asked'
      | stopped => stopped
      end
  end.

Section Scan.

Variable unicodeToLower : string -> string.
Variable unicodeToUpper : string -> string.
Variable unicodeEqualFold : string -> string -> bool.

(** The loop of [HandleAll] over the pull requests found: the error of
    [handle] is logged and the loop goes on. *)
Fixpoint handleEach (env : collaborators) (ghc : githubClient)
  (prs : list PullRequestQuery) : M unit :=
  match prs with
  | [] => ret tt
  | pr :: rest =>
      fun tr =>
        match handle unicodeToLower unicodeToUpper unicodeEqualFold env ghc pr tr with
        | (Panicked, tr') => (Panicked, tr')
        | (_, tr') => handleEach env ghc rest tr'
        end
  end.

(** [HandleAll]; [orgs] and [repos] are what
    [config.EnabledReposForExternalPlugin] answers.  The result is [None]
    when a search was still asking for pages after [pagesLeft] of them. *)
Definition HandleAll (pagesLeft : nat) (env : collaborators) (query : querier)
  (ghc : githubClient) (orgs repos : list string) (asked : list queryCall)
  (tr : trace) : option (outcome unit) * list queryCall * trace :=
  if Nat.eqb (List.length orgs) 0 && Nat.eqb (List.length repos) 0
  then (Some (Ok tt), asked, tr)
  else
    let '(orgs, queryOpenPRs) := reposLoop repos orgs openPRsQuery in
    match searchOrgs pagesLeft query queryOpenPRs orgs [] asked with
    | (None, asked') => (None, asked', tr)
    | (Some (inr e), asked') => (Some (Err e), asked', tr)
    | (Some (inl prs), asked') =>
        match handleEach env ghc prs tr with
        | (Panicked, tr') => (Some Panicked, asked', tr')
        | (_, tr') => (Some (Ok tt), asked', tr')
        end
    end.

End Scan.

(** The text added to the query for a repository. *)
Definition repoClause (repo : string) : string :=
  (" repo:" ++ doubleQuote ++ repo ++ doubleQuote)%string.

(** The entry has the form org/repo. *)
Definition wellFormedRepo (repo : string) : bool :=
  Nat.eqb (countSlashes repo) 1.

(** A server that answers every query with one page holding the two sample
    pull requests. *)
Definition onePage : querier :=
  fun _ _ _ _ =>
    inl {| RateLimitCost := 1; RateLimitRemaining := 4999;
           HasNextPage := false; EndCursor := "";
           Nodes := [samplePR; readmePR] |}.

Definition configuredRepos : list string :=
  ["cncf/k8s-conformance"; "k8s-conformance"; "cncf/k8s/conformance"].
(** * Properties *)

(** ** Strings *)

Lemma append_assoc (a b c : string) :
  ((a ++ b) ++ c = a ++ (b ++ c))%string.
Proof. induction a as [|x a IH]; cbn; [reflexivity | rewrite IH; reflexivity]. Qed.

Lemma HasPrefix_app (p r : string) : HasPrefix (p ++ r)%string p = true.
Proof.
  induction p as [|a p IH]; simpl.
  - reflexivity.
  - rewrite Ascii.eqb_refl. exact IH.
Qed.

Lemma HasPrefix_inv (s p : string) :
  HasPrefix s p = true -> exists r, s = (p ++ r)%string.
Proof.
  revert s. induction p as [|a p IH]; intros s H.
  - exists s. reflexivity.
  - destruct s as [|b s]; simpl in H; [discriminate|].
    apply andb_prop in H. destruct H as [Hab Hp].
    apply Ascii.eqb_eq in Hab. subst b.
    destruct (IH s Hp) as [r ->]. exists r. reflexivity.
Qed.

Lemma Contains_here (s p : string) : HasPrefix s p = true -> Contains s p = true.
Proof. intros H. destruct s; simpl in *; rewrite H; reflexivity. Qed.

Lemma Contains_later (c : ascii) (s p : string) :
  Contains s p = true -> Contains (String c s) p = true.
Proof.
  intros H. change (Contains (String c s) p)
    with (HasPrefix (String c s) p || Contains s p).
  rewrite H. apply orb_true_r.
Qed.

Lemma Contains_app (pre sub suf : string) :
  Contains (pre ++ sub ++ suf)%string sub = true.
Proof.
  induction pre as [|c pre IH].
  - change (Contains (sub ++ suf)%string sub = true).
    apply Contains_here. apply HasPrefix_app.
  - change (Contains (String c (pre ++ sub ++ suf)%string) sub = true).
    apply Contains_later. exact IH.
Qed.

Lemma Contains_inv (s sub : string) :
  Contains s sub = true -> exists pre suf, s = (pre ++ sub ++ suf)%string.
Proof.
  induction s as [|c s IH]; intros H.
  - simpl in H. rewrite orb_false_r in H.
    destruct (HasPrefix_inv _ _ H) as [r Hr]. exists EmptyString, r. exact Hr.
  - change (HasPrefix (String c s) sub || Contains s sub = true) in H.
    apply orb_prop in H. destruct H as [H|H].
    + destruct (HasPrefix_inv _ _ H) as [r Hr]. exists EmptyString, r. exact Hr.
    + destruct (IH H) as [pre [suf ->]]. exists (String c pre), suf. reflexivity.
Qed.

(** [strings.Contains] finds exactly the substrings. *)
Lemma Contains_spec (s sub : string) :
  Contains s sub = true <-> exists pre suf, s = (pre ++ sub ++ suf)%string.
Proof.
  split.
  - apply Contains_inv.
  - intros [pre [suf ->]]. apply Contains_app.
Qed.

Lemma foundIn_acc (l : string) (xs : list string) (acc : bool) :
  fold_left (fun found x => if String.eqb x l then true else found) xs acc
  = acc || existsb (fun x => String.eqb x l) xs.
Proof.
  revert acc. induction xs as [|x xs IH]; intros acc; simpl.
  - rewrite orb_false_r. reflexivity.
  - rewrite IH. destruct (String.eqb x l), acc; reflexivity.
Qed.

Lemma foundIn_true (l : string) (xs : list string) :
  foundIn l xs = true <-> In l xs.
Proof.
  unfold foundIn. rewrite foundIn_acc. simpl. rewrite existsb_exists. split.
  - intros [x [Hx Heq]]. apply String.eqb_eq in Heq. subst x. exact Hx.
  - intros H. exists l. split; [exact H | apply String.eqb_refl].
Qed.

Lemma foundIn_false (l : string) (xs : list string) :
  foundIn l xs = false <-> ~ In l xs.
Proof.
  rewrite <- foundIn_true. destruct (foundIn l xs); split; intros H;
    try reflexivity; try discriminate; try (intros F; discriminate).
  exfalso. apply H. reflexivity.
Qed.

(** ** The classifier *)

(** The literal text of each template once [%v] is stripped. *)
Lemma stripped_version_templates :
  map (fun ml => ReplaceAll ml "%v" "") managedPRLabelTemplatesWithVersion
  = ["release-"; "no-failed-tests-"; "tests-verified-"].
Proof. reflexivity. Qed.

Lemma stripped_file_templates :
  map (fun ml => ReplaceAll ml "%v" "") managedPRLabelTemplatesWithFileName
  = ["missing-file-"].
Proof. reflexivity. Qed.

Lemma rendered_has_prefix (p v label : string) :
  String.eqb (p ++ v)%string label = true -> Contains label p = true.
Proof.
  intros H. apply String.eqb_eq in H. subst label.
  apply Contains_here. apply HasPrefix_app.
Qed.

(** The test against the current version adds nothing to the substring
    tests: the classifier does not depend on the version. *)
Lemma labelIsVersionLabel_eq (label version : string) :
  labelIsVersionLabel label version
  = Contains label "release-" || Contains label "no-failed-tests-"
    || Contains label "tests-verified-".
Proof.
  unfold labelIsVersionLabel, managedPRLabelTemplatesWithVersion.
  cbn [existsb].
  change (ReplaceAll "release-%v" "%v" "") with "release-".
  change (ReplaceAll "no-failed-tests-%v" "%v" "") with "no-failed-tests-".
  change (ReplaceAll "tests-verified-%v" "%v" "") with "tests-verified-".
  change (Sprintf "release-%v" [version]) with ("release-" ++ (version ++ ""))%string.
  change (Sprintf "no-failed-tests-%v" [version])
    with ("no-failed-tests-" ++ (version ++ ""))%string.
  change (Sprintf "tests-verified-%v" [version])
    with ("tests-verified-" ++ (version ++ ""))%string.
  rewrite orb_false_r.
  destruct (Contains label "release-") eqn:E1; [reflexivity|].
  destruct (String.eqb ("release-" ++ (version ++ ""))%string label) eqn:F1.
  { apply rendered_has_prefix in F1. congruence. }
  destruct (Contains label "no-failed-tests-") eqn:E2; [reflexivity|].
  destruct (String.eqb ("no-failed-tests-" ++ (version ++ ""))%string label) eqn:F2.
  { apply rendered_has_prefix in F2. congruence. }
  destruct (Contains label "tests-verified-") eqn:E3; [reflexivity|].
  destruct (String.eqb ("tests-verified-" ++ (version ++ ""))%string label) eqn:F3.
  { apply rendered_has_prefix in F3. congruence. }
  reflexivity.
Qed.

Lemma labelIsFileLabel_eq (label : string) (missingFiles : list string) :
  labelIsFileLabel label missingFiles = Contains label "missing-file-".
Proof.
  unfold labelIsFileLabel, managedPRLabelTemplatesWithFileName.
  cbn [existsb].
  change (ReplaceAll "missing-file-%v" "%v" "") with "missing-file-".
  rewrite orb_false_r.
  destruct (Contains label "missing-file-") eqn:E; [reflexivity|].
  cbn [orb]. induction missingFiles as [|f fs IH]; [reflexivity|].
  cbn [existsb]. rewrite IH, orb_false_r.
  change (Sprintf "missing-file-%v" [f]) with ("missing-file-" ++ (f ++ ""))%string.
  destruct (String.eqb ("missing-file-" ++ (f ++ ""))%string label) eqn:F; [|reflexivity].
  apply rendered_has_prefix in F. congruence.
Qed.

Lemma labelIsManaged_inv (label : string) :
  labelIsManaged label = true -> In label managedPRLabels.
Proof.
  unfold labelIsManaged. rewrite existsb_exists.
  intros [l [Hl Heq]]. apply String.eqb_eq in Heq. subst l. exact Hl.
Qed.

(** C7: [labelIsVersionLabel] accepts every label that contains the literal
    remainder of a version template once [%v] is stripped, that is
    "release-", "no-failed-tests-" or "tests-verified-", whatever the
    current version; so the rendering of a template at any other version is
    accepted too. *)
Theorem labelIsVersionLabel_template_family (label version : string) :
  (forall ml, In ml managedPRLabelTemplatesWithVersion ->
     Contains label (ReplaceAll ml "%v" "") = true ->
     labelIsVersionLabel label version = true)
  /\ (hasVersionPrefix label -> labelIsVersionLabel label version = true)
  /\ (forall ml other, In ml managedPRLabelTemplatesWithVersion ->
        labelIsVersionLabel (Sprintf ml [other]) version = true).
Proof.
  assert (Hfam : forall l ml, In ml managedPRLabelTemplatesWithVersion ->
            Contains l (ReplaceAll ml "%v" "") = true ->
            labelIsVersionLabel l version = true).
  { intros l ml Hin Hc. unfold labelIsVersionLabel. apply existsb_exists.
    exists ml. split; [exact Hin|]. rewrite Hc. reflexivity. }
  split; [apply Hfam|]. split.
  - intros [H|[H|H]].
    + apply (Hfam label "release-%v"); [cbn; auto | exact H].
    + apply (Hfam label "no-failed-tests-%v"); [cbn; auto | exact H].
    + apply (Hfam label "tests-verified-%v"); [cbn; auto | exact H].
  - intros ml other Hin. apply (Hfam _ ml Hin).
    cbn in Hin. destruct Hin as [<-|[<-|[<-|[]]]].
    + change (Contains ("release-" ++ (other ++ ""))%string "release-" = true).
      apply Contains_here, HasPrefix_app.
    + change (Contains ("no-failed-tests-" ++ (other ++ ""))%string
                "no-failed-tests-" = true).
      apply Contains_here, HasPrefix_app.
    + change (Contains ("tests-verified-" ++ (other ++ ""))%string
                "tests-verified-" = true).
      apply Contains_here, HasPrefix_app.
Qed.

(** A stale release label is recognised under a newer current version. *)
Lemma labelIsVersionLabel_template_family_witness :
  In "release-%v" managedPRLabelTemplatesWithVersion
  /\ Contains "release-v1.28" (ReplaceAll "release-%v" "%v" "") = true
  /\ labelIsVersionLabel "release-v1.28" "v1.29" = true.
Proof.
  split; [cbn; auto|]. split; [reflexivity|].
  apply (proj1 (labelIsVersionLabel_template_family "release-v1.28" "v1.29")
           "release-%v"); [cbn; auto | reflexivity].
Defined.

(** C3 as the specification states it fails on the fixed label
    release-documents-checked, which contains "release-": two classifiers
    accept it. *)
Lemma fixed_label_is_also_version_label :
  ~ atMostOneCategory "release-documents-checked" "v1.29" [].
Proof.
  intros [H _]. apply H. split; reflexivity.
Qed.

(** C3, amended: the classifiers overlap in two places only.  A fixed label
    is never a file label; a label is both fixed and a version label exactly
    when it is release-documents-checked; it is both a version label and a
    file label exactly when it contains "missing-file-" together with the
    literal part of a version template. *)
Theorem classifier_overlaps (label version : string) (missingFiles : list string) :
  ~ (labelIsManaged label = true /\ labelIsFileLabel label missingFiles = true)
  /\ (labelIsManaged label = true /\ labelIsVersionLabel label version = true
      <-> label = "release-documents-checked")
  /\ (labelIsVersionLabel label version = true
      /\ labelIsFileLabel label missingFiles = true
      <-> hasVersionPrefix label /\ Contains label "missing-file-" = true).
Proof.
  split; [|split].
  - intros [Hm Hf]. rewrite labelIsFileLabel_eq in Hf.
    apply labelIsManaged_inv in Hm. cbn in Hm.
    repeat (destruct Hm as [<-|Hm]; [vm_compute in Hf; discriminate|]).
    exact Hm.
  - split.
    + intros [Hm Hv]. rewrite labelIsVersionLabel_eq in Hv.
      apply labelIsManaged_inv in Hm. cbn in Hm.
      repeat (destruct Hm as [<-|Hm];
              [first [reflexivity | vm_compute in Hv; discriminate]|]).
      destruct Hm.
    + intros ->. split; [reflexivity|].
      rewrite labelIsVersionLabel_eq. reflexivity.
  - rewrite labelIsVersionLabel_eq, labelIsFileLabel_eq. unfold hasVersionPrefix.
    destruct (Contains label "release-"), (Contains label "no-failed-tests-"),
      (Contains label "tests-verified-"), (Contains label "missing-file-");
      cbn; intuition discriminate.
Qed.

(** ** The label reconciler *)

Lemma addLoop_early (ghc : githubClient) (pr : PullRequestQuery) (prSuite : PRSuite)
  (labels acc : list string) (tr tr1 : trace) (early : labelsResult) :
  addLoop ghc pr prSuite labels acc tr = (inl early, tr1) ->
  newLabels early = [] /\ removedLabels early = [] /\ err early <> None.
Proof.
  revert acc tr. induction labels as [|l rest IH]; intros acc tr H; simpl in H.
  - discriminate.
  - destruct (unmanaged prSuite l); [exact (IH _ _ H)|].
    destruct (foundIn l (Labels (PR prSuite))); [exact (IH _ _ H)|].
    destruct (AddLabel ghc tr (org pr) (repo pr) (Number pr) l).
    + inversion H; subst. cbn. repeat split; discriminate.
    + exact (IH _ _ H).
Qed.

Lemma removeLoop_early (ghc : githubClient) (pr : PullRequestQuery)
  (prSuite : PRSuite) (labels prLabels acc : list string) (tr tr1 : trace)
  (early : labelsResult) :
  removeLoop ghc pr prSuite labels prLabels acc tr = (inl early, tr1) ->
  newLabels early = [] /\ removedLabels early = [] /\ err early <> None.
Proof.
  revert acc tr. induction prLabels as [|l rest IH]; intros acc tr H; simpl in H.
  - discriminate.
  - destruct (unmanaged prSuite l); [exact (IH _ _ H)|].
    destruct (foundIn l labels); [exact (IH _ _ H)|].
    destruct (RemoveLabel ghc tr (org pr) (repo pr) (Number pr) l).
    + inversion H; subst. cbn. repeat split; discriminate.
    + exact (IH _ _ H).
Qed.

(** C10: when [updateLabels] returns an error, both returned slices are
    empty, whatever calls succeeded before the failing one; and when the
    failure is in the add loop the in-memory label list of the suite is the
    one the call started with. *)
Theorem updateLabels_error_returns_empty (ghc : githubClient)
  (pr : PullRequestQuery) (prSuite : PRSuite) (labels : list string)
  (tr : trace) (r : labelsResult) (prSuite' : PRSuite) (tr' : trace) :
  updateLabels ghc pr prSuite labels tr = (r, prSuite', tr') ->
  err r <> None ->
  newLabels r = [] /\ removedLabels r = []
  /\ (forall early tr1,
        addLoop ghc pr prSuite labels [] tr = (inl early, tr1) ->
        Labels (PR prSuite') = Labels (PR prSuite)).
Proof.
  unfold updateLabels. intros H Herr.
  destruct (addLoop ghc pr prSuite labels [] tr) as [[early|added] tr1] eqn:Ea.
  - inversion H; subst. destruct (addLoop_early _ _ _ _ _ _ _ _ Ea) as [Hn [Hr _]].
    repeat split; auto.
  - destruct (removeLoop ghc pr _ labels _ [] tr1) as [[early|removed] tr2] eqn:Er.
    + inversion H; subst.
      destruct (removeLoop_early _ _ _ _ _ _ _ _ _ Er) as [Hn [Hr _]].
      repeat split; auto. intros early0 tr0 F. discriminate.
    + inversion H; subst. cbn in Herr. contradiction.
Qed.

(** The first label is added, the second add fails: nothing is reported as
    added and the suite still has no label. *)
Lemma updateLabels_error_returns_empty_witness :
  snd (updateLabels secondAddFails samplePR freshSuite submissionLabels [])
  = [ CallAddLabel "cncf" "k8s-conformance" 42 "conformance-product-submission";
      CallAddLabel "cncf" "k8s-conformance" 42 "unable-to-process" ]
  /\ err (fst (fst (updateLabels secondAddFails samplePR freshSuite submissionLabels [])))
     <> None
  /\ newLabels (fst (fst (updateLabels secondAddFails samplePR freshSuite submissionLabels [])))
     = []
  /\ removedLabels (fst (fst (updateLabels secondAddFails samplePR freshSuite submissionLabels [])))
     = []
  /\ Labels (PR (snd (fst (updateLabels secondAddFails samplePR freshSuite submissionLabels []))))
     = Labels (PR freshSuite).
Proof.
  assert (E : updateLabels secondAddFails samplePR freshSuite submissionLabels []
              = (fst (fst (updateLabels secondAddFails samplePR freshSuite submissionLabels [])),
                 snd (fst (updateLabels secondAddFails samplePR freshSuite submissionLabels [])),
                 snd (updateLabels secondAddFails samplePR freshSuite submissionLabels []))).
  { destruct (updateLabels secondAddFails samplePR freshSuite submissionLabels [])
      as [[a b] c]. reflexivity. }
  assert (Herr : err (fst (fst (updateLabels secondAddFails samplePR freshSuite
                                  submissionLabels []))) <> None)
    by (vm_compute; discriminate).
  destruct (updateLabels_error_returns_empty secondAddFails samplePR freshSuite
              submissionLabels [] _ _ _ E Herr) as [Hn [Hr Hl]].
  split; [vm_compute; reflexivity|]. split; [exact Herr|].
  split; [exact Hn|]. split; [exact Hr|].
  apply (Hl (fst (fst (updateLabels secondAddFails samplePR freshSuite submissionLabels [])))
            (snd (updateLabels secondAddFails samplePR freshSuite submissionLabels []))).
  vm_compute. reflexivity.
Defined.

Lemma addLoop_added (ghc : githubClient) (pr : PullRequestQuery) (prSuite : PRSuite)
  (labels acc added : list string) (tr tr1 : trace) :
  addLoop ghc pr prSuite labels acc tr = (inr added, tr1) ->
  added = acc ++ filter (fun l => negb (unmanaged prSuite l)
                                  && negb (foundIn l (Labels (PR prSuite)))) labels.
Proof.
  revert acc tr. induction labels as [|l rest IH]; intros acc tr H; simpl in H.
  - inversion H. rewrite app_nil_r. reflexivity.
  - cbn [filter]. destruct (unmanaged prSuite l); [exact (IH _ _ H)|].
    destruct (foundIn l (Labels (PR prSuite))); [exact (IH _ _ H)|].
    destruct (AddLabel ghc tr (org pr) (repo pr) (Number pr) l); [discriminate|].
    cbn [negb andb]. rewrite (IH _ _ H), <- app_assoc. reflexivity.
Qed.

(** What the remove loop leaves in [removedLabels]: the accumulator it
    started with when no label was removed, and otherwise the whole label
    list of the suite followed by the last label removed. *)
Lemma removeLoop_removed (ghc : githubClient) (pr : PullRequestQuery)
  (prSuite : PRSuite) (labels prLabels acc removed : list string) (tr tr1 : trace) :
  removeLoop ghc pr prSuite labels prLabels acc tr = (inr removed, tr1) ->
  (removed = acc
   /\ forall prl, In prl prLabels -> unmanaged prSuite prl = true \/ In prl labels)
  \/ exists prl, In prl prLabels /\ unmanaged prSuite prl = false
                 /\ ~ In prl labels
                 /\ removed = Labels (PR prSuite) ++ [prl].
Proof.
  revert acc tr. induction prLabels as [|l rest IH]; intros acc tr H; simpl in H.
  - inversion H. left. split; [reflexivity|]. intros prl [].
  - destruct (unmanaged prSuite l) eqn:Eu.
    { destruct (IH _ _ H) as [[-> Hall]|[prl [Hin Hrest]]].
      - left. split; [reflexivity|]. intros prl [<-|Hin]; auto.
      - right. exists prl. split; [right; exact Hin | exact Hrest]. }
    destruct (foundIn l labels) eqn:Ef.
    { apply foundIn_true in Ef.
      destruct (IH _ _ H) as [[-> Hall]|[prl [Hin Hrest]]].
      - left. split; [reflexivity|]. intros prl [<-|Hin]; auto.
      - right. exists prl. split; [right; exact Hin | exact Hrest]. }
    apply foundIn_false in Ef.
    destruct (RemoveLabel ghc tr (org pr) (repo pr) (Number pr) l); [discriminate|].
    right. destruct (IH _ _ H) as [[-> _]|[prl [Hin Hrest]]].
    + exists l. repeat split; auto. left. reflexivity.
    + exists prl. split; [right; exact Hin | exact Hrest].
Qed.

Lemma removeSlice_nil (xs : list string) :
  removeSliceOfStringsFromStringSlice xs [] = xs.
Proof.
  unfold removeSliceOfStringsFromStringSlice. induction xs as [|x xs IH].
  - reflexivity.
  - cbn [filter existsb negb]. f_equal. exact IH.
Qed.

Lemma removeSlice_superset (xs rs : list string) :
  (forall x, In x xs -> In x rs) ->
  removeSliceOfStringsFromStringSlice xs rs = [].
Proof.
  unfold removeSliceOfStringsFromStringSlice. induction xs as [|x xs IH]; intros H.
  - reflexivity.
  - cbn [filter].
    assert (Hx : existsb (fun delString => String.eqb x delString) rs = true).
    { apply existsb_exists. exists x. split; [apply H; left; reflexivity|].
      apply String.eqb_refl. }
    rewrite Hx. cbn [negb]. apply IH. intros y Hy. apply H. right. exact Hy.
Qed.

(** Once one label has been removed, [removedLabels] holds the whole label
    list, and filtering by it empties the in-memory list of the suite. *)
Lemma updateLabels_after_removal (ghc : githubClient) (pr : PullRequestQuery)
  (prSuite : PRSuite) (labels : list string) (tr : trace) (r : labelsResult)
  (prSuite' : PRSuite) (tr' : trace) :
  updateLabels ghc pr prSuite labels tr = (r, prSuite', tr') ->
  err r = None -> removedLabels r <> [] ->
  Labels (PR prSuite') = [].
Proof.
  unfold updateLabels. intros H Herr Hrem.
  destruct (addLoop ghc pr prSuite labels [] tr) as [[early|added] tr1] eqn:Ea.
  { inversion H; subst. destruct (addLoop_early _ _ _ _ _ _ _ _ Ea) as [_ [_ F]].
    contradiction. }
  destruct (removeLoop ghc pr _ labels _ [] tr1) as [[early|removed] tr2] eqn:Er.
  { inversion H; subst. destruct (removeLoop_early _ _ _ _ _ _ _ _ _ Er) as [_ [_ F]].
    contradiction. }
  inversion H; subst. cbn in Hrem. cbn [setLabels PR Labels].
  destruct (removeLoop_removed _ _ _ _ _ _ _ _ _ Er) as [[-> _]|[prl [_ [_ [_ ->]]]]].
  - contradiction.
  - apply removeSlice_superset. intros x Hx. apply in_or_app. left. exact Hx.
Qed.

(** When nothing has to be removed the in-memory list is the old one
    followed by the labels added, which are the desired labels that are
    managed and were absent. *)
Lemma updateLabels_without_removal (ghc : githubClient) (pr : PullRequestQuery)
  (prSuite : PRSuite) (labels : list string) (tr : trace) (r : labelsResult)
  (prSuite' : PRSuite) (tr' : trace) :
  updateLabels ghc pr prSuite labels tr = (r, prSuite', tr') ->
  err r = None -> removedLabels r = [] ->
  Labels (PR prSuite') = Labels (PR prSuite) ++ newLabels r
  /\ forall l, In l (Labels (PR prSuite')) <->
               In l (Labels (PR prSuite))
               \/ (In l labels /\ unmanaged prSuite l = false).
Proof.
  unfold updateLabels. intros H Herr Hrem.
  destruct (addLoop ghc pr prSuite labels [] tr) as [[early|added] tr1] eqn:Ea.
  { inversion H; subst. destruct (addLoop_early _ _ _ _ _ _ _ _ Ea) as [_ [_ F]].
    contradiction. }
  destruct (removeLoop ghc pr _ labels _ [] tr1) as [[early|removed] tr2] eqn:Er.
  { inversion H; subst. destruct (removeLoop_early _ _ _ _ _ _ _ _ _ Er) as [_ [_ F]].
    contradiction. }
  inversion H; subst. cbn in Hrem. subst removed.
  cbn [setLabels PR Labels newLabels]. rewrite removeSlice_nil.
  split; [reflexivity|].
  apply addLoop_added in Ea. cbn [app] in Ea. subst added.
  intros l. rewrite in_app_iff, filter_In. split.
  - intros [Hl|[Hl Hb]]; [left; exact Hl|].
    apply andb_prop in Hb. destruct Hb as [Hu _].
    right. split; [exact Hl|]. destruct (unmanaged prSuite l); [discriminate|reflexivity].
  - intros [Hl|[Hl Hu]]; [left; exact Hl|].
    destruct (foundIn l (Labels (PR prSuite))) eqn:Ef.
    + left. apply foundIn_true. exact Ef.
    + right. split; [exact Hl|]. rewrite Hu. reflexivity.
Qed.

(** C1, on the scenario of the specification: the stale release label is
    removed on GitHub and release-v1.29 is added, but the in-memory label
    list ends empty: it has lost both the label just added and the label
    unrelated-label, which no classifier accepts. *)
Theorem updateLabels_release_scenario :
  updateLabels okClient samplePR releaseScenarioSuite ["release-v1.29"] []
  = ({| newLabels := ["release-v1.29"];
        removedLabels := ["release-v1.28"; "unrelated-label"; "release-v1.29";
                          "release-v1.28"];
        err := None |},
     setLabels releaseScenarioSuite [],
     [ CallAddLabel "cncf" "k8s-conformance" 42 "release-v1.29";
       CallRemoveLabel "cncf" "k8s-conformance" 42 "release-v1.28" ])
  /\ unmanaged releaseScenarioSuite "unrelated-label" = true
  /\ In "unrelated-label" (Labels (PR releaseScenarioSuite)).
Proof.
  split; [vm_compute; reflexivity|]. split; [vm_compute; reflexivity|].
  cbn. auto.
Qed.

(** ** The status reconciler *)

Section StatusReconciler.

Variable unicodeEqualFold : string -> string -> bool.

Lemma contextLoop_none (contexts : list StatusContext) :
  (forall x, In x contexts -> tracked unicodeEqualFold x = false) ->
  contextLoop unicodeEqualFold contexts = None.
Proof.
  induction contexts as [|x rest IH]; intros H; [reflexivity|].
  cbn [contextLoop]. fold (tracked unicodeEqualFold x).
  rewrite (H x (or_introl eq_refl)). apply IH. intros y Hy. apply H. right. exact Hy.
Qed.

Lemma contextLoop_first (cbefore cafter : list StatusContext) (context : StatusContext) :
  (forall x, In x cbefore -> tracked unicodeEqualFold x = false) ->
  tracked unicodeEqualFold context = true ->
  contextLoop unicodeEqualFold (cbefore ++ context :: cafter)
  = Some (saysSuccess unicodeEqualFold context).
Proof.
  intros Hb Hc. induction cbefore as [|x rest IH]; cbn [app contextLoop].
  - fold (tracked unicodeEqualFold context). rewrite Hc. reflexivity.
  - fold (tracked unicodeEqualFold x). rewrite (Hb x (or_introl eq_refl)).
    apply IH. intros y Hy. apply Hb. right. exact Hy.
Qed.

Lemma commitLoop_first (pr : PullRequestQuery) (context : StatusContext) :
  firstTrackedContext unicodeEqualFold pr context ->
  commitLoop unicodeEqualFold (HeadRefOID pr) (Commits pr)
  = saysSuccess unicodeEqualFold context.
Proof.
  intros [before [commit [after [cbefore [cafter [Hc [Hoid [Hb [Hcs [Hcb Ht]]]]]]]]]].
  rewrite Hc. clear Hc. induction before as [|c rest IH]; cbn [app commitLoop].
  - rewrite Hoid, String.eqb_refl. cbn [negb]. rewrite Hcs.
    rewrite (contextLoop_first _ _ _ Hcb Ht). reflexivity.
  - destruct (String.eqb (Oid c) (HeadRefOID pr)) eqn:E; cbn [negb].
    + apply String.eqb_eq in E.
      rewrite (contextLoop_none _ (Hb c (or_introl eq_refl) E)).
      apply IH. intros c' Hc'. apply Hb. right. exact Hc'.
    + apply IH. intros c' Hc'. apply Hb. right. exact Hc'.
Qed.

(** C2 as the specification states it fails on a head commit that lists a
    failure context of the plugin before a success context: the first one
    decides, and a status is created. *)
Lemma stale_context_first_creates_status :
  headCarriesSuccess twoContextsPR
  /\ updateStatus noFold okClient twoContextsPR freshSuite "failure" []
     = (Ok tt,
        [ CallGetCombinedStatus "cncf" "k8s-conformance" "abc123";
          CallCreateStatus "cncf" "k8s-conformance" "abc123"
            {| StatusState := "failure";
               StatusContextName := "verify-conformance";
               Description := "Please check failing requirements and update accordingly" |} ])
  /\ existsb isCreateStatus
       (snd (updateStatus noFold okClient twoContextsPR freshSuite "failure" []))
     = true.
Proof.
  split; [|split; vm_compute; reflexivity].
  exists {| Oid := "abc123";
            Contexts := [ {| Context := "verify-conformance"; State := "failure" |};
                          {| Context := "verify-conformance"; State := "success" |} ] |},
         {| Context := "verify-conformance"; State := "success" |}.
  cbn. intuition.
Qed.

(** C2, amended: if the first context named verify-conformance (letter case
    apart) met on the commits whose Oid is the head Oid has the state success
    (letter case apart), [updateStatus] makes no call, so no CreateStatus
    call, and returns no error, whatever the desired state. *)
Theorem updateStatus_short_circuit (ghc : githubClient) (pr : PullRequestQuery)
  (prSuite : PRSuite) (state : string) (tr : trace) (context : StatusContext) :
  firstTrackedContext unicodeEqualFold pr context ->
  saysSuccess unicodeEqualFold context = true ->
  updateStatus unicodeEqualFold ghc pr prSuite state tr = (Ok tt, tr).
Proof.
  intros Hfirst Hs. unfold updateStatus.
  rewrite (commitLoop_first _ _ Hfirst), Hs. reflexivity.
Qed.

(** The short-circuit as the specification states it, for a pull request
    where no context of the plugin on a head commit is in another state than
    success. *)
Lemma updateStatus_short_circuit_agreeing (ghc : githubClient)
  (pr : PullRequestQuery) (prSuite : PRSuite) (state : string) (tr : trace) :
  headCarriesSuccess pr ->
  (forall commit context,
      In commit (Commits pr) -> Oid commit = HeadRefOID pr ->
      In context (Contexts commit) -> tracked unicodeEqualFold context = true ->
      saysSuccess unicodeEqualFold context = true) ->
  updateStatus unicodeEqualFold ghc pr prSuite state tr = (Ok tt, tr).
Proof.
  intros [commit [context [Hin [Hoid [Hctx [Hname Hstate]]]]]] Hall.
  unfold updateStatus.
  assert (Hloop : commitLoop unicodeEqualFold (HeadRefOID pr) (Commits pr) = true).
  { revert Hin Hall. generalize (Commits pr) as commits.
    induction commits as [|c rest IH]; intros Hin Hall; [destruct Hin|].
    cbn [commitLoop].
    destruct (String.eqb (Oid c) (HeadRefOID pr)) eqn:E; cbn [negb].
    - apply String.eqb_eq in E.
      destruct (contextLoop unicodeEqualFold (Contexts c)) as [b|] eqn:Ec.
      + assert (Hsome : forall cs b0,
                   contextLoop unicodeEqualFold cs = Some b0 ->
                   exists x, In x cs /\ tracked unicodeEqualFold x = true
                             /\ b0 = saysSuccess unicodeEqualFold x).
        { clear. induction cs as [|x cs IHcs]; intros b0 H; [discriminate|].
          cbn [contextLoop] in H. fold (tracked unicodeEqualFold x) in H.
          destruct (tracked unicodeEqualFold x) eqn:Et.
          - inversion H. exists x. repeat split; auto. left. reflexivity.
          - destruct (IHcs _ H) as [y [Hy Hrest]]. exists y.
            split; [right; exact Hy | exact Hrest]. }
        destruct (Hsome _ _ Ec) as [x [Hx [Ht ->]]].
        apply (Hall c x (or_introl eq_refl) E Hx Ht).
      + destruct Hin as [->|Hin].
        * exfalso.
          assert (Hnone : forall cs x,
                     contextLoop unicodeEqualFold cs = None -> In x cs ->
                     tracked unicodeEqualFold x = false).
          { clear. induction cs as [|y cs IHcs]; intros x H Hx; [destruct Hx|].
            cbn [contextLoop] in H. fold (tracked unicodeEqualFold y) in H.
            destruct (tracked unicodeEqualFold y) eqn:Et; [discriminate|].
            destruct Hx as [<-|Hx]; [exact Et | exact (IHcs _ H Hx)]. }
          pose proof (Hnone _ _ Ec Hctx) as F. unfold tracked in F.
          rewrite Hname in F. cbn in F. discriminate.
        * apply IH; [exact Hin|].
          intros c' x' Hc'. apply Hall. right. exact Hc'.
    - destruct Hin as [->|Hin].
      + rewrite Hoid, String.eqb_refl in E. discriminate.
      + apply IH; [exact Hin|].
        intros c' x' Hc'. apply Hall. right. exact Hc'. }
  rewrite Hloop. reflexivity.
Qed.

End StatusReconciler.

(** A verified head commit is left alone when the desired state is failure. *)
Lemma updateStatus_short_circuit_witness :
  firstTrackedContext noFold verifiedPR
    {| Context := "verify-conformance"; State := "SUCCESS" |}
  /\ saysSuccess noFold {| Context := "verify-conformance"; State := "SUCCESS" |} = true
  /\ updateStatus noFold okClient verifiedPR freshSuite "failure" [] = (Ok tt, []).
Proof.
  assert (H : firstTrackedContext noFold verifiedPR
                {| Context := "verify-conformance"; State := "SUCCESS" |}).
  { exists [ {| Oid := "000000"; Contexts := [] |} ],
           {| Oid := "abc123";
              Contexts := [ {| Context := "tide"; State := "PENDING" |};
                            {| Context := "verify-conformance"; State := "SUCCESS" |} ] |},
           [], [ {| Context := "tide"; State := "PENDING" |} ], [].
    split; [reflexivity|]. split; [reflexivity|].
    split; [intros c [<-|[]] F; discriminate|].
    split; [reflexivity|].
    split; [intros x [<-|[]]; reflexivity | reflexivity]. }
  split; [exact H|]. split; [reflexivity|].
  apply (updateStatus_short_circuit noFold okClient verifiedPR freshSuite "failure" []
           _ H). reflexivity.
Defined.

(** ** The comment reconciler *)

Lemma bind_run {A B : Type} (m : M A) (k : A -> M B) (tr : trace) :
  bind m k tr
  = match m tr with
    | (Ok a, tr') => k a tr'
    | (Err e, tr') => (Err e, tr')
    | (Panicked, tr') => (Panicked, tr')
    end.
Proof. reflexivity. Qed.

(** A run of the deletions over comments that are all stale: either every
    one is deleted, or the run stops on a failed delete call. *)
Lemma deleteStale_run (ghc : githubClient) (org repo : string)
  (isStale : IssueComment -> bool) (cs : list IssueComment) (tr : trace) :
  (forall c, In c cs -> isStale c = true) ->
  deleteStale ghc org repo cs isStale tr
  = (Ok tt, tr ++ map (fun c => CallDeleteComment org repo (ID c)) cs)
  \/ exists e k, k <= List.length cs
       /\ deleteStale ghc org repo cs isStale tr
          = (Err e, tr ++ map (fun c => CallDeleteComment org repo (ID c)) (firstn k cs)).
Proof.
  revert tr. induction cs as [|c rest IH]; intros tr Hall.
  - left. cbn. rewrite app_nil_r. reflexivity.
  - cbn [deleteStale]. rewrite (Hall c (or_introl eq_refl)).
    rewrite bind_run. unfold wrapErr, command.
    destruct (DeleteComment ghc tr org repo (ID c)) as [e|] eqn:Ed.
    + right. eexists. exists 1. split; [cbn; lia|]. reflexivity.
    + destruct (IH (tr ++ [CallDeleteComment org repo (ID c)])) as [H|[e [k [Hk H]]]].
      * intros c' Hc'. apply Hall. right. exact Hc'.
      * left. rewrite H. cbn [map]. rewrite <- app_assoc. reflexivity.
      * right. exists e, (S k). split; [cbn; lia|].
        rewrite H. cbn [firstn map]. rewrite <- app_assoc. reflexivity.
Qed.

Lemma deleteStale_all (ghc : githubClient) (org repo : string)
  (isStale : IssueComment -> bool) (cs : list IssueComment) (tr : trace) :
  (forall c, In c cs -> isStale c = true) ->
  (forall tr' id, DeleteComment ghc tr' org repo id = None) ->
  deleteStale ghc org repo cs isStale tr
  = (Ok tt, tr ++ map (fun c => CallDeleteComment org repo (ID c)) cs).
Proof.
  revert tr. induction cs as [|c rest IH]; intros tr Hall Hok.
  - cbn. rewrite app_nil_r. reflexivity.
  - cbn [deleteStale]. rewrite (Hall c (or_introl eq_refl)).
    rewrite bind_run. unfold wrapErr, command. rewrite Hok.
    rewrite IH; [|intros c' Hc'; apply Hall; right; exact Hc' | exact Hok].
    cbn [map]. rewrite <- app_assoc. reflexivity.
Qed.

Lemma botCommentsOf_bot (botUserChecker : string -> bool)
  (comments : list IssueComment) (c : IssueComment) :
  In c (botCommentsOf botUserChecker comments) ->
  In c comments /\ botUserChecker (UserLogin c) = true /\ Body c <> "".
Proof.
  unfold botCommentsOf. rewrite filter_In. intros [Hin Hb].
  apply andb_prop in Hb. destruct Hb as [Hbot Hbody].
  repeat split; auto. intros F. rewrite F in Hbody. discriminate.
Qed.

Lemma removelast_In {A : Type} (xs : list A) (x : A) :
  In x (removelast xs) -> In x xs.
Proof.
  induction xs as [|y ys IH]; [intros []|].
  destruct ys as [|z zs]; [intros []|].
  change (removelast (y :: z :: zs)) with (y :: removelast (z :: zs)).
  intros [<-|H]; [left; reflexivity | right; exact (IH H)].
Qed.

Lemma latestBody_dec (cs : list IssueComment) (comment : string) :
  (if match lastComment cs with
      | Some c => String.eqb (Body c) comment
      | None => false
      end then latestBodyIs cs comment else ~ latestBodyIs cs comment).
Proof.
  unfold latestBodyIs. destruct (lastComment cs) as [c|].
  - destruct (String.eqb (Body c) comment) eqn:E.
    + exists c. split; [reflexivity | apply String.eqb_eq; exact E].
    + intros [c' [Hc' Hb]]. inversion Hc'; subst c'.
      apply String.eqb_neq in E. contradiction.
  - intros [c' [Hc' _]]. discriminate.
Qed.

Lemma no_create_among_deletes (pr : PullRequestQuery) (cs : list IssueComment) :
  filter isCreateComment (map (deleteCallFor pr) cs) = [].
Proof. induction cs as [|c cs IH]; [reflexivity | exact IH]. Qed.

(** When the listing or the bot check fails nothing is deleted or created. *)
Lemma updateComments_listing_fails (ghc : githubClient) (pr : PullRequestQuery)
  (prSuite : PRSuite) (comment : string) (tr : trace) :
  (forall e, ListIssueCommentsWithContext ghc tr (org pr) (repo pr) (Number pr) = inr e ->
     updateComments ghc pr prSuite comment tr
     = (Err (Sprintf "unable to list comments, %v" [e]),
        tr ++ [CallListIssueComments (org pr) (repo pr) (Number pr)]))
  /\ (forall comments e,
        ListIssueCommentsWithContext ghc tr (org pr) (repo pr) (Number pr) = inl comments ->
        BotUserChecker ghc (tr ++ [CallListIssueComments (org pr) (repo pr) (Number pr)])
        = inr e ->
        updateComments ghc pr prSuite comment tr
        = (Err (Sprintf "unable to get bot name, %v" [e]), tr ++ listingCalls pr)).
Proof.
  split.
  - intros e H. unfold updateComments. rewrite bind_run.
    unfold wrapErr at 1. unfold request at 1. rewrite H. reflexivity.
  - intros comments e H Hb. unfold updateComments. rewrite bind_run.
    unfold wrapErr at 1. unfold request at 1. rewrite H.
    rewrite bind_run. unfold wrapErr at 1. unfold request at 1. rewrite Hb.
    unfold listingCalls. rewrite <- app_assoc. reflexivity.
Qed.

(** C4 as the specification states it fails on a thread where an older
    comment of the bot has an empty body: that comment is written by the bot
    and is not the latest one, the new body differs from the latest body,
    and yet no delete call is made. *)
Lemma empty_bot_comment_is_kept :
  ~ latestBodyIs (botCommentsOf (String.eqb "bot") emptyThenOld) "new"
  /\ updateComments (commentingClient emptyThenOld) samplePR freshSuite "new" []
     = (Ok tt,
        [ CallListIssueComments "cncf" "k8s-conformance" 42;
          CallBotUserChecker;
          CallCreateComment "cncf" "k8s-conformance" 42 "new" ])
  /\ existsb isDeleteComment
       (snd (updateComments (commentingClient emptyThenOld) samplePR freshSuite "new" []))
     = false.
Proof.
  split; [|split; vm_compute; reflexivity].
  intros [c [Hc Hb]]. vm_compute in Hc. inversion Hc; subst c. discriminate.
Qed.

(** C4, amended: with the comments listed and the bot check answered, let
    the bot comments be the listed comments written by the bot whose body is
    not empty.  If the body of the latest bot comment is the new body, no
    call follows the listing.  Otherwise delete calls are made for the bot
    comments except the latest, in order, up to the first that fails; when
    none fails exactly one CreateComment call with the new body follows.
    Every comment deleted is one written by the bot. *)
Theorem updateComments_reconciles (ghc : githubClient) (pr : PullRequestQuery)
  (prSuite : PRSuite) (comment : string) (tr : trace)
  (comments : list IssueComment) (botUserChecker : string -> bool) :
  ListIssueCommentsWithContext ghc tr (org pr) (repo pr) (Number pr) = inl comments ->
  BotUserChecker ghc (tr ++ [CallListIssueComments (org pr) (repo pr) (Number pr)])
  = inl botUserChecker ->
  (latestBodyIs (botCommentsOf botUserChecker comments) comment ->
   updateComments ghc pr prSuite comment tr = (Ok tt, tr ++ listingCalls pr))
  /\ (~ latestBodyIs (botCommentsOf botUserChecker comments) comment ->
      (exists o,
          updateComments ghc pr prSuite comment tr
          = (o, tr ++ listingCalls pr
                ++ map (deleteCallFor pr)
                       (removelast (botCommentsOf botUserChecker comments))
                ++ [CallCreateComment (org pr) (repo pr) (Number pr) comment])
          /\ o <> Panicked)
      \/ (exists e k,
             k <= List.length (removelast (botCommentsOf botUserChecker comments))
             /\ updateComments ghc pr prSuite comment tr
                = (Err e, tr ++ listingCalls pr
                          ++ map (deleteCallFor pr)
                               (firstn k (removelast
                                            (botCommentsOf botUserChecker comments))))))
  /\ (~ latestBodyIs (botCommentsOf botUserChecker comments) comment ->
      (forall tr' id, DeleteComment ghc tr' (org pr) (repo pr) id = None) ->
      exists o,
        updateComments ghc pr prSuite comment tr
        = (o, tr ++ listingCalls pr
              ++ map (deleteCallFor pr)
                     (removelast (botCommentsOf botUserChecker comments))
              ++ [CallCreateComment (org pr) (repo pr) (Number pr) comment])
        /\ List.length
             (filter isCreateComment
                (map (deleteCallFor pr)
                     (removelast (botCommentsOf botUserChecker comments))
                 ++ [CallCreateComment (org pr) (repo pr) (Number pr) comment]))
           = 1)
  /\ (forall c, In c (removelast (botCommentsOf botUserChecker comments)) ->
      In c comments /\ botUserChecker (UserLogin c) = true /\ Body c <> "").
Proof.
  intros Hlist Hbot.
  assert (Hstale : forall c,
             In c (removelast (botCommentsOf botUserChecker comments)) ->
             In c comments /\ botUserChecker (UserLogin c) = true /\ Body c <> "").
  { intros c Hc. apply botCommentsOf_bot. apply removelast_In. exact Hc. }
  assert (Hrun : updateComments ghc pr prSuite comment tr
                 = (if match lastComment (botCommentsOf botUserChecker comments) with
                       | Some c => String.eqb (Body c) comment
                       | None => false
                       end
                    then ret tt
                    else
                      wrapErr
                        (fun e => Sprintf "unable to prune stale comments comments on PR (%v), %v"
                                    [Itoa (Number pr); e])
                        (DeleteStaleComments ghc (org pr) (repo pr) (Number pr)
                           (Some (removelast (botCommentsOf botUserChecker comments)))
                           (fun ic => botUserChecker (UserLogin ic))) ;;;
                      command (CallCreateComment (org pr) (repo pr) (Number pr) comment)
                        (fun tr0 => CreateComment ghc tr0 (org pr) (repo pr) (Number pr) comment))
                     (tr ++ listingCalls pr)).
  { unfold updateComments. rewrite bind_run.
    unfold wrapErr at 1. unfold request at 1. rewrite Hlist.
    rewrite bind_run. unfold wrapErr at 1. unfold request at 1. rewrite Hbot.
    unfold listingCalls. rewrite <- app_assoc. reflexivity. }
  pose proof (latestBody_dec (botCommentsOf botUserChecker comments) comment) as Hdec.
  destruct (match lastComment (botCommentsOf botUserChecker comments) with
            | Some c => String.eqb (Body c) comment
            | None => false
            end).
  - split; [intros _; exact Hrun|].
    split; [intros F; contradiction|]. split; [intros F; contradiction | exact Hstale].
  - split; [intros F; contradiction|].
    assert (Hall : forall c,
               In c (removelast (botCommentsOf botUserChecker comments)) ->
               (fun ic => botUserChecker (UserLogin ic)) c = true).
    { intros c Hc. apply (Hstale c Hc). }
    split; [|split; [|exact Hstale]].
    + intros _. rewrite Hrun, bind_run. unfold wrapErr, DeleteStaleComments.
      destruct (deleteStale_run ghc (org pr) (repo pr) _ _ (tr ++ listingCalls pr) Hall)
        as [H|[e [k [Hk H]]]]; rewrite H.
      * left. unfold command.
        eexists. split.
        { rewrite <- !app_assoc. reflexivity. }
        destruct (CreateComment ghc _ (org pr) (repo pr) (Number pr) comment);
          discriminate.
      * right. eexists. exists k. split; [exact Hk|].
        rewrite <- app_assoc. reflexivity.
    + intros _ Hok. rewrite Hrun, bind_run. unfold wrapErr, DeleteStaleComments.
      rewrite (deleteStale_all ghc (org pr) (repo pr) _ _ (tr ++ listingCalls pr) Hall Hok).
      unfold command. eexists. split.
      { rewrite <- !app_assoc. reflexivity. }
      rewrite filter_app, no_create_among_deletes. reflexivity.
Qed.

(** A thread with three bot comments: the two older ones are deleted, the
    comment of the author is kept and one comment is created. *)
Lemma updateComments_reconciles_witness :
  ListIssueCommentsWithContext (commentingClient threeBotComments) []
    (org samplePR) (repo samplePR) (Number samplePR) = inl threeBotComments
  /\ BotUserChecker (commentingClient threeBotComments)
       [CallListIssueComments (org samplePR) (repo samplePR) (Number samplePR)]
     = inl (String.eqb "bot")
  /\ exists o,
       updateComments (commentingClient threeBotComments) samplePR freshSuite "fourth" []
       = (o, [ CallListIssueComments "cncf" "k8s-conformance" 42;
               CallBotUserChecker;
               CallDeleteComment "cncf" "k8s-conformance" 1;
               CallDeleteComment "cncf" "k8s-conformance" 3;
               CallCreateComment "cncf" "k8s-conformance" 42 "fourth" ]).
Proof.
  split; [reflexivity|]. split; [reflexivity|].
  destruct (updateComments_reconciles (commentingClient threeBotComments) samplePR
              freshSuite "fourth" [] threeBotComments (String.eqb "bot")
              eq_refl eq_refl) as [_ [_ [H _]]].
  destruct H as [o [Hrun _]].
  - intros [c [Hc Hb]]. vm_compute in Hc. inversion Hc; subst c. discriminate.
  - intros tr' id. reflexivity.
  - exists o. exact Hrun.
Defined.

(** ** The title gate *)

Lemma sameButCase_lower (s t : string) :
  sameButCase s t = true ->
  isASCII s = true /\ isASCII t = true
  /\ mapBytes lowerByte s = mapBytes lowerByte t.
Proof.
  revert t. induction s as [|a s IH]; intros [|b t] H; try discriminate.
  - repeat split.
  - cbn [sameButCase] in H.
    apply andb_prop in H. destruct H as [H Hrest].
    apply andb_prop in H. destruct H as [H Hab].
    apply andb_prop in H. destruct H as [Ha Hb].
    apply Ascii.eqb_eq in Hab.
    destruct (IH _ Hrest) as [Hs [Ht Hm]].
    cbn [isASCII mapBytes]. rewrite Ha, Hb, Hs, Ht, Hab, Hm. repeat split.
Qed.

(** C9: the title gate passes exactly when the lowercased title contains
    "conformance results for"; titles with the same lowercase form, and so
    ASCII titles that differ only in the case of their letters, are treated
    alike. *)
Theorem isConformancePR_case_insensitive (unicodeToLower : string -> string)
  (pr : PullRequestQuery) :
  (isConformancePR unicodeToLower pr = true
   <-> exists pre suf,
         ToLower unicodeToLower (Title pr)
         = (pre ++ "conformance results for" ++ suf)%string)
  /\ (forall pr',
        ToLower unicodeToLower (Title pr) = ToLower unicodeToLower (Title pr') ->
        isConformancePR unicodeToLower pr = isConformancePR unicodeToLower pr')
  /\ (forall pr',
        sameButCase (Title pr) (Title pr') = true ->
        isConformancePR unicodeToLower pr = isConformancePR unicodeToLower pr').
Proof.
  split; [apply Contains_spec|]. split.
  - intros pr' H. unfold isConformancePR. rewrite H. reflexivity.
  - intros pr' H. unfold isConformancePR, ToLower.
    destruct (sameButCase_lower _ _ H) as [Hs [Ht Hm]].
    rewrite Hs, Ht, Hm. reflexivity.
Qed.

(** Two spellings of the marker phrase pass the gate alike. *)
Lemma isConformancePR_case_insensitive_witness :
  sameButCase "Conformance results for v1.29/acme" "CONFORMANCE Results For V1.29/Acme"
  = true
  /\ isConformancePR noCase samplePR = true
  /\ isConformancePR noCase samplePR
     = isConformancePR noCase
         {| Number := 42; HeadRefOID := "abc123"; AuthorLogin := "vendor";
            RepositoryName := "k8s-conformance"; RepositoryOwnerLogin := "cncf";
            LabelNodes := []; FileNodes := [];
            Title := "CONFORMANCE Results For V1.29/Acme"; Commits := [] |}.
Proof.
  split; [reflexivity|]. split; [reflexivity|].
  apply (proj2 (proj2 (isConformancePR_case_insensitive noCase samplePR))).
  reflexivity.
Defined.

(** ** [handle] *)

Lemma bind_assoc {A B C : Type} (m : M A) (f : A -> M B) (g : B -> M C) (tr : trace) :
  bind (bind m f) g tr = bind m (fun a => bind (f a) g) tr.
Proof. unfold bind. destruct (m tr) as [[a|e|] tr1]; reflexivity. Qed.

Lemma bind_ret_unit (m : M unit) (tr : trace) :
  bind m (fun _ => ret tt) tr = m tr.
Proof. unfold bind, ret. destruct (m tr) as [[[]|e|] tr1]; reflexivity. Qed.

Lemma bind_ext {A B : Type} (m : M A) (f g : A -> M B) (tr : trace) :
  (forall a tr', f a tr' = g a tr') -> bind m f tr = bind m g tr.
Proof.
  intros H. unfold bind. destruct (m tr) as [[a|e|] tr1]; [apply H | |]; reflexivity.
Qed.

Lemma neverPanics_ret {A : Type} (a : A) : neverPanics (ret a).
Proof. intros tr. discriminate. Qed.

Lemma neverPanics_fail {A : Type} (e : string) : neverPanics (@fail A e).
Proof. intros tr. discriminate. Qed.

Lemma neverPanics_request {A : Type} (c : call) (answer : trace -> A + string) :
  neverPanics (request c answer).
Proof. intros tr. unfold request. cbn. destruct (answer tr); discriminate. Qed.

Lemma neverPanics_command (c : call) (answer : trace -> option string) :
  neverPanics (command c answer).
Proof. intros tr. unfold command. cbn. destruct (answer tr); discriminate. Qed.

Lemma neverPanics_wrapErr {A : Type} (f : string -> string) (m : M A) :
  neverPanics m -> neverPanics (wrapErr f m).
Proof.
  intros H tr. unfold wrapErr. specialize (H tr).
  destruct (m tr) as [[a|e|] tr1]; cbn in *; try discriminate. exact H.
Qed.

Lemma neverPanics_bind {A B : Type} (m : M A) (k : A -> M B) :
  neverPanics m -> (forall a, neverPanics (k a)) -> neverPanics (bind m k).
Proof.
  intros Hm Hk tr. unfold bind. specialize (Hm tr).
  destruct (m tr) as [[a|e|] tr1]; cbn in *; try discriminate.
  - apply Hk.
  - exfalso. apply Hm. reflexivity.
Qed.

Lemma neverPanics_deleteStale (ghc : githubClient) (org repo : string)
  (cs : list IssueComment) (isStale : IssueComment -> bool) :
  neverPanics (deleteStale ghc org repo cs isStale).
Proof.
  induction cs as [|c rest IH]; cbn [deleteStale].
  - apply neverPanics_ret.
  - destruct (isStale c); [|exact IH].
    apply neverPanics_bind; [|intros _; exact IH].
    apply neverPanics_wrapErr, neverPanics_command.
Qed.

Lemma neverPanics_updateComments (ghc : githubClient) (pr : PullRequestQuery)
  (prSuite : PRSuite) (comment : string) :
  neverPanics (updateComments ghc pr prSuite comment).
Proof.
  unfold updateComments.
  apply neverPanics_bind; [apply neverPanics_wrapErr, neverPanics_request|].
  intros comments.
  apply neverPanics_bind; [apply neverPanics_wrapErr, neverPanics_request|].
  intros botUserChecker.
  destruct (match lastComment (botCommentsOf botUserChecker comments) with
            | Some c => String.eqb (Body c) comment
            | None => false
            end); [apply neverPanics_ret|].
  apply neverPanics_bind; [|intros _; apply neverPanics_command].
  apply neverPanics_wrapErr. apply neverPanics_deleteStale.
Qed.

Lemma neverPanics_updateStatus (unicodeEqualFold : string -> string -> bool)
  (ghc : githubClient) (pr : PullRequestQuery) (prSuite : PRSuite) (state : string) :
  neverPanics (updateStatus unicodeEqualFold ghc pr prSuite state).
Proof.
  unfold updateStatus.
  destruct (commitLoop unicodeEqualFold (HeadRefOID pr) (Commits pr));
    [apply neverPanics_ret|].
  apply neverPanics_bind; [apply neverPanics_request|].
  intros cs.
  destruct (String.eqb (SHA cs) (HeadRefOID pr) && String.eqb (CombinedState cs) state);
    [apply neverPanics_ret | apply neverPanics_command].
Qed.

Lemma neverPanics_runUpdateLabels (ghc : githubClient) (pr : PullRequestQuery)
  (prSuite : PRSuite) (labels : list string) :
  neverPanics (runUpdateLabels ghc pr prSuite labels).
Proof.
  intros tr. unfold runUpdateLabels.
  destruct (updateLabels ghc pr prSuite labels tr) as [[r s] tr1].
  cbn. destruct (err r); discriminate.
Qed.

Lemma neverPanics_reconcile (unicodeEqualFold : string -> string -> bool)
  (ghc : githubClient) (pr : PullRequestQuery) (prSuite : PRSuite)
  (labels : list string) (comment state : string) :
  neverPanics (reconcile unicodeEqualFold ghc pr prSuite labels comment state).
Proof.
  unfold reconcile.
  apply neverPanics_bind; [apply neverPanics_runUpdateLabels|]. intros updated.
  apply neverPanics_bind; [apply neverPanics_updateComments|]. intros _.
  apply neverPanics_updateStatus.
Qed.

(** A reconciliation followed by [return fmt.Errorf(...)] ends in an error,
    either its own or the final one. *)
Lemma reconcile_then_fail_is_error (m : M unit) (e : string) (tr : trace) :
  neverPanics m -> exists e', fst (bind m (fun _ => @fail unit e) tr) = Err e'.
Proof.
  intros H. unfold bind, fail. specialize (H tr).
  destruct (m tr) as [[u|e'|] tr1]; cbn in *.
  - exists e. reflexivity.
  - exists e'. reflexivity.
  - contradiction.
Qed.

Lemma updateLabels_version (ghc : githubClient) (pr : PullRequestQuery)
  (prSuite : PRSuite) (labels : list string) (tr : trace) :
  KubernetesReleaseVersion (snd (fst (updateLabels ghc pr prSuite labels tr)))
  = KubernetesReleaseVersion prSuite.
Proof.
  unfold updateLabels.
  destruct (addLoop ghc pr prSuite labels [] tr) as [[early|added] tr1];
    [reflexivity|].
  destruct (removeLoop ghc pr _ labels _ [] tr1) as [[early|removed] tr2];
    reflexivity.
Qed.

(** The tail [... ; return fmt.Errorf(...)] of the release and metadata
    gates, where the error text reads the version from the suite that
    [updateLabels] has written to. *)
Lemma gate_tail (unicodeEqualFold : string -> string -> bool)
  (ghc : githubClient) (pr : PullRequestQuery) (prSuite : PRSuite)
  (labels : list string) (comment state : string) (tr : trace) :
  (updated <- runUpdateLabels ghc pr prSuite labels ;;
   updateComments ghc pr (snd updated) comment ;;;
   updateStatus unicodeEqualFold ghc pr (snd updated) state ;;;
   @fail unit (missingReleaseError (snd updated))) tr
  = (reconcile unicodeEqualFold ghc pr prSuite labels comment state ;;;
     @fail unit (missingReleaseError prSuite)) tr.
Proof.
  unfold reconcile. rewrite bind_assoc. unfold bind at 1 4. unfold runUpdateLabels.
  pose proof (updateLabels_version ghc pr prSuite labels tr) as Hv.
  destruct (updateLabels ghc pr prSuite labels tr) as [[r s] tr1].
  cbn [fst snd] in Hv. destruct (err r); [reflexivity|].
  cbn [snd]. rewrite bind_assoc.
  unfold missingReleaseError. rewrite Hv. reflexivity.
Qed.

Section Gates.

Variable unicodeToLower : string -> string.
Variable unicodeToUpper : string -> string.
Variable unicodeEqualFold : string -> string -> bool.
Variable env : collaborators.
Variable ghc : githubClient.
Variable pr : PullRequestQuery.
Variables (tr tr0 : trace) (prSuite0 : PRSuite).

Hypothesis suiteBuilt : NewPRSuiteForPR env ghc pr tr = (Ok prSuite0, tr0).

Lemma handle_title_gate :
  isConformancePR unicodeToLower pr = false ->
  handle unicodeToLower unicodeToUpper unicodeEqualFold env ghc pr tr
  = reconcile unicodeEqualFold ghc pr (prepared env prSuite0)
      ["not-conformance-product-submission"; "unable-to-process"]
      notConformanceComment "pending" tr0.
Proof.
  intros Htitle. unfold handle. rewrite bind_run, suiteBuilt.
  cbv zeta. rewrite Htitle. cbn [negb]. fold (prepared env prSuite0).
  unfold reconcile. apply bind_ext. intros updated tr1.
  apply bind_ext. intros _ tr2. apply bind_ret_unit.
Qed.

Lemma handle_release_gate (first : ascii) (rest : string) (prSuite : PRSuite) :
  isConformancePR unicodeToLower pr = true ->
  ItIsAValidAndSupportedRelease env (prepared env prSuite0)
  = (Some (String first rest), prSuite) ->
  handle unicodeToLower unicodeToUpper unicodeEqualFold env ghc pr tr
  = (reconcile unicodeEqualFold ghc pr prSuite
       ["conformance-product-submission"; "unable-to-process"]
       (releaseComment unicodeToUpper first rest) "pending" ;;;
     @fail unit (missingReleaseError prSuite)) tr0.
Proof.
  intros Htitle Hrel. unfold handle. rewrite bind_run, suiteBuilt.
  cbv zeta. rewrite Htitle. cbn [negb]. fold (prepared env prSuite0).
  rewrite Hrel. rewrite <- gate_tail.
  assert (Hc : Sprintf "%v." [(ToUpper unicodeToUpper (String first EmptyString) ++ rest)%string]
               = releaseComment unicodeToUpper first rest).
  { unfold releaseComment. cbn [Sprintf]. apply append_assoc. }
  rewrite Hc. reflexivity.
Qed.

(** On an empty error text the slice [finalComment[:1]] is out of range. *)
Lemma handle_release_gate_empty_text (prSuite : PRSuite) :
  isConformancePR unicodeToLower pr = true ->
  ItIsAValidAndSupportedRelease env (prepared env prSuite0)
  = (Some EmptyString, prSuite) ->
  handle unicodeToLower unicodeToUpper unicodeEqualFold env ghc pr tr
  = (Panicked, tr0).
Proof.
  intros Htitle Hrel. unfold handle. rewrite bind_run, suiteBuilt.
  cbv zeta. rewrite Htitle. cbn [negb]. fold (prepared env prSuite0).
  rewrite Hrel. reflexivity.
Qed.

Lemma handle_metadata_gate (prSuite : PRSuite) (e : string) :
  isConformancePR unicodeToLower pr = true ->
  ItIsAValidAndSupportedRelease env (prepared env prSuite0) = (None, prSuite) ->
  ReadFile env (conformanceYAMLFilePath env prSuite) = ReadNotExist e ->
  handle unicodeToLower unicodeToUpper unicodeEqualFold env ghc pr tr
  = (reconcile unicodeEqualFold ghc pr prSuite
       ["conformance-product-submission"; "unable-to-process"]
       (notYetProcessableComment prSuite) "pending" ;;;
     @fail unit (missingReleaseError prSuite)) tr0.
Proof.
  intros Htitle Hrel Hread. unfold handle. rewrite bind_run, suiteBuilt.
  cbv zeta. rewrite Htitle. cbn [negb]. fold (prepared env prSuite0).
  rewrite Hrel. fold (conformanceYAMLFilePath env prSuite). rewrite Hread.
  rewrite <- gate_tail. reflexivity.
Qed.

Lemma handle_verdict (prSuite prSuite' : PRSuite) (finalComment state : string)
  (labels : list string) :
  isConformancePR unicodeToLower pr = true ->
  ItIsAValidAndSupportedRelease env (prepared env prSuite0) = (None, prSuite) ->
  (forall e, ReadFile env (conformanceYAMLFilePath env prSuite) <> ReadNotExist e) ->
  GetLabelsAndCommentsFromSuiteResultsBuffer env
    (RunTestSuite env (GetGodogPaths env) prSuite)
  = (finalComment, labels, state, None, prSuite') ->
  handle unicodeToLower unicodeToUpper unicodeEqualFold env ghc pr tr
  = (if String.eqb finalComment "" && Nat.eqb (List.length labels) 0
     then ret tt
     else reconcile unicodeEqualFold ghc pr prSuite' labels finalComment state) tr0.
Proof.
  intros Htitle Hrel Hread Hverdict. unfold handle. rewrite bind_run, suiteBuilt.
  cbv zeta. rewrite Htitle. cbn [negb]. fold (prepared env prSuite0).
  rewrite Hrel. fold (conformanceYAMLFilePath env prSuite).
  destruct (ReadFile env (conformanceYAMLFilePath env prSuite)) as [c|e|e] eqn:Er;
    [|exfalso; exact (Hread e eq_refl)|];
    rewrite Hverdict;
    (destruct (String.eqb finalComment "" && Nat.eqb (List.length labels) 0);
     [reflexivity|]);
    unfold reconcile; apply bind_ext; intros updated tr1;
    apply bind_ext; intros _ tr2; apply bind_ret_unit.
Qed.

End Gates.

Lemma fetchChanges_trace (env : collaborators) (pr : PullRequestQuery)
  (changes : list PullRequestChange) (prSuite : PRSuite) (productYAML : string)
  (tr : trace) :
  snd (fetchChanges env pr changes prSuite productYAML tr) = tr.
Proof.
  revert prSuite productYAML. induction changes as [|c rest IH];
    intros prSuite productYAML; cbn [fetchChanges].
  - reflexivity.
  - destruct (fetchFileFromURI env (rawURLForBlobURL (ChangeBlobURL c))).
    + apply IH.
    + reflexivity.
Qed.

(** Building the suite only reads from GitHub. *)
Lemma NewPRSuiteForPR_reads (env : collaborators) (ghc : githubClient)
  (pr : PullRequestQuery) (tr : trace) :
  exists reads,
    snd (NewPRSuiteForPR env ghc pr tr) = tr ++ reads
    /\ existsb isMutation reads = false.
Proof.
  unfold NewPRSuiteForPR. rewrite bind_run. unfold wrapErr at 1. unfold request at 1.
  destruct (GetIssueLabels ghc tr (org pr) (repo pr) (Number pr)) as [ls|e].
  2:{ eexists. split; [reflexivity | reflexivity]. }
  destruct (GetStableTxt env) as [stable|e].
  2:{ eexists. split; [reflexivity | reflexivity]. }
  rewrite bind_run. unfold wrapErr at 1. unfold request at 1.
  destruct (GetPullRequestChanges ghc _ (org pr) (repo pr) (Number pr)) as [changes|e].
  2:{ eexists. split; [cbn [snd]; rewrite <- app_assoc; reflexivity | reflexivity]. }
  rewrite bind_run.
  match goal with
  | |- context [fetchChanges ?e ?p ?c ?s ?y ?t] =>
      pose proof (fetchChanges_trace e p c s y t) as Hf;
      destruct (fetchChanges e p c s y t) as [[[s1 yaml]|e1|] tr1]
  end; cbn [snd] in Hf; subst tr1.
  - exists [CallGetIssueLabels (org pr) (repo pr) (Number pr);
            CallGetPullRequestChanges (org pr) (repo pr) (Number pr)].
    split; [|reflexivity].
    destruct (String.eqb yaml ""); [cbn [snd ret]; rewrite <- app_assoc; reflexivity|].
    destruct (yamlUnmarshal env yaml); cbn [snd ret]; rewrite <- app_assoc; reflexivity.
  - eexists. split; [cbn [snd]; rewrite <- app_assoc; reflexivity | reflexivity].
  - eexists. split; [cbn [snd]; rewrite <- app_assoc; reflexivity | reflexivity].
Qed.

Lemma emits_ret {A : Type} (P : call -> bool) (a : A) : emits P (ret a).
Proof. intros tr. exists []. rewrite app_nil_r. split; reflexivity. Qed.

Lemma emits_fail {A : Type} (P : call -> bool) (e : string) : emits P (@fail A e).
Proof. intros tr. exists []. rewrite app_nil_r. split; reflexivity. Qed.

Lemma emits_request {A : Type} (P : call -> bool) (c : call)
  (answer : trace -> A + string) :
  P c = true -> emits P (request c answer).
Proof. intros H tr. exists [c]. cbn. rewrite H. split; reflexivity. Qed.

Lemma emits_command (P : call -> bool) (c : call) (answer : trace -> option string) :
  P c = true -> emits P (command c answer).
Proof. intros H tr. exists [c]. cbn. rewrite H. split; reflexivity. Qed.

Lemma emits_wrapErr {A : Type} (P : call -> bool) (f : string -> string) (m : M A) :
  emits P m -> emits P (wrapErr f m).
Proof.
  intros H tr. destruct (H tr) as [calls [Hc Hp]]. exists calls.
  split; [|exact Hp]. unfold wrapErr.
  destruct (m tr) as [[a|e|] tr1]; exact Hc.
Qed.

Lemma emits_bind {A B : Type} (P : call -> bool) (m : M A) (k : A -> M B) :
  emits P m -> (forall a, emits P (k a)) -> emits P (bind m k).
Proof.
  intros Hm Hk tr. destruct (Hm tr) as [calls [Hc Hp]]. unfold bind.
  destruct (m tr) as [[a|e|] tr1]; cbn [snd] in Hc; subst tr1.
  - destruct (Hk a (tr ++ calls)) as [calls' [Hc' Hp']].
    exists (calls ++ calls'). rewrite Hc', app_assoc, forallb_app, Hp, Hp'.
    split; reflexivity.
  - exists calls. split; [reflexivity | exact Hp].
  - exists calls. split; [reflexivity | exact Hp].
Qed.

Lemma emits_deleteStale (ghc : githubClient) (org repo : string)
  (cs : list IssueComment) (isStale : IssueComment -> bool) :
  emits isCommentCall (deleteStale ghc org repo cs isStale).
Proof.
  induction cs as [|c rest IH]; cbn [deleteStale].
  - apply emits_ret.
  - destruct (isStale c); [|exact IH].
    apply emits_bind; [|intros _; exact IH].
    apply emits_wrapErr, emits_command. reflexivity.
Qed.

Lemma emits_updateComments (ghc : githubClient) (pr : PullRequestQuery)
  (prSuite : PRSuite) (comment : string) :
  emits isCommentCall (updateComments ghc pr prSuite comment).
Proof.
  unfold updateComments.
  apply emits_bind; [apply emits_wrapErr, emits_request; reflexivity|].
  intros comments.
  apply emits_bind; [apply emits_wrapErr, emits_request; reflexivity|].
  intros botUserChecker.
  destruct (match lastComment (botCommentsOf botUserChecker comments) with
            | Some c => String.eqb (Body c) comment
            | None => false
            end); [apply emits_ret|].
  apply emits_bind; [|intros _; apply emits_command; reflexivity].
  apply emits_wrapErr. apply emits_deleteStale.
Qed.

Lemma emits_updateStatus (unicodeEqualFold : string -> string -> bool)
  (ghc : githubClient) (pr : PullRequestQuery) (prSuite : PRSuite) (state : string) :
  emits isStatusCall (updateStatus unicodeEqualFold ghc pr prSuite state).
Proof.
  unfold updateStatus.
  destruct (commitLoop unicodeEqualFold (HeadRefOID pr) (Commits pr));
    [apply emits_ret|].
  apply emits_bind; [apply emits_request; reflexivity|].
  intros cs.
  destruct (String.eqb (SHA cs) (HeadRefOID pr) && String.eqb (CombinedState cs) state);
    [apply emits_ret | apply emits_command; reflexivity].
Qed.

Lemma addLoop_calls (ghc : githubClient) (pr : PullRequestQuery) (prSuite : PRSuite)
  (labels acc : list string) (tr : trace) :
  exists calls,
    snd (addLoop ghc pr prSuite labels acc tr) = tr ++ calls
    /\ forallb isLabelCall calls = true.
Proof.
  revert acc tr. induction labels as [|l rest IH]; intros acc tr; cbn [addLoop].
  - exists []. rewrite app_nil_r. split; reflexivity.
  - destruct (unmanaged prSuite l); [apply IH|].
    destruct (foundIn l (Labels (PR prSuite))); [apply IH|].
    destruct (AddLabel ghc tr (org pr) (repo pr) (Number pr) l).
    + eexists. split; [reflexivity | reflexivity].
    + destruct (IH (acc ++ [l]) (tr ++ [CallAddLabel (org pr) (repo pr) (Number pr) l]))
        as [calls [Hc Hp]].
      exists (CallAddLabel (org pr) (repo pr) (Number pr) l :: calls).
      rewrite Hc, <- app_assoc. split; [reflexivity | exact Hp].
Qed.

Lemma removeLoop_calls (ghc : githubClient) (pr : PullRequestQuery)
  (prSuite : PRSuite) (labels prLabels acc : list string) (tr : trace) :
  exists calls,
    snd (removeLoop ghc pr prSuite labels prLabels acc tr) = tr ++ calls
    /\ forallb isLabelCall calls = true.
Proof.
  revert acc tr. induction prLabels as [|l rest IH]; intros acc tr; cbn [removeLoop].
  - exists []. rewrite app_nil_r. split; reflexivity.
  - destruct (unmanaged prSuite l); [apply IH|].
    destruct (foundIn l labels); [apply IH|].
    destruct (RemoveLabel ghc tr (org pr) (repo pr) (Number pr) l).
    + eexists. split; [reflexivity | reflexivity].
    + destruct (IH (Labels (PR prSuite) ++ [l])
                   (tr ++ [CallRemoveLabel (org pr) (repo pr) (Number pr) l]))
        as [calls [Hc Hp]].
      exists (CallRemoveLabel (org pr) (repo pr) (Number pr) l :: calls).
      rewrite Hc, <- app_assoc. split; [reflexivity | exact Hp].
Qed.

Lemma emits_runUpdateLabels (ghc : githubClient) (pr : PullRequestQuery)
  (prSuite : PRSuite) (labels : list string) :
  emits isLabelCall (runUpdateLabels ghc pr prSuite labels).
Proof.
  intros tr. unfold runUpdateLabels, updateLabels.
  destruct (addLoop_calls ghc pr prSuite labels [] tr) as [calls [Hc Hp]].
  destruct (addLoop ghc pr prSuite labels [] tr) as [[early|added] tr1];
    cbn [snd] in Hc; subst tr1.
  - exists calls. split; [reflexivity | exact Hp].
  - match goal with
    | |- context [removeLoop ?g ?p ?s ?l ?pl ?a ?t] =>
        destruct (removeLoop_calls g p s l pl a t) as [calls' [Hc' Hp']];
        destruct (removeLoop g p s l pl a t) as [[early|removed] tr2]
    end; cbn [snd] in Hc'; subst tr2;
      (exists (calls ++ calls'); rewrite app_assoc, forallb_app, Hp, Hp';
       split; reflexivity).
Qed.

(** The calls of a reconciliation are label calls, then comment calls, then
    status calls. *)
Lemma reconcile_calls (unicodeEqualFold : string -> string -> bool)
  (ghc : githubClient) (pr : PullRequestQuery) (prSuite : PRSuite)
  (labels : list string) (comment state : string) (tr : trace) :
  labelsCommentStatus tr
    (snd (reconcile unicodeEqualFold ghc pr prSuite labels comment state tr)).
Proof.
  unfold reconcile, labelsCommentStatus. rewrite bind_run.
  destruct (emits_runUpdateLabels ghc pr prSuite labels tr) as [ls [Hl Hpl]].
  destruct (runUpdateLabels ghc pr prSuite labels tr) as [[updated|e|] tr1];
    cbn [snd] in Hl; subst tr1.
  2,3: exists ls, [], []; cbn [snd]; rewrite !app_nil_r; repeat split; auto.
  rewrite bind_run.
  destruct (emits_updateComments ghc pr (snd updated) comment (tr ++ ls))
    as [cs [Hc Hpc]].
  destruct (updateComments ghc pr (snd updated) comment (tr ++ ls)) as [[u|e|] tr2];
    cbn [snd] in Hc; subst tr2.
  2,3: exists ls, cs, []; cbn [snd]; rewrite !app_nil_r, <- app_assoc;
       repeat split; auto.
  destruct (emits_updateStatus unicodeEqualFold ghc pr (snd updated) state
              ((tr ++ ls) ++ cs)) as [ss [Hs Hps]].
  exists ls, cs, ss. rewrite Hs, <- !app_assoc. repeat split; auto.
Qed.

Lemma snd_bind_fail (m : M unit) (e : string) (tr : trace) :
  snd (bind m (fun _ => @fail unit e) tr) = snd (m tr).
Proof. unfold bind, fail. destruct (m tr) as [[u|e'|] tr1]; reflexivity. Qed.


(** C6, amended: when the title gate passes and the release validator
    answers with an error text that is not empty, [handle] reconciles the
    labels conformance-product-submission and unable-to-process, the comment
    made of the error text with its first byte upper-cased and a full stop
    appended, and the state pending, and then returns an error. *)
Theorem handle_unsupported_release (unicodeToLower unicodeToUpper : string -> string)
  (unicodeEqualFold : string -> string -> bool) (env : collaborators)
  (ghc : githubClient) (pr : PullRequestQuery) (tr tr0 : trace)
  (prSuite0 prSuite : PRSuite) (first : ascii) (rest : string) :
  NewPRSuiteForPR env ghc pr tr = (Ok prSuite0, tr0) ->
  isConformancePR unicodeToLower pr = true ->
  ItIsAValidAndSupportedRelease env (prepared env prSuite0)
  = (Some (String first rest), prSuite) ->
  handle unicodeToLower unicodeToUpper unicodeEqualFold env ghc pr tr
  = (reconcile unicodeEqualFold ghc pr prSuite
       ["conformance-product-submission"; "unable-to-process"]
       (releaseComment unicodeToUpper first rest) "pending" ;;;
     @fail unit (missingReleaseError prSuite)) tr0
  /\ (isASCIIByte first = true ->
      releaseComment unicodeToUpper first rest
      = (capitalized (String first rest) ++ ".")%string)
  /\ exists e,
       fst (handle unicodeToLower unicodeToUpper unicodeEqualFold env ghc pr tr) = Err e.
Proof.
  intros Hbuilt Htitle Hrel.
  rewrite (handle_release_gate unicodeToLower unicodeToUpper unicodeEqualFold
             env ghc pr tr tr0 prSuite0 Hbuilt first rest prSuite Htitle Hrel).
  split; [reflexivity|]. split.
  - intros Hascii. unfold releaseComment, ToUpper. cbn [isASCII].
    rewrite Hascii. reflexivity.
  - apply reconcile_then_fail_is_error, neverPanics_reconcile.
Qed.

(** C8: when the three gates pass and the rule suite returns an empty
    comment and no label, [handle] returns nil and has made no call beyond
    the reads that built the suite: no label, comment or status is touched. *)
Theorem handle_nothing_new (unicodeToLower unicodeToUpper : string -> string)
  (unicodeEqualFold : string -> string -> bool) (env : collaborators)
  (ghc : githubClient) (pr : PullRequestQuery) (tr tr0 : trace)
  (prSuite0 prSuite prSuite' : PRSuite) (state : string) :
  NewPRSuiteForPR env ghc pr tr = (Ok prSuite0, tr0) ->
  isConformancePR unicodeToLower pr = true ->
  ItIsAValidAndSupportedRelease env (prepared env prSuite0) = (None, prSuite) ->
  (forall e, ReadFile env (conformanceYAMLFilePath env prSuite) <> ReadNotExist e) ->
  GetLabelsAndCommentsFromSuiteResultsBuffer env
    (RunTestSuite env (GetGodogPaths env) prSuite)
  = ("", [], state, None, prSuite') ->
  handle unicodeToLower unicodeToUpper unicodeEqualFold env ghc pr tr = (Ok tt, tr0)
  /\ exists reads, tr0 = tr ++ reads /\ existsb isMutation reads = false.
Proof.
  intros Hbuilt Htitle Hrel Hread Hverdict. split.
  - rewrite (handle_verdict unicodeToLower unicodeToUpper unicodeEqualFold
               env ghc pr tr tr0 prSuite0 Hbuilt prSuite prSuite' "" state []
               Htitle Hrel Hread Hverdict).
    reflexivity.
  - destruct (NewPRSuiteForPR_reads env ghc pr tr) as [reads [Hr Hm]].
    rewrite Hbuilt in Hr. exists reads. split; [exact Hr | exact Hm].
Qed.


(** C6 as the specification states it fails on the text of the comment:
    what is posted is the capitalized error text followed by a full stop. *)
Lemma release_comment_has_full_stop :
  handle noCase noCase noFold unsupportedEnv okClient samplePR []
  = (Err "unable to process release file as it is missing for release v1.99",
     [ CallGetIssueLabels "cncf" "k8s-conformance" 42;
       CallGetPullRequestChanges "cncf" "k8s-conformance" 42;
       CallAddLabel "cncf" "k8s-conformance" 42 "conformance-product-submission";
       CallAddLabel "cncf" "k8s-conformance" 42 "unable-to-process";
       CallListIssueComments "cncf" "k8s-conformance" 42;
       CallBotUserChecker;
       CallCreateComment "cncf" "k8s-conformance" 42
         "Unable to use version v1.99 because it is newer than the current supported release.";
       CallGetCombinedStatus "cncf" "k8s-conformance" "abc123";
       CallCreateStatus "cncf" "k8s-conformance" "abc123" pendingStatus ])
  /\ capitalized unsupportedText
     = "Unable to use version v1.99 because it is newer than the current supported release"
  /\ ~ In (CallCreateComment "cncf" "k8s-conformance" 42 (capitalized unsupportedText))
          (snd (handle noCase noCase noFold unsupportedEnv okClient samplePR [])).
Proof.
  split; [vm_compute; reflexivity|]. split; [reflexivity|].
  vm_compute. intros H.
  repeat (destruct H as [H|H]; [discriminate H|]). exact H.
Qed.

(** On a pull request without labels, comments or status, the unsupported
    release v1.99 gets the two labels, the comment with its full stop and
    the state pending, and the pass ends in an error. *)
Lemma handle_unsupported_release_witness :
  NewPRSuiteForPR unsupportedEnv okClient samplePR []
  = (Ok (builtSuite samplePR), readCalls samplePR)
  /\ isConformancePR noCase samplePR = true
  /\ ItIsAValidAndSupportedRelease unsupportedEnv
       (prepared unsupportedEnv (builtSuite samplePR))
     = (Some unsupportedText, gateSuite samplePR "v1.99")
  /\ handle noCase noCase noFold unsupportedEnv okClient samplePR []
     = (Err "unable to process release file as it is missing for release v1.99",
        readCalls samplePR
        ++ [ CallAddLabel "cncf" "k8s-conformance" 42 "conformance-product-submission";
             CallAddLabel "cncf" "k8s-conformance" 42 "unable-to-process";
             CallListIssueComments "cncf" "k8s-conformance" 42;
             CallBotUserChecker;
             CallCreateComment "cncf" "k8s-conformance" 42
               (capitalized unsupportedText ++ ".")%string;
             CallGetCombinedStatus "cncf" "k8s-conformance" "abc123";
             CallCreateStatus "cncf" "k8s-conformance" "abc123" pendingStatus ]).
Proof.
  split; [reflexivity|]. split; [reflexivity|]. split; [reflexivity|].
  destruct (handle_unsupported_release noCase noCase noFold unsupportedEnv okClient
              samplePR [] (readCalls samplePR) (builtSuite samplePR)
              (gateSuite samplePR "v1.99") "u"%char
              "nable to use version v1.99 because it is newer than the current supported release"
              eq_refl eq_refl eq_refl) as [Hrun _].
  rewrite Hrun. vm_compute. reflexivity.
Defined.

(** A verdict without comment and without label leaves the pull request as
    it is. *)
Lemma handle_nothing_new_witness :
  NewPRSuiteForPR nothingNewEnv okClient samplePR []
  = (Ok (builtSuite samplePR), readCalls samplePR)
  /\ isConformancePR noCase samplePR = true
  /\ handle noCase noCase noFold nothingNewEnv okClient samplePR []
     = (Ok tt, readCalls samplePR).
Proof.
  split; [reflexivity|]. split; [reflexivity|].
  apply (handle_nothing_new noCase noCase noFold nothingNewEnv okClient samplePR []
           (readCalls samplePR) (builtSuite samplePR) (gateSuite samplePR "v1.29")
           (gateSuite samplePR "v1.29") "success" eq_refl eq_refl eq_refl).
  - intros e. discriminate.
  - reflexivity.
Defined.

(** * Further properties of the plugin *)

(** ** The classifier and the slice filter *)

(** X1: the answer of [labelIsVersionLabel] does not depend on the current
    version: the comparison with the rendered template never decides. *)
Theorem labelIsVersionLabel_ignores_version (label version version' : string) :
  labelIsVersionLabel label version = labelIsVersionLabel label version'.
Proof. rewrite !labelIsVersionLabel_eq. reflexivity. Qed.

(** X2: the answer of [labelIsFileLabel] does not depend on the list of
    missing files: every label that contains "missing-file-" is accepted,
    and no other. *)
Theorem labelIsFileLabel_ignores_missing_files (label : string)
  (missingFiles missingFiles' : list string) :
  labelIsFileLabel label missingFiles = labelIsFileLabel label missingFiles'
  /\ (labelIsFileLabel label missingFiles = true
      <-> exists pre suf, label = (pre ++ "missing-file-" ++ suf)%string).
Proof.
  rewrite !labelIsFileLabel_eq. split; [reflexivity | apply Contains_spec].
Qed.

Lemma removeSlice_In (originalSlice removeSlice : list string) (x : string) :
  In x (removeSliceOfStringsFromStringSlice originalSlice removeSlice)
  <-> In x originalSlice /\ ~ In x removeSlice.
Proof.
  unfold removeSliceOfStringsFromStringSlice. rewrite filter_In.
  split; intros [Hin H]; (split; [exact Hin|]).
  - intros Hr.
    assert (E : existsb (fun delString => String.eqb x delString) removeSlice = true).
    { apply existsb_exists. exists x. split; [exact Hr | apply String.eqb_refl]. }
    rewrite E in H. discriminate.
  - destruct (existsb (fun delString => String.eqb x delString) removeSlice) eqn:E;
      [|reflexivity].
    apply existsb_exists in E. destruct E as [y [Hy Heq]].
    apply String.eqb_eq in Heq. subst y. contradiction.
Qed.

(** X3: [removeSliceOfStringsFromStringSlice] keeps exactly the items of the
    original slice that do not occur in the slice to remove, each as often
    as it occurred. *)
Theorem removeSlice_keeps_the_others (originalSlice removeSlice : list string)
  (x : string) :
  (In x (removeSliceOfStringsFromStringSlice originalSlice removeSlice)
   <-> In x originalSlice /\ ~ In x removeSlice)
  /\ (~ In x removeSlice ->
      count_occ string_dec
        (removeSliceOfStringsFromStringSlice originalSlice removeSlice) x
      = count_occ string_dec originalSlice x).
Proof.
  split; [apply removeSlice_In|]. intros Hx.
  unfold removeSliceOfStringsFromStringSlice.
  induction originalSlice as [|o rest IH]; [reflexivity|].
  cbn [filter].
  destruct (existsb (fun delString => String.eqb o delString) removeSlice) eqn:E;
    cbn [negb].
  - apply existsb_exists in E. destruct E as [y [Hy Heq]].
    apply String.eqb_eq in Heq. subst y.
    cbn [count_occ]. destruct (string_dec o x) as [->|_]; [contradiction | exact IH].
  - cbn [count_occ]. destruct (string_dec o x); [rewrite IH; reflexivity | exact IH].
Qed.

(** The filter goes through concatenation, on both sides, and filtering
    twice by the same slice changes nothing more: it keeps the order of the
    items it keeps. *)
Theorem removeSlice_composes (a b r r' : list string) :
  removeSliceOfStringsFromStringSlice (a ++ b) r
  = removeSliceOfStringsFromStringSlice a r
    ++ removeSliceOfStringsFromStringSlice b r
  /\ removeSliceOfStringsFromStringSlice a (r ++ r')
     = removeSliceOfStringsFromStringSlice
         (removeSliceOfStringsFromStringSlice a r) r'
  /\ removeSliceOfStringsFromStringSlice
       (removeSliceOfStringsFromStringSlice a r) r
     = removeSliceOfStringsFromStringSlice a r.
Proof.
  unfold removeSliceOfStringsFromStringSlice. split; [apply filter_app|]. split.
  - induction a as [|x a IH]; [reflexivity|].
    cbn [filter]. rewrite existsb_app.
    destruct (existsb (fun delString => String.eqb x delString) r);
      cbn [negb orb]; [exact IH|].
    cbn [filter].
    destruct (existsb (fun delString => String.eqb x delString) r');
      cbn [negb]; [exact IH | rewrite IH; reflexivity].
  - induction a as [|x a IH]; [reflexivity|].
    cbn [filter].
    destruct (existsb (fun delString => String.eqb x delString) r) eqn:E;
      cbn [negb]; [exact IH|].
    cbn [filter]. rewrite E. cbn [negb]. rewrite IH. reflexivity.
Qed.

(** ** The label reconciler *)

Lemma addLoop_each (ghc : githubClient) (pr : PullRequestQuery) (prSuite : PRSuite)
  (P : string -> Prop) (labels acc : list string) (tr : trace) :
  (forall l, In l labels -> unmanaged prSuite l = false ->
             ~ In l (Labels (PR prSuite)) -> P l) ->
  exists calls,
    snd (addLoop ghc pr prSuite labels acc tr) = tr ++ calls
    /\ Forall (fun c => exists l,
                 c = CallAddLabel (org pr) (repo pr) (Number pr) l /\ P l) calls.
Proof.
  revert acc tr. induction labels as [|l rest IH]; intros acc tr HP; cbn [addLoop].
  - exists []. rewrite app_nil_r. split; [reflexivity | constructor].
  - assert (HP' : forall l0, In l0 rest -> unmanaged prSuite l0 = false ->
                             ~ In l0 (Labels (PR prSuite)) -> P l0).
    { intros l0 H0. apply HP. right. exact H0. }
    destruct (unmanaged prSuite l) eqn:Eu; [apply IH; exact HP'|].
    destruct (foundIn l (Labels (PR prSuite))) eqn:Ef; [apply IH; exact HP'|].
    apply foundIn_false in Ef.
    assert (Hl : exists l0, CallAddLabel (org pr) (repo pr) (Number pr) l
                            = CallAddLabel (org pr) (repo pr) (Number pr) l0 /\ P l0).
    { exists l. split; [reflexivity|]. apply HP; auto. left. reflexivity. }
    destruct (AddLabel ghc tr (org pr) (repo pr) (Number pr) l).
    + eexists. split; [reflexivity|]. constructor; [exact Hl | constructor].
    + destruct (IH (acc ++ [l]) (tr ++ [CallAddLabel (org pr) (repo pr) (Number pr) l]) HP')
        as [calls [Hc Hall]].
      exists (CallAddLabel (org pr) (repo pr) (Number pr) l :: calls).
      rewrite Hc, <- app_assoc. split; [reflexivity|]. constructor; assumption.
Qed.

Lemma removeLoop_each (ghc : githubClient) (pr : PullRequestQuery)
  (prSuite : PRSuite) (P : string -> Prop) (labels prLabels acc : list string)
  (tr : trace) :
  (forall l, In l prLabels -> unmanaged prSuite l = false -> ~ In l labels -> P l) ->
  exists calls,
    snd (removeLoop ghc pr prSuite labels prLabels acc tr) = tr ++ calls
    /\ Forall (fun c => exists l,
                 c = CallRemoveLabel (org pr) (repo pr) (Number pr) l /\ P l) calls.
Proof.
  revert acc tr. induction prLabels as [|l rest IH]; intros acc tr HP;
    cbn [removeLoop].
  - exists []. rewrite app_nil_r. split; [reflexivity | constructor].
  - assert (HP' : forall l0, In l0 rest -> unmanaged prSuite l0 = false ->
                             ~ In l0 labels -> P l0).
    { intros l0 H0. apply HP. right. exact H0. }
    destruct (unmanaged prSuite l) eqn:Eu; [apply IH; exact HP'|].
    destruct (foundIn l labels) eqn:Ef; [apply IH; exact HP'|].
    apply foundIn_false in Ef.
    assert (Hl : exists l0, CallRemoveLabel (org pr) (repo pr) (Number pr) l
                            = CallRemoveLabel (org pr) (repo pr) (Number pr) l0 /\ P l0).
    { exists l. split; [reflexivity|]. apply HP; auto. left. reflexivity. }
    destruct (RemoveLabel ghc tr (org pr) (repo pr) (Number pr) l).
    + eexists. split; [reflexivity|]. constructor; [exact Hl | constructor].
    + destruct (IH (Labels (PR prSuite) ++ [l])
                   (tr ++ [CallRemoveLabel (org pr) (repo pr) (Number pr) l]) HP')
        as [calls [Hc Hall]].
      exists (CallRemoveLabel (org pr) (repo pr) (Number pr) l :: calls).
      rewrite Hc, <- app_assoc. split; [reflexivity|]. constructor; assumption.
Qed.

(** X4: whatever the client answers, every call [updateLabels] makes is
    either an AddLabel for a desired label that is managed and absent from
    the in-memory list, or a RemoveLabel for a label of the in-memory list
    that is managed and not desired: a label that no classifier accepts is
    never added to or removed from the pull request. *)
Theorem updateLabels_calls_justified (ghc : githubClient) (pr : PullRequestQuery)
  (prSuite : PRSuite) (labels : list string) (tr : trace) :
  exists calls,
    snd (updateLabels ghc pr prSuite labels tr) = tr ++ calls
    /\ Forall (justifiedLabelCall pr prSuite labels) calls.
Proof.
  unfold updateLabels.
  destruct (addLoop_each ghc pr prSuite
              (fun l => In l labels /\ unmanaged prSuite l = false
                        /\ ~ In l (Labels (PR prSuite)))
              labels [] tr) as [calls [Hc Hall]]; [auto|].
  assert (Hadds : Forall (justifiedLabelCall pr prSuite labels) calls).
  { eapply Forall_impl; [|exact Hall].
    intros c [l [-> [H1 [H2 H3]]]]. cbn. auto 10. }
  destruct (addLoop ghc pr prSuite labels [] tr) as [[early|added] tr1] eqn:Ea;
    cbn [snd] in Hc; subst tr1.
  { exists calls. split; [reflexivity | exact Hadds]. }
  pose proof (addLoop_added _ _ _ _ _ _ _ _ Ea) as Hadded. cbn [app] in Hadded.
  match goal with
  | |- context [removeLoop ?g ?p ?s ?l ?pl ?a ?t] =>
      destruct (removeLoop_each g p s
                  (fun x => In x (Labels (PR prSuite))
                            /\ unmanaged prSuite x = false /\ ~ In x labels)
                  l pl a t) as [calls' [Hc' Hall']]
  end.
  { cbn [setLabels PR Labels]. intros l Hl Hu Hn. split; [|split; [exact Hu | exact Hn]].
    apply in_app_or in Hl. destruct Hl as [Hl|Hl]; [exact Hl|].
    exfalso. apply Hn. rewrite Hadded in Hl. apply filter_In in Hl. apply Hl. }
  assert (Hrems : Forall (justifiedLabelCall pr prSuite labels) calls').
  { eapply Forall_impl; [|exact Hall'].
    intros c [l [-> [H1 [H2 H3]]]]. cbn. auto 10. }
  match goal with
  | |- context [removeLoop ?g ?p ?s ?l ?pl ?a ?t] =>
      destruct (removeLoop g p s l pl a t) as [[early|removed] tr2]
  end; cbn [snd] in Hc'; subst tr2;
    (exists (calls ++ calls'); rewrite app_assoc;
     split; [reflexivity | apply Forall_app; split; assumption]).
Qed.

(** [updateLabels] writes to the label list of the suite and to nothing
    else in it. *)
Theorem updateLabels_writes_labels_only (ghc : githubClient)
  (pr : PullRequestQuery) (prSuite : PRSuite) (labels : list string) (tr : trace) :
  exists ls, snd (fst (updateLabels ghc pr prSuite labels tr)) = setLabels prSuite ls.
Proof.
  unfold updateLabels.
  destruct (addLoop ghc pr prSuite labels [] tr) as [[early|added] tr1].
  - exists (Labels (PR prSuite)). destruct prSuite as [[q ls sf dt] v vl mf md].
    reflexivity.
  - destruct (removeLoop ghc pr _ labels _ [] tr1) as [[early|removed] tr2];
      eexists; reflexivity.
Qed.

Lemma addLoop_settled (ghc : githubClient) (pr : PullRequestQuery)
  (prSuite : PRSuite) (labels acc : list string) (tr : trace) :
  (forall l, In l labels -> unmanaged prSuite l = false ->
             In l (Labels (PR prSuite))) ->
  addLoop ghc pr prSuite labels acc tr = (inr acc, tr).
Proof.
  induction labels as [|l rest IH]; intros H; cbn [addLoop]; [reflexivity|].
  assert (H' : forall l0, In l0 rest -> unmanaged prSuite l0 = false ->
                          In l0 (Labels (PR prSuite))).
  { intros l0 H0. apply H. right. exact H0. }
  destruct (unmanaged prSuite l) eqn:Eu; [exact (IH H')|].
  assert (Ef : foundIn l (Labels (PR prSuite)) = true).
  { apply foundIn_true. apply H; [left; reflexivity | exact Eu]. }
  rewrite Ef. exact (IH H').
Qed.

Lemma removeLoop_settled (ghc : githubClient) (pr : PullRequestQuery)
  (prSuite : PRSuite) (labels prLabels acc : list string) (tr : trace) :
  (forall l, In l prLabels -> unmanaged prSuite l = false -> In l labels) ->
  removeLoop ghc pr prSuite labels prLabels acc tr = (inr acc, tr).
Proof.
  induction prLabels as [|l rest IH]; intros H; cbn [removeLoop]; [reflexivity|].
  assert (H' : forall l0, In l0 rest -> unmanaged prSuite l0 = false -> In l0 labels).
  { intros l0 H0. apply H. right. exact H0. }
  destruct (unmanaged prSuite l) eqn:Eu; [exact (IH H')|].
  assert (Ef : foundIn l labels = true).
  { apply foundIn_true. apply H; [left; reflexivity | exact Eu]. }
  rewrite Ef. exact (IH H').
Qed.

(** X5: on a converged pull request, where every managed desired label is
    in the in-memory list and every managed label of the list is desired,
    [updateLabels] makes no call, reports nothing added or removed and
    leaves the suite as it is. *)
Theorem updateLabels_converged_is_noop (ghc : githubClient)
  (pr : PullRequestQuery) (prSuite : PRSuite) (labels : list string) (tr : trace) :
  (forall l, In l labels -> unmanaged prSuite l = false ->
             In l (Labels (PR prSuite))) ->
  (forall l, In l (Labels (PR prSuite)) -> unmanaged prSuite l = false ->
             In l labels) ->
  updateLabels ghc pr prSuite labels tr
  = ({| newLabels := []; removedLabels := []; err := None |}, prSuite, tr).
Proof.
  intros Hdesired Hpresent. unfold updateLabels.
  rewrite (addLoop_settled ghc pr prSuite labels [] tr Hdesired).
  rewrite removeLoop_settled.
  - cbn [setLabels PR Labels]. rewrite removeSlice_nil, app_nil_r.
    destruct prSuite as [[q ls sf dt] v vl mf md]. reflexivity.
  - cbn [setLabels PR Labels]. rewrite app_nil_r. exact Hpresent.
Qed.

(** A processed submission with a label of the repository's own: a second
    pass with the same desired labels calls nothing. *)
Lemma updateLabels_converged_is_noop_witness :
  updateLabels okClient samplePR settledSuite settledLabels []
  = ({| newLabels := []; removedLabels := []; err := None |}, settledSuite, []).
Proof.
  apply updateLabels_converged_is_noop.
  - intros l [<-|[<-|[]]] _; cbn; auto.
  - intros l [<-|[<-|[<-|[]]]] H; cbn; auto. vm_compute in H. discriminate H.
Defined.

(** X6: when [updateLabels] succeeds without removing a label, the in-memory
    label list is the old one followed by the labels added; as a set it is
    the old labels together with the desired labels that are managed. *)
Theorem updateLabels_only_adding (ghc : githubClient) (pr : PullRequestQuery)
  (prSuite : PRSuite) (labels : list string) (tr : trace) (r : labelsResult)
  (prSuite' : PRSuite) (tr' : trace) :
  updateLabels ghc pr prSuite labels tr = (r, prSuite', tr') ->
  err r = None -> removedLabels r = [] ->
  Labels (PR prSuite') = Labels (PR prSuite) ++ newLabels r
  /\ forall l, In l (Labels (PR prSuite')) <->
               In l (Labels (PR prSuite))
               \/ (In l labels /\ unmanaged prSuite l = false).
Proof. apply updateLabels_without_removal. Qed.

(** Two labels added to a pull request without labels. *)
Lemma updateLabels_only_adding_witness :
  updateLabels okClient samplePR freshSuite submissionLabels []
  = ({| newLabels := submissionLabels; removedLabels := []; err := None |},
     setLabels freshSuite submissionLabels,
     [ CallAddLabel "cncf" "k8s-conformance" 42 "conformance-product-submission";
       CallAddLabel "cncf" "k8s-conformance" 42 "unable-to-process" ])
  /\ Labels (PR (setLabels freshSuite submissionLabels))
     = Labels (PR freshSuite) ++ submissionLabels.
Proof.
  assert (E : updateLabels okClient samplePR freshSuite submissionLabels []
              = ({| newLabels := submissionLabels; removedLabels := []; err := None |},
                 setLabels freshSuite submissionLabels,
                 [ CallAddLabel "cncf" "k8s-conformance" 42 "conformance-product-submission";
                   CallAddLabel "cncf" "k8s-conformance" 42 "unable-to-process" ]))
    by (vm_compute; reflexivity).
  split; [exact E|].
  exact (proj1 (updateLabels_only_adding okClient samplePR freshSuite
                  submissionLabels [] _ _ _ E eq_refl eq_refl)).
Defined.

(** X7: when [updateLabels] succeeds and has removed at least one label, the
    in-memory label list of the suite is left empty: the returned
    [removedLabels] holds the whole list, and the list is filtered by it. *)
Theorem updateLabels_removal_empties_list (ghc : githubClient)
  (pr : PullRequestQuery) (prSuite : PRSuite) (labels : list string) (tr : trace)
  (r : labelsResult) (prSuite' : PRSuite) (tr' : trace) :
  updateLabels ghc pr prSuite labels tr = (r, prSuite', tr') ->
  err r = None -> removedLabels r <> [] ->
  Labels (PR prSuite') = []
  /\ forall l, In l (Labels (PR prSuite)) -> In l (removedLabels r).
Proof.
  intros H Herr Hrem. split; [exact (updateLabels_after_removal _ _ _ _ _ _ _ _ H Herr Hrem)|].
  unfold updateLabels in H.
  destruct (addLoop ghc pr prSuite labels [] tr) as [[early|added] tr1] eqn:Ea.
  { inversion H; subst. destruct (addLoop_early _ _ _ _ _ _ _ _ Ea) as [_ [_ F]].
    contradiction. }
  destruct (removeLoop ghc pr _ labels _ [] tr1) as [[early|removed] tr2] eqn:Er.
  { inversion H; subst. destruct (removeLoop_early _ _ _ _ _ _ _ _ _ Er) as [_ [_ F]].
    contradiction. }
  inversion H; subst. cbn in Hrem. cbn [removedLabels].
  destruct (removeLoop_removed _ _ _ _ _ _ _ _ _ Er) as [[-> _]|[prl [_ [_ [_ ->]]]]];
    [contradiction|].
  intros l Hl. cbn [setLabels PR Labels]. apply in_or_app. left.
  apply in_or_app. left. exact Hl.
Qed.

(** The stale release label of the sample scenario: after its removal the
    in-memory list is empty. *)
Lemma updateLabels_removal_empties_list_witness :
  err (fst (fst (updateLabels okClient samplePR releaseScenarioSuite
                   ["release-v1.29"] []))) = None
  /\ removedLabels (fst (fst (updateLabels okClient samplePR releaseScenarioSuite
                                ["release-v1.29"] []))) <> []
  /\ Labels (PR (snd (fst (updateLabels okClient samplePR releaseScenarioSuite
                             ["release-v1.29"] [])))) = [].
Proof.
  assert (E : updateLabels okClient samplePR releaseScenarioSuite
                 ["release-v1.29"] []
               = (fst (fst (updateLabels okClient samplePR releaseScenarioSuite
                              ["release-v1.29"] [])),
                  snd (fst (updateLabels okClient samplePR releaseScenarioSuite
                              ["release-v1.29"] [])),
                  snd (updateLabels okClient samplePR releaseScenarioSuite
                         ["release-v1.29"] [])))
    by (vm_compute; reflexivity).
  assert (Herr : err (fst (fst (updateLabels okClient samplePR releaseScenarioSuite
                                  ["release-v1.29"] []))) = None)
    by (vm_compute; reflexivity).
  assert (Hrem : removedLabels
                   (fst (fst (updateLabels okClient samplePR releaseScenarioSuite
                                ["release-v1.29"] []))) <> [])
    by (vm_compute; discriminate).
  split; [exact Herr|]. split; [exact Hrem|].
  exact (proj1 (updateLabels_removal_empties_list okClient samplePR
                  releaseScenarioSuite ["release-v1.29"] [] _ _ _ E Herr Hrem)).
Defined.

Lemma addLoop_never_fails (ghc : githubClient) (pr : PullRequestQuery)
  (prSuite : PRSuite) (labels acc : list string) (tr : trace) :
  (forall l tr', AddLabel ghc tr' (org pr) (repo pr) (Number pr) l = None) ->
  exists added tr1, addLoop ghc pr prSuite labels acc tr = (inr added, tr1).
Proof.
  intros Hok. revert acc tr.
  induction labels as [|l rest IH]; intros acc tr; cbn [addLoop].
  - eexists. eexists. reflexivity.
  - destruct (unmanaged prSuite l); [apply IH|].
    destruct (foundIn l (Labels (PR prSuite))); [apply IH|].
    rewrite Hok. apply IH.
Qed.

(** X8: when no add fails and [updateLabels] still returns an error, a
    removal has failed: the in-memory list is then the old list followed by
    the labels added, with nothing taken out, also not the labels whose
    removal went through before the failure. *)
Theorem updateLabels_failed_removal_keeps_list (ghc : githubClient)
  (pr : PullRequestQuery) (prSuite : PRSuite) (labels : list string) (tr : trace) :
  (forall l tr', AddLabel ghc tr' (org pr) (repo pr) (Number pr) l = None) ->
  err (fst (fst (updateLabels ghc pr prSuite labels tr))) <> None ->
  Labels (PR (snd (fst (updateLabels ghc pr prSuite labels tr))))
  = Labels (PR prSuite)
    ++ filter (fun l => negb (unmanaged prSuite l)
                        && negb (foundIn l (Labels (PR prSuite)))) labels.
Proof.
  intros Hok. unfold updateLabels.
  destruct (addLoop_never_fails ghc pr prSuite labels [] tr Hok) as [added [tr1 Ea]].
  rewrite Ea. apply addLoop_added in Ea. cbn [app] in Ea. subst added.
  destruct (removeLoop ghc pr _ labels _ [] tr1) as [[early|removed] tr2];
    cbn [fst snd err]; intros Herr.
  - reflexivity.
  - contradiction.
Qed.

(** The release label is added, the removal of the stale one fails: both
    stay in the in-memory list. *)
Lemma updateLabels_failed_removal_keeps_list_witness :
  err (fst (fst (updateLabels removalFails samplePR releaseScenarioSuite
                   ["release-v1.29"] []))) <> None
  /\ Labels (PR (snd (fst (updateLabels removalFails samplePR releaseScenarioSuite
                             ["release-v1.29"] []))))
     = ["release-v1.28"; "unrelated-label"; "release-v1.29"].
Proof.
  assert (H : err (fst (fst (updateLabels removalFails samplePR releaseScenarioSuite
                               ["release-v1.29"] []))) <> None)
    by (vm_compute; discriminate).
  split; [exact H|].
  rewrite (updateLabels_failed_removal_keeps_list removalFails samplePR
             releaseScenarioSuite ["release-v1.29"] [] (fun _ _ => eq_refl) H).
  vm_compute. reflexivity.
Defined.

(** ** The status reconciler *)

Lemma contextLoop_some_inv (unicodeEqualFold : string -> string -> bool)
  (contexts : list StatusContext) (b : bool) :
  contextLoop unicodeEqualFold contexts = Some b ->
  exists cbefore context cafter,
    contexts = cbefore ++ context :: cafter
    /\ (forall x, In x cbefore -> tracked unicodeEqualFold x = false)
    /\ tracked unicodeEqualFold context = true
    /\ b = saysSuccess unicodeEqualFold context.
Proof.
  induction contexts as [|x rest IH]; intros H; [discriminate|].
  cbn [contextLoop] in H. fold (tracked unicodeEqualFold x) in H.
  destruct (tracked unicodeEqualFold x) eqn:Et.
  - inversion H. exists [], x, rest. repeat split; auto. intros y [].
  - destruct (IH H) as [cb [c [ca [-> [Hb [Ht Hs]]]]]].
    exists (x :: cb), c, ca. repeat split; auto.
    intros y [<-|Hy]; [exact Et | exact (Hb y Hy)].
Qed.

Lemma contextLoop_none_inv (unicodeEqualFold : string -> string -> bool)
  (contexts : list StatusContext) :
  contextLoop unicodeEqualFold contexts = None ->
  forall x, In x contexts -> tracked unicodeEqualFold x = false.
Proof.
  induction contexts as [|y rest IH]; intros H x Hx; [destruct Hx|].
  cbn [contextLoop] in H. fold (tracked unicodeEqualFold y) in H.
  destruct (tracked unicodeEqualFold y) eqn:Et; [discriminate|].
  destruct Hx as [<-|Hx]; [exact Et | exact (IH H x Hx)].
Qed.

Lemma commitLoop_true_inv (unicodeEqualFold : string -> string -> bool)
  (pr : PullRequestQuery) :
  commitLoop unicodeEqualFold (HeadRefOID pr) (Commits pr) = true ->
  verified unicodeEqualFold pr.
Proof.
  unfold verified, firstTrackedContext.
  generalize (Commits pr) as commits.
  induction commits as [|c rest IH]; intros H; [discriminate|].
  cbn [commitLoop] in H.
  destruct (String.eqb (Oid c) (HeadRefOID pr)) eqn:E; cbn [negb] in H.
  - apply String.eqb_eq in E.
    destruct (contextLoop unicodeEqualFold (Contexts c)) as [b|] eqn:Ec.
    + subst b. destruct (contextLoop_some_inv _ _ _ Ec)
        as [cb [context [ca [Hcs [Hb [Ht Hs]]]]]].
      exists context. split; [|symmetry; exact Hs].
      exists [], c, rest, cb, ca. repeat split; auto. intros c' [].
    + destruct (IH H) as [context [[before [commit [after [cb [ca Hrest]]]]] Hs]].
      destruct Hrest as [-> [Hoid [Hbefore Hrest]]].
      exists context. split; [|exact Hs].
      exists (c :: before), commit, after, cb, ca. repeat split; try apply Hrest; auto.
      intros c' [<-|Hc'] Hoid'; [exact (contextLoop_none_inv _ _ Ec) | exact (Hbefore c' Hc' Hoid')].
  - destruct (IH H) as [context [[before [commit [after [cb [ca Hrest]]]]] Hs]].
    destruct Hrest as [-> [Hoid [Hbefore Hrest]]].
    exists context. split; [|exact Hs].
    exists (c :: before), commit, after, cb, ca. repeat split; try apply Hrest; auto.
    intros c' [<-|Hc'] Hoid'; [|exact (Hbefore c' Hc' Hoid')].
    rewrite Hoid', String.eqb_refl in E. discriminate.
Qed.

Lemma commitLoop_verified (unicodeEqualFold : string -> string -> bool)
  (pr : PullRequestQuery) :
  commitLoop unicodeEqualFold (HeadRefOID pr) (Commits pr) = true
  <-> verified unicodeEqualFold pr.
Proof.
  split; [apply commitLoop_true_inv|].
  intros [context [Hfirst Hs]]. rewrite (commitLoop_first _ _ _ Hfirst). exact Hs.
Qed.

Lemma commitLoop_unverified (unicodeEqualFold : string -> string -> bool)
  (pr : PullRequestQuery) :
  ~ verified unicodeEqualFold pr ->
  commitLoop unicodeEqualFold (HeadRefOID pr) (Commits pr) = false.
Proof.
  intros H.
  destruct (commitLoop unicodeEqualFold (HeadRefOID pr) (Commits pr)) eqn:E;
    [|reflexivity].
  exfalso. apply H. apply commitLoop_verified. exact E.
Qed.

Lemma app_eq_self {A : Type} (xs ys : list A) : xs ++ ys = xs -> ys = [].
Proof.
  intros H. apply (app_inv_head xs). rewrite app_nil_r. exact H.
Qed.

(** X9: [updateStatus] makes no call at all exactly when the head commit is
    verified; in every other case it starts by fetching the combined status
    of the head commit. *)
Theorem updateStatus_silent_iff_verified (unicodeEqualFold : string -> string -> bool)
  (ghc : githubClient) (pr : PullRequestQuery) (prSuite : PRSuite)
  (state : string) (tr : trace) :
  (snd (updateStatus unicodeEqualFold ghc pr prSuite state tr) = tr
   <-> verified unicodeEqualFold pr)
  /\ (~ verified unicodeEqualFold pr ->
      exists rest,
        snd (updateStatus unicodeEqualFold ghc pr prSuite state tr)
        = tr ++ getStatusCall pr :: rest).
Proof.
  assert (Hun : ~ verified unicodeEqualFold pr ->
                exists rest,
                  snd (updateStatus unicodeEqualFold ghc pr prSuite state tr)
                  = tr ++ getStatusCall pr :: rest).
  { intros H. unfold updateStatus. rewrite (commitLoop_unverified _ _ H).
    rewrite bind_run. unfold request at 1.
    destruct (GetCombinedStatus ghc tr (org pr) (repo pr) (HeadRefOID pr)) as [cs|e].
    - destruct (String.eqb (SHA cs) (HeadRefOID pr)
                && String.eqb (CombinedState cs) state).
      + exists []. reflexivity.
      + eexists. unfold command. cbn [snd]. rewrite <- app_assoc. reflexivity.
    - exists []. reflexivity. }
  split; [|exact Hun]. split.
  - intros H.
    destruct (commitLoop unicodeEqualFold (HeadRefOID pr) (Commits pr)) eqn:E.
    + apply commitLoop_verified. exact E.
    + exfalso.
      assert (Hn : ~ verified unicodeEqualFold pr).
      { intros F. apply commitLoop_verified in F. congruence. }
      destruct (Hun Hn) as [rest Hrest]. rewrite Hrest in H.
      apply app_eq_self in H. discriminate.
  - intros H. apply commitLoop_verified in H. unfold updateStatus. rewrite H.
    reflexivity.
Qed.

(** X10: on a head commit that is not verified, a failed fetch of the
    combined status is returned as it is, and a combined status that has the
    head SHA and the desired state ends the call with nil: in both cases no
    status is created. *)
Theorem updateStatus_without_create (unicodeEqualFold : string -> string -> bool)
  (ghc : githubClient) (pr : PullRequestQuery) (prSuite : PRSuite)
  (state : string) (tr : trace) :
  ~ verified unicodeEqualFold pr ->
  (forall e,
      GetCombinedStatus ghc tr (org pr) (repo pr) (HeadRefOID pr) = inr e ->
      updateStatus unicodeEqualFold ghc pr prSuite state tr
      = (Err e, tr ++ [getStatusCall pr]))
  /\ (forall cs,
        GetCombinedStatus ghc tr (org pr) (repo pr) (HeadRefOID pr) = inl cs ->
        SHA cs = HeadRefOID pr -> CombinedState cs = state ->
        updateStatus unicodeEqualFold ghc pr prSuite state tr
        = (Ok tt, tr ++ [getStatusCall pr])).
Proof.
  intros H. unfold updateStatus. rewrite (commitLoop_unverified _ _ H). split.
  - intros e He. rewrite bind_run. unfold request at 1. rewrite He. reflexivity.
  - intros cs Hcs Hsha Hstate. rewrite bind_run. unfold request at 1. rewrite Hcs.
    rewrite Hsha, Hstate, !String.eqb_refl. reflexivity.
Qed.

(** X11: on a head commit that is not verified, when the combined status has
    another SHA or another state, exactly one status is created after the
    fetch, for the head commit, with the context verify-conformance and the
    desired state, and the answer to that call is the result.  Its
    description is "Internal error" for every state other than success and
    failure, pending included. *)
Theorem updateStatus_creates_status (unicodeEqualFold : string -> string -> bool)
  (ghc : githubClient) (pr : PullRequestQuery) (prSuite : PRSuite)
  (state : string) (tr : trace) (cs : CombinedStatus) :
  ~ verified unicodeEqualFold pr ->
  GetCombinedStatus ghc tr (org pr) (repo pr) (HeadRefOID pr) = inl cs ->
  SHA cs <> HeadRefOID pr \/ CombinedState cs <> state ->
  updateStatus unicodeEqualFold ghc pr prSuite state tr
  = (match CreateStatus ghc (tr ++ [getStatusCall pr]) (org pr) (repo pr)
             (HeadRefOID pr) (statusFor state) with
     | None => Ok tt
     | Some e => Err e
     end,
     tr ++ [getStatusCall pr; createStatusCall pr state])
  /\ (state <> "success" -> state <> "failure" ->
      Description (statusFor state) = "Internal error").
Proof.
  intros H Hcs Hdiff. split.
  - unfold updateStatus. rewrite (commitLoop_unverified _ _ H).
    rewrite bind_run. unfold request at 1. rewrite Hcs.
    assert (E : String.eqb (SHA cs) (HeadRefOID pr)
                && String.eqb (CombinedState cs) state = false).
    { destruct Hdiff as [Hd|Hd]; apply String.eqb_neq in Hd; rewrite Hd;
        [reflexivity | apply andb_false_r]. }
    rewrite E. unfold command. rewrite <- app_assoc. reflexivity.
  - intros Hs Hf. cbn. unfold descriptionOf.
    apply String.eqb_neq in Hs. apply String.eqb_neq in Hf. rewrite Hs, Hf.
    reflexivity.
Qed.

Lemma samplePR_unverified : ~ verified noFold samplePR.
Proof.
  intros [context [[before [commit [after [cb [ca [H _]]]]]] _]].
  cbn in H. destruct before; discriminate H.
Qed.

(** A pull request without commit data and a combined status that is
    already pending: one fetch, no status. *)
Lemma updateStatus_without_create_witness :
  ~ verified noFold samplePR
  /\ updateStatus noFold pendingClient samplePR freshSuite "pending" []
     = (Ok tt, [CallGetCombinedStatus "cncf" "k8s-conformance" "abc123"]).
Proof.
  split; [exact samplePR_unverified|].
  apply (proj2 (updateStatus_without_create noFold pendingClient samplePR freshSuite
                  "pending" [] samplePR_unverified)
           {| SHA := "abc123"; CombinedState := "pending" |});
    reflexivity.
Defined.

(** The same pull request when the verdict is success. *)
Lemma updateStatus_creates_status_witness :
  ~ verified noFold samplePR
  /\ updateStatus noFold pendingClient samplePR freshSuite "success" []
     = (Ok tt,
        [ CallGetCombinedStatus "cncf" "k8s-conformance" "abc123";
          CallCreateStatus "cncf" "k8s-conformance" "abc123"
            {| StatusState := "success";
               StatusContextName := "verify-conformance";
               Description := "All checks are passing" |} ]).
Proof.
  split; [exact samplePR_unverified|].
  apply (proj1 (updateStatus_creates_status noFold pendingClient samplePR freshSuite
                  "success" [] {| SHA := "abc123"; CombinedState := "pending" |}
                  samplePR_unverified eq_refl
                  (or_intror (fun H : "pending" = "success" =>
                                eq_ind "pending"
                                  (fun s => match s with
                                            | String "p" _ => True
                                            | _ => False
                                            end) I "success" H)))).
Defined.

(** ** The comment reconciler *)

(** [updateComments] once the comments are listed and the bot check is
    answered. *)
Lemma updateComments_after_listing (ghc : githubClient) (pr : PullRequestQuery)
  (prSuite : PRSuite) (comment : string) (tr : trace)
  (comments : list IssueComment) (botUserChecker : string -> bool) :
  ListIssueCommentsWithContext ghc tr (org pr) (repo pr) (Number pr) = inl comments ->
  BotUserChecker ghc (tr ++ [CallListIssueComments (org pr) (repo pr) (Number pr)])
  = inl botUserChecker ->
  updateComments ghc pr prSuite comment tr
  = (if match lastComment (botCommentsOf botUserChecker comments) with
        | Some c => String.eqb (Body c) comment
        | None => false
        end
     then ret tt
     else
       wrapErr
         (fun e => Sprintf "unable to prune stale comments comments on PR (%v), %v"
                     [Itoa (Number pr); e])
         (deleteStale ghc (org pr) (repo pr)
            (removelast (botCommentsOf botUserChecker comments))
            (fun ic => botUserChecker (UserLogin ic))) ;;;
       command (createCommentCall pr comment)
         (fun tr0 => CreateComment ghc tr0 (org pr) (repo pr) (Number pr) comment))
      (tr ++ listingCalls pr).
Proof.
  intros Hlist Hbot. unfold updateComments. rewrite bind_run.
  unfold wrapErr at 1. unfold request at 1. rewrite Hlist.
  rewrite bind_run. unfold wrapErr at 1. unfold request at 1. rewrite Hbot.
  unfold listingCalls. rewrite <- app_assoc. reflexivity.
Qed.

(** X14: when the listing of the comments fails, [updateComments] returns
    the error wrapped as "unable to list comments, ..." after that one call;
    when the bot check fails, it returns the error wrapped as "unable to get
    bot name, ..." after the two calls.  In both cases nothing is deleted
    or created. *)
Theorem updateComments_failed_listing (ghc : githubClient) (pr : PullRequestQuery)
  (prSuite : PRSuite) (comment : string) (tr : trace) :
  (forall e, ListIssueCommentsWithContext ghc tr (org pr) (repo pr) (Number pr) = inr e ->
     updateComments ghc pr prSuite comment tr
     = (Err (Sprintf "unable to list comments, %v" [e]),
        tr ++ [CallListIssueComments (org pr) (repo pr) (Number pr)]))
  /\ (forall comments e,
        ListIssueCommentsWithContext ghc tr (org pr) (repo pr) (Number pr) = inl comments ->
        BotUserChecker ghc (tr ++ [CallListIssueComments (org pr) (repo pr) (Number pr)])
        = inr e ->
        updateComments ghc pr prSuite comment tr
        = (Err (Sprintf "unable to get bot name, %v" [e]), tr ++ listingCalls pr))
  /\ existsb isMutation (listingCalls pr) = false.
Proof.
  split; [apply updateComments_listing_fails|].
  split; [apply updateComments_listing_fails | reflexivity].
Qed.

(** X12: with at most one comment of the bot on the thread, and none whose
    body is the new body, nothing is deleted: the new comment is created
    right after the listing and the answer to that call is the result.  So
    a thread keeps the previous comment of the bot next to the new one. *)
Theorem updateComments_first_comments (ghc : githubClient) (pr : PullRequestQuery)
  (prSuite : PRSuite) (comment : string) (tr : trace)
  (comments : list IssueComment) (botUserChecker : string -> bool) :
  ListIssueCommentsWithContext ghc tr (org pr) (repo pr) (Number pr) = inl comments ->
  BotUserChecker ghc (tr ++ [CallListIssueComments (org pr) (repo pr) (Number pr)])
  = inl botUserChecker ->
  List.length (botCommentsOf botUserChecker comments) <= 1 ->
  ~ latestBodyIs (botCommentsOf botUserChecker comments) comment ->
  updateComments ghc pr prSuite comment tr
  = (match CreateComment ghc (tr ++ listingCalls pr) (org pr) (repo pr) (Number pr)
             comment with
     | None => Ok tt
     | Some e => Err e
     end,
     tr ++ listingCalls pr ++ [createCommentCall pr comment]).
Proof.
  intros Hlist Hbot Hlen Hnew.
  rewrite (updateComments_after_listing _ _ _ _ _ _ _ Hlist Hbot).
  pose proof (latestBody_dec (botCommentsOf botUserChecker comments) comment) as Hdec.
  destruct (match lastComment (botCommentsOf botUserChecker comments) with
            | Some c => String.eqb (Body c) comment
            | None => false
            end); [contradiction|].
  assert (E : removelast (botCommentsOf botUserChecker comments) = []).
  { destruct (botCommentsOf botUserChecker comments) as [|c [|c' rest]];
      [reflexivity | reflexivity | cbn in Hlen; lia]. }
  rewrite E. cbn [deleteStale]. unfold wrapErr, ret, bind, command.
  rewrite <- app_assoc. reflexivity.
Qed.

(** A thread without any comment of the bot. *)
Lemma updateComments_first_comments_witness :
  List.length (botCommentsOf (String.eqb "bot") authorOnly) <= 1
  /\ updateComments (commentingClient authorOnly) samplePR freshSuite "hello" []
     = (Ok tt,
        [ CallListIssueComments "cncf" "k8s-conformance" 42;
          CallBotUserChecker;
          CallCreateComment "cncf" "k8s-conformance" 42 "hello" ]).
Proof.
  split; [cbn; lia|].
  apply (updateComments_first_comments (commentingClient authorOnly) samplePR
           freshSuite "hello" [] authorOnly (String.eqb "bot") eq_refl eq_refl).
  - cbn. lia.
  - intros [c [Hc _]]. discriminate Hc.
Defined.

Lemma no_create_in_listing (pr : PullRequestQuery) :
  existsb isCreateComment (listingCalls pr) = false.
Proof. reflexivity. Qed.

Lemma no_create_in_deletes (pr : PullRequestQuery) (cs : list IssueComment) :
  existsb isCreateComment (map (deleteCallFor pr) cs) = false.
Proof. induction cs as [|c cs IH]; [reflexivity | exact IH]. Qed.

(** X13: whatever the client answers, [updateComments] creates at most one
    comment, and a created comment is its last call: nothing is deleted
    after it, and no comment is created once the listing, the bot check or
    a deletion has failed. *)
Theorem updateComments_creates_last (ghc : githubClient) (pr : PullRequestQuery)
  (prSuite : PRSuite) (comment : string) (tr : trace) :
  exists calls,
    snd (updateComments ghc pr prSuite comment tr) = tr ++ calls
    /\ (existsb isCreateComment calls = false
        \/ exists before,
             calls = before ++ [createCommentCall pr comment]
             /\ existsb isCreateComment before = false
             /\ forall e, fst (updateComments ghc pr prSuite comment tr) = Err e ->
                          CreateComment ghc (tr ++ before) (org pr) (repo pr)
                            (Number pr) comment = Some e).
Proof.
  destruct (ListIssueCommentsWithContext ghc tr (org pr) (repo pr) (Number pr))
    as [comments|e] eqn:Hlist.
  2:{ rewrite (proj1 (updateComments_listing_fails ghc pr prSuite comment tr) e Hlist).
      eexists. split; [reflexivity|]. left. reflexivity. }
  destruct (BotUserChecker ghc (tr ++ [CallListIssueComments (org pr) (repo pr) (Number pr)]))
    as [botUserChecker|e] eqn:Hbot.
  2:{ rewrite (proj2 (updateComments_listing_fails ghc pr prSuite comment tr)
                 comments e Hlist Hbot).
      eexists. split; [reflexivity|]. left. reflexivity. }
  rewrite (updateComments_after_listing _ _ _ _ _ _ _ Hlist Hbot).
  destruct (match lastComment (botCommentsOf botUserChecker comments) with
            | Some c => String.eqb (Body c) comment
            | None => false
            end).
  { exists (listingCalls pr). split; [reflexivity|]. left. reflexivity. }
  assert (Hall : forall c,
             In c (removelast (botCommentsOf botUserChecker comments)) ->
             (fun ic => botUserChecker (UserLogin ic)) c = true).
  { intros c Hc. apply removelast_In in Hc. apply botCommentsOf_bot in Hc. apply Hc. }
  rewrite bind_run. unfold wrapErr.
  destruct (deleteStale_run ghc (org pr) (repo pr) _ _ (tr ++ listingCalls pr) Hall)
    as [H|[e [k [Hk H]]]]; rewrite H.
  - exists ((listingCalls pr
             ++ map (deleteCallFor pr)
                  (removelast (botCommentsOf botUserChecker comments)))
            ++ [createCommentCall pr comment]).
    unfold command. cbn [snd fst]. split; [rewrite <- !app_assoc; reflexivity|].
    right.
    exists (listingCalls pr
            ++ map (deleteCallFor pr)
                 (removelast (botCommentsOf botUserChecker comments))).
    split; [reflexivity|].
    split; [rewrite existsb_app, no_create_in_listing, no_create_in_deletes;
            reflexivity|].
    intros e He. rewrite app_assoc.
    destruct (CreateComment ghc _ (org pr) (repo pr) (Number pr) comment);
      [inversion He; reflexivity | discriminate He].
  - exists (listingCalls pr
            ++ map (deleteCallFor pr)
                 (firstn k (removelast (botCommentsOf botUserChecker comments)))).
    cbn [snd]. split; [rewrite <- app_assoc; reflexivity|]. left.
    rewrite existsb_app, no_create_in_listing, no_create_in_deletes. reflexivity.
Qed.

(** ** [handle] *)

Lemma neverPanics_fetchChanges (env : collaborators) (pr : PullRequestQuery)
  (changes : list PullRequestChange) (prSuite : PRSuite) (productYAML : string) :
  neverPanics (fetchChanges env pr changes prSuite productYAML).
Proof.
  revert prSuite productYAML. induction changes as [|c rest IH];
    intros prSuite productYAML; cbn [fetchChanges].
  - apply neverPanics_ret.
  - destruct (fetchFileFromURI env (rawURLForBlobURL (ChangeBlobURL c)));
      [apply IH | apply neverPanics_fail].
Qed.

Lemma neverPanics_NewPRSuiteForPR (env : collaborators) (ghc : githubClient)
  (pr : PullRequestQuery) :
  neverPanics (NewPRSuiteForPR env ghc pr).
Proof.
  unfold NewPRSuiteForPR.
  apply neverPanics_bind; [apply neverPanics_wrapErr, neverPanics_request|].
  intros issueLabels.
  destruct (GetStableTxt env) as [stable|e0]; [|apply neverPanics_fail].
  apply neverPanics_bind; [apply neverPanics_wrapErr, neverPanics_request|].
  intros changes.
  apply neverPanics_bind; [apply neverPanics_fetchChanges|].
  intros [built yaml].
  destruct (String.eqb yaml ""); [apply neverPanics_ret|].
  destruct (yamlUnmarshal env yaml); apply neverPanics_ret.
Qed.

(** The three reconcilers as [handle] chains them in each of its branches. *)
Ltac reconcilers_return :=
  apply neverPanics_bind; [apply neverPanics_runUpdateLabels|]; intros ?;
  apply neverPanics_bind; [apply neverPanics_updateComments|]; intros _;
  apply neverPanics_bind; [apply neverPanics_updateStatus|]; intros _.

Lemma neverPanics_handle (unicodeToLower unicodeToUpper : string -> string)
  (unicodeEqualFold : string -> string -> bool) (env : collaborators)
  (ghc : githubClient) (pr : PullRequestQuery) :
  (forall prSuite, fst (ItIsAValidAndSupportedRelease env prSuite) <> Some EmptyString) ->
  neverPanics (handle unicodeToLower unicodeToUpper unicodeEqualFold env ghc pr).
Proof.
  intros Htext.
  unfold handle. apply neverPanics_bind; [apply neverPanics_NewPRSuiteForPR|].
  intros prSuite0. cbv zeta.
  destruct (negb (isConformancePR unicodeToLower pr)).
  { reconcilers_return. apply neverPanics_ret. }
  pose proof (Htext (SetSubmissionMetadatafromFolderStructure env
                       (setMetadataFolder prSuite0
                          (pathJoin env [GetDataPath env; "conformance-testdata"]))))
    as Ht.
  destruct (ItIsAValidAndSupportedRelease env _) as [[[|first rest]|] prSuite].
  - exfalso. apply Ht. reflexivity.
  - reconcilers_return. apply neverPanics_fail.
  - destruct (ReadFile env _) as [content|e1|e1];
      try (reconcilers_return; apply neverPanics_fail);
      (destruct (GetLabelsAndCommentsFromSuiteResultsBuffer env _)
         as [[[[finalComment labels] state] [e|]] prSuite'];
       [apply neverPanics_fail|];
       destruct (String.eqb finalComment "" && Nat.eqb (List.length labels) 0);
       [apply neverPanics_ret|];
       reconcilers_return; apply neverPanics_ret).
Qed.



(** X16: when the title gate passes and the release validator answers with
    an error whose text is empty, [handle] panics on the slice
    [finalComment[:1]], before any label, comment or status call. *)
Theorem handle_panics_on_empty_error_text
  (unicodeToLower unicodeToUpper : string -> string)
  (unicodeEqualFold : string -> string -> bool) (env : collaborators)
  (ghc : githubClient) (pr : PullRequestQuery) (tr tr0 : trace)
  (prSuite0 prSuite : PRSuite) :
  NewPRSuiteForPR env ghc pr tr = (Ok prSuite0, tr0) ->
  isConformancePR unicodeToLower pr = true ->
  ItIsAValidAndSupportedRelease env (prepared env prSuite0)
  = (Some EmptyString, prSuite) ->
  handle unicodeToLower unicodeToUpper unicodeEqualFold env ghc pr tr
  = (Panicked, tr0)
  /\ exists reads, tr0 = tr ++ reads /\ existsb isMutation reads = false.
Proof.
  intros Hbuilt Htitle Hrel. split.
  - exact (handle_release_gate_empty_text unicodeToLower unicodeToUpper
             unicodeEqualFold env ghc pr tr tr0 prSuite0 Hbuilt prSuite Htitle Hrel).
  - destruct (NewPRSuiteForPR_reads env ghc pr tr) as [reads [Hr Hm]].
    rewrite Hbuilt in Hr. exists reads. split; [exact Hr | exact Hm].
Qed.

Lemma handle_panics_on_empty_error_text_witness :
  NewPRSuiteForPR emptyTextEnv okClient samplePR []
  = (Ok (builtSuite samplePR), readCalls samplePR)
  /\ handle noCase noCase noFold emptyTextEnv okClient samplePR []
     = (Panicked, readCalls samplePR).
Proof.
  split; [reflexivity|].
  apply (handle_panics_on_empty_error_text noCase noCase noFold emptyTextEnv okClient
           samplePR [] (readCalls samplePR) (builtSuite samplePR)
           (gateSuite samplePR "v1.29") eq_refl eq_refl eq_refl).
Defined.

(** X17: when the suite cannot be built, [handle] returns the error of
    [NewPRSuiteForPR] and has made nothing but reads. *)
Theorem handle_suite_not_built (unicodeToLower unicodeToUpper : string -> string)
  (unicodeEqualFold : string -> string -> bool) (env : collaborators)
  (ghc : githubClient) (pr : PullRequestQuery) (tr tr0 : trace) (e : string) :
  NewPRSuiteForPR env ghc pr tr = (Err e, tr0) ->
  handle unicodeToLower unicodeToUpper unicodeEqualFold env ghc pr tr = (Err e, tr0)
  /\ exists reads, tr0 = tr ++ reads /\ existsb isMutation reads = false.
Proof.
  intros H. split.
  - unfold handle. rewrite bind_run, H. reflexivity.
  - destruct (NewPRSuiteForPR_reads env ghc pr tr) as [reads [Hr Hm]].
    rewrite H in Hr. exists reads. split; [exact Hr | exact Hm].
Qed.

(** The latest release cannot be read: the changes of the pull request are
    not even requested. *)
Lemma handle_suite_not_built_witness :
  handle noCase noCase noFold noStableEnv okClient samplePR []
  = (Err "unable to read latest version info",
     [CallGetIssueLabels "cncf" "k8s-conformance" 42]).
Proof.
  apply (handle_suite_not_built noCase noCase noFold noStableEnv okClient samplePR
           [] _ _ eq_refl).
Defined.

(** When the gates pass and the rule suite reports an error, [handle]
    returns that error and touches no label, comment or status. *)
Theorem handle_suite_error (unicodeToLower unicodeToUpper : string -> string)
  (unicodeEqualFold : string -> string -> bool) (env : collaborators)
  (ghc : githubClient) (pr : PullRequestQuery) (tr tr0 : trace)
  (prSuite0 prSuite prSuite' : PRSuite) (finalComment state e : string)
  (labels : list string) :
  NewPRSuiteForPR env ghc pr tr = (Ok prSuite0, tr0) ->
  isConformancePR unicodeToLower pr = true ->
  ItIsAValidAndSupportedRelease env (prepared env prSuite0) = (None, prSuite) ->
  (forall e0, ReadFile env (conformanceYAMLFilePath env prSuite) <> ReadNotExist e0) ->
  GetLabelsAndCommentsFromSuiteResultsBuffer env
    (RunTestSuite env (GetGodogPaths env) prSuite)
  = (finalComment, labels, state, Some e, prSuite') ->
  handle unicodeToLower unicodeToUpper unicodeEqualFold env ghc pr tr = (Err e, tr0).
Proof.
  intros Hbuilt Htitle Hrel Hread Hverdict. unfold handle.
  rewrite bind_run, Hbuilt. cbv zeta. rewrite Htitle. cbn [negb].
  fold (prepared env prSuite0). rewrite Hrel.
  fold (conformanceYAMLFilePath env prSuite).
  destruct (ReadFile env (conformanceYAMLFilePath env prSuite)) as [c|e0|e0] eqn:Er;
    [|exfalso; exact (Hread e0 eq_refl)|]; rewrite Hverdict; reflexivity.
Qed.

Lemma handle_suite_error_witness :
  handle noCase noCase noFold suiteFailsEnv okClient samplePR []
  = (Err "no results in the buffer", readCalls samplePR).
Proof.
  apply (handle_suite_error noCase noCase noFold suiteFailsEnv okClient samplePR []
           (readCalls samplePR) (builtSuite samplePR) (gateSuite samplePR "v1.29")
           (gateSuite samplePR "v1.29") "" "" "no results in the buffer" []
           eq_refl eq_refl eq_refl).
  - intros e0. discriminate.
  - reflexivity.
Defined.

(** X18: when the gates pass and the verdict of the rule suite has a comment
    or a label, [handle] reconciles the labels, the comment and the state of
    the verdict, in this order, and returns what the reconcilers return.  A
    metadata file that cannot be read for another reason than its absence
    does not stop the pass. *)
Theorem handle_applies_verdict (unicodeToLower unicodeToUpper : string -> string)
  (unicodeEqualFold : string -> string -> bool) (env : collaborators)
  (ghc : githubClient) (pr : PullRequestQuery) (tr tr0 : trace)
  (prSuite0 prSuite prSuite' : PRSuite) (finalComment state : string)
  (labels : list string) :
  NewPRSuiteForPR env ghc pr tr = (Ok prSuite0, tr0) ->
  isConformancePR unicodeToLower pr = true ->
  ItIsAValidAndSupportedRelease env (prepared env prSuite0) = (None, prSuite) ->
  (forall e0, ReadFile env (conformanceYAMLFilePath env prSuite) <> ReadNotExist e0) ->
  GetLabelsAndCommentsFromSuiteResultsBuffer env
    (RunTestSuite env (GetGodogPaths env) prSuite)
  = (finalComment, labels, state, None, prSuite') ->
  finalComment <> "" \/ labels <> [] ->
  handle unicodeToLower unicodeToUpper unicodeEqualFold env ghc pr tr
  = reconcile unicodeEqualFold ghc pr prSuite' labels finalComment state tr0
  /\ labelsCommentStatus tr0
       (snd (handle unicodeToLower unicodeToUpper unicodeEqualFold env ghc pr tr)).
Proof.
  intros Hbuilt Htitle Hrel Hread Hverdict Hnew.
  rewrite (handle_verdict unicodeToLower unicodeToUpper unicodeEqualFold
             env ghc pr tr tr0 prSuite0 Hbuilt prSuite prSuite' finalComment state
             labels Htitle Hrel Hread Hverdict).
  assert (E : String.eqb finalComment "" && Nat.eqb (List.length labels) 0 = false).
  { destruct Hnew as [Hc|Hl].
    - apply String.eqb_neq in Hc. rewrite Hc. reflexivity.
    - destruct labels; [contradiction|]. apply andb_false_r. }
  rewrite E. split; [reflexivity | apply reconcile_calls].
Qed.

(** A passing submission without labels, comments or status. *)
Lemma handle_applies_verdict_witness :
  handle noCase noCase noFold passingEnv okClient samplePR []
  = (Ok tt,
     readCalls samplePR
     ++ [ CallAddLabel "cncf" "k8s-conformance" 42 "conformance-product-submission";
          CallAddLabel "cncf" "k8s-conformance" 42 "release-v1.29";
          CallListIssueComments "cncf" "k8s-conformance" 42;
          CallBotUserChecker;
          CallCreateComment "cncf" "k8s-conformance" 42
            "All requirements (3) have passed for the submission!";
          CallGetCombinedStatus "cncf" "k8s-conformance" "abc123";
          CallCreateStatus "cncf" "k8s-conformance" "abc123" (statusFor "success") ]).
Proof.
  destruct (handle_applies_verdict noCase noCase noFold passingEnv okClient samplePR
              [] (readCalls samplePR) (builtSuite samplePR)
              (gateSuite samplePR "v1.29") (gateSuite samplePR "v1.29")
              "All requirements (3) have passed for the submission!" "success"
              ["conformance-product-submission"; "release-v1.29"]
              eq_refl eq_refl eq_refl) as [Hrun _].
  - intros e0. discriminate.
  - reflexivity.
  - right. discriminate.
  - rewrite Hrun. vm_compute. reflexivity.
Defined.

Lemma labelsCommentStatus_refl (tr : trace) : labelsCommentStatus tr tr.
Proof.
  exists [], [], []. rewrite !app_nil_r. repeat split.
Qed.

(** X19: in every run of [handle], whatever the collaborators and the
    client answer and however it ends, the calls are made in one order: the
    reads that build the suite, then label calls, then comment calls, then
    status calls. *)
Theorem handle_call_order (unicodeToLower unicodeToUpper : string -> string)
  (unicodeEqualFold : string -> string -> bool) (env : collaborators)
  (ghc : githubClient) (pr : PullRequestQuery) (tr : trace) :
  readsThenReconciles tr
    (snd (handle unicodeToLower unicodeToUpper unicodeEqualFold env ghc pr tr)).
Proof.
  destruct (NewPRSuiteForPR_reads env ghc pr tr) as [reads [Hr Hm]].
  exists reads. split; [exact Hm|].
  destruct (NewPRSuiteForPR env ghc pr tr) as [[prSuite0|e|] tr0] eqn:Hbuilt;
    cbn [snd] in Hr; subst tr0.
  2,3: unfold handle; rewrite bind_run, Hbuilt; apply labelsCommentStatus_refl.
  destruct (isConformancePR unicodeToLower pr) eqn:Htitle.
  2:{ rewrite (handle_title_gate unicodeToLower unicodeToUpper unicodeEqualFold
                 env ghc pr tr _ prSuite0 Hbuilt Htitle).
      apply reconcile_calls. }
  destruct (ItIsAValidAndSupportedRelease env (prepared env prSuite0))
    as [[[|first rest]|] prSuite] eqn:Hrel.
  - rewrite (handle_release_gate_empty_text unicodeToLower unicodeToUpper
               unicodeEqualFold env ghc pr tr _ prSuite0 Hbuilt prSuite Htitle Hrel).
    apply labelsCommentStatus_refl.
  - rewrite (handle_release_gate unicodeToLower unicodeToUpper unicodeEqualFold
               env ghc pr tr _ prSuite0 Hbuilt first rest prSuite Htitle Hrel).
    rewrite snd_bind_fail. apply reconcile_calls.
  - destruct (ReadFile env (conformanceYAMLFilePath env prSuite)) as [c|e1|e1] eqn:Hread.
    2:{ rewrite (handle_metadata_gate unicodeToLower unicodeToUpper unicodeEqualFold
                   env ghc pr tr _ prSuite0 Hbuilt prSuite e1 Htitle Hrel Hread).
        rewrite snd_bind_fail. apply reconcile_calls. }
    all: assert (Hgate : forall e0, ReadFile env (conformanceYAMLFilePath env prSuite)
                                    <> ReadNotExist e0)
        by (intros e0; rewrite Hread; discriminate).
    all: destruct (GetLabelsAndCommentsFromSuiteResultsBuffer env
                     (RunTestSuite env (GetGodogPaths env) prSuite))
        as [[[[finalComment labels] state] [e|]] prSuite'] eqn:Hverdict.
    1,3: unfold handle; rewrite bind_run, Hbuilt; cbv zeta; rewrite Htitle;
         cbn [negb]; fold (prepared env prSuite0); rewrite Hrel;
         fold (conformanceYAMLFilePath env prSuite); rewrite Hread, Hverdict;
         apply labelsCommentStatus_refl.
    all: rewrite (handle_verdict unicodeToLower unicodeToUpper unicodeEqualFold
                    env ghc pr tr _ prSuite0 Hbuilt prSuite prSuite' finalComment
                    state labels Htitle Hrel Hgate Hverdict);
      destruct (String.eqb finalComment "" && Nat.eqb (List.length labels) 0);
      [apply labelsCommentStatus_refl | apply reconcile_calls].
Qed.

(** ** [NewPRSuiteForPR] *)



Lemma resolveFields_frame (env : collaborators) (productYAML : string -> string)
  (fields : list string) (prSuite : PRSuite) :
  Labels (PR (resolveFields env productYAML fields prSuite)) = Labels (PR prSuite)
  /\ SupportingFiles (PR (resolveFields env productYAML fields prSuite))
     = SupportingFiles (PR prSuite)
  /\ KubernetesReleaseVersionLatest (resolveFields env productYAML fields prSuite)
     = KubernetesReleaseVersionLatest prSuite
  /\ KubernetesReleaseVersion (resolveFields env productYAML fields prSuite)
     = KubernetesReleaseVersion prSuite.
Proof.
  revert prSuite. induction fields as [|f rest IH]; intros prSuite;
    cbn [resolveFields]; [repeat split|].
  destruct (String.eqb (productYAML f) ""); [apply IH|].
  destruct (headContentType env (productYAML f));
    match goal with
    | |- context [resolveFields _ _ _ ?s] =>
        destruct (IH s) as [H1 [H2 [H3 H4]]]; rewrite H1, H2, H3, H4
    end; repeat split.
Qed.

Lemma fetchChanges_inv (env : collaborators) (pr : PullRequestQuery)
  (changes : list PullRequestChange) (prSuite prSuite' : PRSuite)
  (productYAML productYAML' : string) (tr tr' : trace) :
  fetchChanges env pr changes prSuite productYAML tr
  = (Ok (prSuite', productYAML'), tr') ->
  exists files,
    Forall2 (recordedAs env) changes files
    /\ SupportingFiles (PR prSuite') = SupportingFiles (PR prSuite) ++ files
    /\ Labels (PR prSuite') = Labels (PR prSuite)
    /\ ProductYAMLURLDataTypes (PR prSuite') = ProductYAMLURLDataTypes (PR prSuite)
    /\ KubernetesReleaseVersionLatest prSuite' = KubernetesReleaseVersionLatest prSuite
    /\ KubernetesReleaseVersion prSuite' = KubernetesReleaseVersion prSuite
    /\ ((forall c, In c changes -> pathBase env (Filename c) <> "PRODUCT.yaml") ->
        productYAML' = productYAML).
Proof.
  revert prSuite productYAML.
  induction changes as [|c rest IH]; intros prSuite productYAML H;
    cbn [fetchChanges] in H.
  - inversion H; subst. exists []. rewrite app_nil_r. repeat split. constructor.
  - destruct (fetchFileFromURI env (rawURLForBlobURL (ChangeBlobURL c)))
      as [content|e] eqn:Ef; [|discriminate H].
    destruct (IH _ _ H) as [files [Hfiles [Hsf [Hl [Hd [Hlatest [Hv Hy]]]]]]].
    exists ({| Name := Filename c; BaseName := pathBase env (Filename c);
               BlobURL := ChangeBlobURL c; Contents := content |} :: files).
    split; [constructor; [repeat split; exact Ef | exact Hfiles]|].
    split; [rewrite Hsf; cbn [addSupportingFile setPR PR SupportingFiles];
            rewrite <- app_assoc; reflexivity|].
    split; [exact Hl|]. split; [exact Hd|]. split; [exact Hlatest|].
    split; [exact Hv|].
    intros Hno. rewrite Hy; [|intros c' Hc'; apply Hno; right; exact Hc'].
    assert (E : String.eqb (pathBase env (Filename c)) "PRODUCT.yaml" = false).
    { apply String.eqb_neq. apply Hno. left. reflexivity. }
    rewrite E. reflexivity.
Qed.

(** X22: when [NewPRSuiteForPR] succeeds, it has made its two reads; the
    label list of the suite has gained the labels of the issue, the latest
    release is the one read, and the suite has gained one supporting file
    per change of the pull request, in order, each with the name, the base
    name and the blob URL of the change and the content fetched from its raw
    URL.  Without a changed file named PRODUCT.yaml the map of URL data
    types is as [suite.NewPRSuite] left it. *)
Theorem NewPRSuiteForPR_built (env : collaborators) (ghc : githubClient)
  (pr : PullRequestQuery) (tr tr0 : trace) (prSuite : PRSuite) :
  NewPRSuiteForPR env ghc pr tr = (Ok prSuite, tr0) ->
  exists issueLabels changes files,
    GetIssueLabels ghc tr (org pr) (repo pr) (Number pr) = inl issueLabels
    /\ GetPullRequestChanges ghc
         (tr ++ [CallGetIssueLabels (org pr) (repo pr) (Number pr)])
         (org pr) (repo pr) (Number pr) = inl changes
    /\ tr0 = tr ++ readCalls pr
    /\ Labels (PR prSuite)
       = Labels (PR (NewPRSuite env (initialPR pr))) ++ issueLabels
    /\ GetStableTxt env = inl (KubernetesReleaseVersionLatest prSuite)
    /\ Forall2 (recordedAs env) changes files
    /\ SupportingFiles (PR prSuite)
       = SupportingFiles (PR (NewPRSuite env (initialPR pr))) ++ files
    /\ ((forall c, In c changes -> pathBase env (Filename c) <> "PRODUCT.yaml") ->
        ProductYAMLURLDataTypes (PR prSuite)
        = ProductYAMLURLDataTypes (PR (NewPRSuite env (initialPR pr)))).
Proof.
  unfold NewPRSuiteForPR. fold (initialPR pr). rewrite bind_run.
  unfold wrapErr at 1. unfold request at 1.
  destruct (GetIssueLabels ghc tr (org pr) (repo pr) (Number pr)) as [ls|e];
    [|discriminate].
  destruct (GetStableTxt env) as [stable|e]; [|discriminate].
  rewrite bind_run. unfold wrapErr at 1. unfold request at 1.
  destruct (GetPullRequestChanges ghc _ (org pr) (repo pr) (Number pr))
    as [changes|e]; [|discriminate].
  rewrite bind_run.
  match goal with
  | |- context [fetchChanges ?e ?p ?c ?s ?y ?t] =>
      pose proof (fetchChanges_trace e p c s y t) as Htr;
      destruct (fetchChanges e p c s y t) as [[[s1 yaml]|e1|] tr1] eqn:Ef
  end; try discriminate.
  cbn [snd] in Htr. subst tr1.
  destruct (fetchChanges_inv _ _ _ _ _ _ _ _ _ Ef)
    as [files [Hfiles [Hsf [Hl [Hd [Hlatest [Hv Hy]]]]]]].
  cbn [setLatest setLabels PR Labels SupportingFiles ProductYAMLURLDataTypes
       KubernetesReleaseVersionLatest] in Hsf.
  cbn [setLatest setLabels PR Labels SupportingFiles ProductYAMLURLDataTypes
       KubernetesReleaseVersionLatest] in Hl.
  cbn [setLatest setLabels PR Labels SupportingFiles ProductYAMLURLDataTypes
       KubernetesReleaseVersionLatest] in Hd.
  cbn [setLatest setLabels PR Labels SupportingFiles ProductYAMLURLDataTypes
       KubernetesReleaseVersionLatest] in Hlatest.
  intros H. exists ls, changes, files.
  split; [reflexivity|]. split; [reflexivity|].
  assert (Hfinal : (prSuite = s1
                    \/ exists productYAML,
                         String.eqb yaml "" = false
                         /\ prSuite = resolveFields env productYAML
                                        productYAMLRequiredFieldDateTypes s1)
                   /\ tr0 = (tr ++ [CallGetIssueLabels (org pr) (repo pr) (Number pr)])
                            ++ [CallGetPullRequestChanges (org pr) (repo pr) (Number pr)]).
  { destruct (String.eqb yaml "") eqn:Ey.
    { unfold ret in H. injection H as Hs Ht.
      split; [left; symmetry; exact Hs | symmetry; exact Ht]. }
    destruct (yamlUnmarshal env yaml) as [productYAML|];
      unfold ret in H; injection H as Hs Ht; (split; [|symmetry; exact Ht]).
    - right. exists productYAML. split; [reflexivity | symmetry; exact Hs].
    - left. symmetry. exact Hs. }
  destruct Hfinal as [[Hs|[productYAML [Ey Hs]]] Ht]; rewrite Hs, Ht;
    unfold readCalls; rewrite <- app_assoc.
  - split; [reflexivity|]. split; [exact Hl|].
    split; [rewrite Hlatest; reflexivity|].
    split; [exact Hfiles|]. split; [exact Hsf|]. intros _. exact Hd.
  - destruct (resolveFields_frame env productYAML productYAMLRequiredFieldDateTypes s1)
      as [F1 [F2 [F3 F4]]].
    split; [reflexivity|]. split; [rewrite F1; exact Hl|].
    split; [rewrite F3, Hlatest; reflexivity|].
    split; [exact Hfiles|]. split; [rewrite F2; exact Hsf|].
    intros Hno. specialize (Hy Hno). subst yaml. discriminate Ey.
Qed.

(** A pull request with two labels and two changed files. *)
Lemma NewPRSuiteForPR_built_witness :
  exists prSuite,
    NewPRSuiteForPR fetchingEnv submissionClient samplePR []
    = (Ok prSuite, readCalls samplePR)
    /\ Labels (PR prSuite) = ["needs-review"; "release-v1.29"]
    /\ map Name (SupportingFiles (PR prSuite))
       = ["v1.29/acme/README.md"; "v1.29/acme/PRODUCT.yaml"]
    /\ map BaseName (SupportingFiles (PR prSuite)) = ["README.md"; "PRODUCT.yaml"]
    /\ ProductYAMLURLDataTypes (PR prSuite) = [("website_url", "text/html")].
Proof.
  eexists. split; [vm_compute; reflexivity|].
  destruct (NewPRSuiteForPR_built fetchingEnv submissionClient samplePR []
              (readCalls samplePR) _ eq_refl)
    as [ls [changes [files [Hls [_ [_ [Hlabels _]]]]]]].
  injection Hls as <-.
  split; [exact Hlabels|]. repeat split.
Defined.

Lemma mapGet_mapSet_same (k v : string) (m : list (string * string)) :
  mapGet k (mapSet k v m) = Some v.
Proof.
  induction m as [|[k' v'] m IH]; cbn [mapSet mapGet].
  - rewrite String.eqb_refl. reflexivity.
  - destruct (String.eqb k' k) eqn:E; cbn [mapGet].
    + rewrite String.eqb_refl. reflexivity.
    + rewrite E. exact IH.
Qed.

Lemma mapGet_mapSet_other (k k0 v : string) (m : list (string * string)) :
  k0 <> k -> mapGet k0 (mapSet k v m) = mapGet k0 m.
Proof.
  intros Hne. induction m as [|[k' v'] m IH]; cbn [mapSet mapGet].
  - assert (E : String.eqb k k0 = false) by (apply String.eqb_neq; congruence).
    rewrite E. reflexivity.
  - destruct (String.eqb k' k) eqn:E; cbn [mapGet].
    + apply String.eqb_eq in E. subst k'.
      assert (E' : String.eqb k k0 = false) by (apply String.eqb_neq; congruence).
      rewrite E'. reflexivity.
    + rewrite IH. reflexivity.
Qed.

(** X23: after the loop over the URL fields of PRODUCT.yaml, a field of the
    loop whose URL is not empty has an entry in the map of URL data types:
    the content type answered to the HEAD request, or the empty string when
    the request could not be made or failed.  The entries of all other keys
    are as they were. *)
Theorem resolveFields_records (env : collaborators) (productYAML : string -> string)
  (fields : list string) (prSuite : PRSuite) (f : string) :
  (In f fields -> productYAML f <> "" ->
   mapGet f (ProductYAMLURLDataTypes
               (PR (resolveFields env productYAML fields prSuite)))
   = Some (dataTypeOf env (productYAML f)))
  /\ (~ In f fields \/ productYAML f = "" ->
      mapGet f (ProductYAMLURLDataTypes
                  (PR (resolveFields env productYAML fields prSuite)))
      = mapGet f (ProductYAMLURLDataTypes (PR prSuite))).
Proof.
  revert prSuite. induction fields as [|f0 rest IH]; intros prSuite.
  - split; [intros [] | reflexivity].
  - cbn [resolveFields].
    destruct (String.eqb (productYAML f0) "") eqn:E0.
    { apply String.eqb_eq in E0. destruct (IH prSuite) as [IH1 IH2]. split.
      - intros [<-|Hin] Hne; [contradiction | exact (IH1 Hin Hne)].
      - intros [Hn|He]; apply IH2; [left; intros F; apply Hn; right; exact F
                                   | right; exact He]. }
    apply String.eqb_neq in E0.
    assert (Hstep : forall s1,
               mapGet f0 (ProductYAMLURLDataTypes (PR s1))
               = Some (dataTypeOf env (productYAML f0)) ->
               (forall k, k <> f0 ->
                          mapGet k (ProductYAMLURLDataTypes (PR s1))
                          = mapGet k (ProductYAMLURLDataTypes (PR prSuite))) ->
               (In f (f0 :: rest) -> productYAML f <> "" ->
                mapGet f (ProductYAMLURLDataTypes
                            (PR (resolveFields env productYAML rest s1)))
                = Some (dataTypeOf env (productYAML f)))
               /\ (~ In f (f0 :: rest) \/ productYAML f = "" ->
                   mapGet f (ProductYAMLURLDataTypes
                               (PR (resolveFields env productYAML rest s1)))
                   = mapGet f (ProductYAMLURLDataTypes (PR prSuite)))).
    { intros s1 Hsame Hother. destruct (IH s1) as [IH1 IH2]. split.
      - intros Hin Hne. destruct (in_dec string_dec f rest) as [Hr|Hr].
        + exact (IH1 Hr Hne).
        + destruct Hin as [<-|Hin]; [|contradiction].
          rewrite IH2; [exact Hsame | left; exact Hr].
      - intros Hcase.
        assert (Hf : f <> f0).
        { destruct Hcase as [Hn|He]; [intros ->; apply Hn; left; reflexivity
                                     | intros ->; contradiction]. }
        rewrite IH2; [apply Hother; exact Hf|].
        destruct Hcase as [Hn|He]; [left; intros F; apply Hn; right; exact F
                                   | right; exact He]. }
    unfold dataTypeOf in Hstep.
    destruct (headContentType env (productYAML f0)) as [contentType|]; apply Hstep.
    + cbn [setDataType setPR PR ProductYAMLURLDataTypes]. apply mapGet_mapSet_same.
    + intros k Hk. cbn [setDataType setPR PR ProductYAMLURLDataTypes].
      rewrite !mapGet_mapSet_other by exact Hk. reflexivity.
    + cbn [setDataType setPR PR ProductYAMLURLDataTypes]. apply mapGet_mapSet_same.
    + intros k Hk. cbn [setDataType setPR PR ProductYAMLURLDataTypes].
      rewrite mapGet_mapSet_other by exact Hk. reflexivity.
Qed.

(** ** [rawURLForBlobURL] *)

Lemma replaceFirst_absent (s old new : string) :
  Contains s old = false -> replaceFirst s old new = s.
Proof.
  induction s as [|c s IH]; intros H.
  - cbn [Contains] in H. rewrite orb_false_r in H.
    cbn [replaceFirst]. rewrite H. reflexivity.
  - change (HasPrefix (String c s) old || Contains s old = false) in H.
    apply orb_false_elim in H. destruct H as [Hp Hc].
    cbn [replaceFirst]. rewrite Hp, (IH Hc). reflexivity.
Qed.

(** A URL that contains neither "github.com" nor "/blob" is returned
    as it is. *)
Theorem rawURLForBlobURL_other_hosts (patchUrl : string) :
  Contains patchUrl "github.com" = false ->
  Contains patchUrl "/blob" = false ->
  rawURLForBlobURL patchUrl = patchUrl.
Proof.
  intros Hhost Hblob. unfold rawURLForBlobURL.
  rewrite (replaceFirst_absent _ _ _ Hhost). apply replaceFirst_absent. exact Hblob.
Qed.

Lemma rawURLForBlobURL_other_hosts_witness :
  rawURLForBlobURL "https://gitlab.example/acme/results/raw/main/PRODUCT.yaml"
  = "https://gitlab.example/acme/results/raw/main/PRODUCT.yaml".
Proof.
  apply rawURLForBlobURL_other_hosts; reflexivity.
Defined.

Lemma HasPrefix_before_slash (q p rest : string) :
  q <> EmptyString -> noSlash q = true -> HasPrefix p q = false ->
  HasPrefix (p ++ String "/" rest)%string q = false.
Proof.
  revert p. induction q as [|a q IH]; intros p Hne Hq Hp; [contradiction|].
  cbn [noSlash] in Hq. apply andb_prop in Hq. destruct Hq as [Ha Hq].
  destruct p as [|b p].
  - cbn [String.append HasPrefix].
    destruct (Ascii.eqb a "/"); [discriminate Ha | reflexivity].
  - cbn [String.append HasPrefix]. cbn [HasPrefix] in Hp.
    destruct (Ascii.eqb a b); [|reflexivity]. cbn [andb] in *.
    destruct q as [|a' q'].
    + destruct p; discriminate Hp.
    + apply IH; [discriminate | exact Hq | exact Hp].
Qed.

Lemma replaceFirst_blob (pre suf : string) :
  Contains pre "/blob" = false ->
  replaceFirst (pre ++ "/blob" ++ suf)%string "/blob" "" = (pre ++ suf)%string.
Proof.
  induction pre as [|c pre IH]; intros H.
  - reflexivity.
  - change (HasPrefix (String c pre) "/blob" || Contains pre "/blob" = false) in H.
    apply orb_false_elim in H. destruct H as [Hp Hc].
    change ((String c pre ++ "/blob" ++ suf)%string)
      with (String c (pre ++ "/blob" ++ suf)%string).
    cbn [replaceFirst].
    assert (E : HasPrefix (String c (pre ++ "/blob" ++ suf)%string) "/blob" = false).
    { change (Ascii.eqb "/" c && HasPrefix (pre ++ String "/" ("blob" ++ suf))%string "blob"
              = false).
      change (Ascii.eqb "/" c && HasPrefix pre "blob" = false) in Hp.
      destruct (Ascii.eqb "/" c); [|reflexivity]. cbn [andb] in *.
      apply HasPrefix_before_slash; [discriminate | reflexivity | exact Hp]. }
    rewrite E, (IH Hc). reflexivity.
Qed.

(** X24: the blob URL of a file on github.com becomes its raw URL: the host
    is replaced and the first "/blob" is dropped, the first one only, so a
    "/blob" in the path of the file is kept. *)
Theorem rawURLForBlobURL_github (repoPath filePath : string) :
  Contains (String "/" repoPath) "/blob" = false ->
  rawURLForBlobURL ("https://github.com/" ++ repoPath ++ "/blob" ++ filePath)%string
  = ("https://raw.githubusercontent.com/" ++ repoPath ++ filePath)%string.
Proof.
  intros H. unfold rawURLForBlobURL.
  change (replaceFirst ("https://github.com/" ++ repoPath ++ "/blob" ++ filePath)%string
            "github.com" "raw.githubusercontent.com")
    with (("https://raw.githubusercontent.com/" ++ repoPath) ++ "/blob" ++ filePath)%string.
  rewrite replaceFirst_blob; [reflexivity | exact H].
Qed.

Lemma rawURLForBlobURL_github_witness :
  rawURLForBlobURL
    "https://github.com/cncf/k8s-conformance/blob/0a1b/v1.29/acme/blobs/PRODUCT.yaml"
  = "https://raw.githubusercontent.com/cncf/k8s-conformance/0a1b/v1.29/acme/blobs/PRODUCT.yaml".
Proof.
  apply (rawURLForBlobURL_github "cncf/k8s-conformance"
           "/0a1b/v1.29/acme/blobs/PRODUCT.yaml").
  reflexivity.
Defined.

(** ** [search] *)

Lemma searchLoop_pages (query : querier) (q org : string)
  (asked : list queryCall) (cursor : option string) (pages : list SearchQuery) :
  answersPages query q org asked cursor pages ->
  forall pagesLeft ret,
    List.length pages <= pagesLeft ->
    searchLoop pagesLeft query q org cursor ret asked
    = (Some (inl (ret ++ concat (map Nodes pages))),
       asked ++ queriesOf q org (cursorsOf cursor pages)).
Proof.
  induction 1 as [asked cursor sq Hq Hlast | asked cursor sq pages Hq Hnext Hrest IH];
    intros pagesLeft ret Hlen.
  - destruct pagesLeft as [|n]; [cbn in Hlen; lia|].
    cbn [searchLoop]. rewrite Hq, Hlast. cbn. rewrite app_nil_r. reflexivity.
  - destruct pagesLeft as [|n]; [cbn in Hlen; lia|].
    cbn [searchLoop]. rewrite Hq, Hnext. cbn [negb].
    rewrite IH by (cbn in Hlen; lia).
    cbn [map concat cursorsOf queriesOf]. rewrite <- !app_assoc. reflexivity.
Qed.

(** X25: when the server answers a run of pages and only the last one
    reports no further page, [search] returns the pull requests of all the
    pages in order, provided it may ask for as many pages.  It has asked one
    query per page, the first with a nil cursor and each next one with the
    end cursor of the page before. *)
Theorem search_collects_pages (query : querier) (q org : string)
  (asked : list queryCall) (pages : list SearchQuery) (pagesLeft : nat) :
  answersPages query q org asked None pages ->
  List.length pages <= pagesLeft ->
  search pagesLeft query q org asked
  = (Some (inl (concat (map Nodes pages))),
     asked ++ queriesOf q org (cursorsOf None pages)).
Proof.
  intros Hpages Hlen. unfold search.
  rewrite (searchLoop_pages _ _ _ _ _ _ Hpages pagesLeft [] Hlen). reflexivity.
Qed.

Lemma search_collects_pages_witness :
  search 5 twoPages "archived:false is:pr is:open " "cncf" []
  = (Some (inl [samplePR; readmePR]),
     [ mkQueryCall "archived:false is:pr is:open " None "cncf";
       mkQueryCall "archived:false is:pr is:open " (Some "Y3Vyc29yOjE=") "cncf" ]).
Proof.
  apply (search_collects_pages twoPages "archived:false is:pr is:open " "cncf" []
           [ {| RateLimitCost := 1; RateLimitRemaining := 4999;
                HasNextPage := true; EndCursor := "Y3Vyc29yOjE=";
                Nodes := [samplePR] |};
             {| RateLimitCost := 1; RateLimitRemaining := 4998;
                HasNextPage := false; EndCursor := "";
                Nodes := [readmePR] |} ] 5).
  - apply answersNext; [reflexivity | reflexivity|].
    apply answersLast; reflexivity.
  - cbn. lia.
Defined.

Lemma searchLoop_fails (query : querier) (q org e : string)
  (asked : list queryCall) (cursor : option string) (pages : list SearchQuery) :
  answersThenFails query q org e asked cursor pages ->
  forall pagesLeft ret,
    List.length pages < pagesLeft ->
    fst (searchLoop pagesLeft query q org cursor ret asked) = Some (inr e)
    /\ List.length (snd (searchLoop pagesLeft query q org cursor ret asked))
       = List.length asked + List.length pages + 1.
Proof.
  induction 1 as [asked cursor Hq | asked cursor sq pages Hq Hnext Hrest IH];
    intros pagesLeft ret Hlen.
  - destruct pagesLeft as [|n]; [cbn in Hlen; lia|].
    cbn [searchLoop]. rewrite Hq. cbn [fst snd].
    split; [reflexivity | rewrite length_app; cbn; lia].
  - destruct pagesLeft as [|n]; [cbn in Hlen; lia|].
    cbn [searchLoop]. rewrite Hq, Hnext. cbn [negb].
    destruct (IH n (ret ++ Nodes sq)) as [H1 H2]; [cbn in Hlen; lia|].
    split; [exact H1|]. rewrite H2, length_app. cbn. lia.
Qed.

(** X26: when a query fails, on the first page or after pages that each
    reported a further page, [search] returns that error and none of the
    pull requests it has gathered; the failed query is the last one. *)
Theorem search_first_error_aborts (query : querier) (q org e : string)
  (asked : list queryCall) (pages : list SearchQuery) (pagesLeft : nat) :
  answersThenFails query q org e asked None pages ->
  List.length pages < pagesLeft ->
  fst (search pagesLeft query q org asked) = Some (inr e)
  /\ List.length (snd (search pagesLeft query q org asked))
     = List.length asked + List.length pages + 1.
Proof.
  intros Hpages Hlen. unfold search.
  exact (searchLoop_fails _ _ _ _ _ _ _ Hpages pagesLeft [] Hlen).
Qed.

Lemma search_first_error_aborts_witness :
  search 5 secondPageFails "archived:false is:pr is:open " "cncf" []
  = (Some (inr "API rate limit exceeded"),
     [ mkQueryCall "archived:false is:pr is:open " None "cncf";
       mkQueryCall "archived:false is:pr is:open " (Some "Y3Vyc29yOjE=") "cncf" ])
  /\ fst (search 5 secondPageFails "archived:false is:pr is:open " "cncf" [])
     = Some (inr "API rate limit exceeded").
Proof.
  split; [reflexivity|].
  apply (search_first_error_aborts secondPageFails "archived:false is:pr is:open "
           "cncf" "API rate limit exceeded" []
           [ {| RateLimitCost := 1; RateLimitRemaining := 0;
                HasNextPage := true; EndCursor := "Y3Vyc29yOjE=";
                Nodes := [samplePR] |} ] 5).
  - apply failsLater; [reflexivity | reflexivity|]. apply failsNow. reflexivity.
  - cbn. lia.
Defined.

(** [search] has no bound on the number of pages: against a server
    that reports a further page on every answer it is still asking after
    any number of pages. *)
Theorem search_follows_every_page (query : querier) (q org : string)
  (asked : list queryCall) (pagesLeft : nat) :
  (forall asked' cursor,
      exists sq, query asked' q cursor org = inl sq /\ HasNextPage sq = true) ->
  fst (search pagesLeft query q org asked) = None
  /\ List.length (snd (search pagesLeft query q org asked))
     = List.length asked + pagesLeft.
Proof.
  intros Hmore. unfold search. generalize (@nil PullRequestQuery) as ret.
  generalize (@None string) as cursor. revert asked.
  induction pagesLeft as [|n IH]; intros asked cursor ret; cbn [searchLoop].
  - split; [reflexivity | cbn; lia].
  - destruct (Hmore asked cursor) as [sq [Hq Hnext]]. rewrite Hq, Hnext. cbn [negb].
    destruct (IH (asked ++ [mkQueryCall q cursor org]) (Some (EndCursor sq))
                 (ret ++ Nodes sq)) as [H1 H2].
    split; [exact H1|]. rewrite H2, length_app. cbn. lia.
Qed.

Lemma search_follows_every_page_witness :
  fst (search 3 endlessPages "archived:false is:pr is:open " "cncf" []) = None
  /\ List.length (snd (search 3 endlessPages "archived:false is:pr is:open " "cncf" []))
     = 3.
Proof.
  apply (search_follows_every_page endlessPages "archived:false is:pr is:open "
           "cncf" [] 3).
  intros asked' cursor. eexists. split; reflexivity.
Defined.

(** ** Which pull request the calls are made for *)

Lemma addresses_labels (pr : PullRequestQuery) (l : string) :
  addresses pr (CallAddLabel (org pr) (repo pr) (Number pr) l) = true
  /\ addresses pr (CallRemoveLabel (org pr) (repo pr) (Number pr) l) = true.
Proof. cbn. rewrite !String.eqb_refl, Z.eqb_refl. split; reflexivity. Qed.

Lemma addresses_reads (pr : PullRequestQuery) :
  addresses pr (CallGetIssueLabels (org pr) (repo pr) (Number pr)) = true
  /\ addresses pr (CallGetPullRequestChanges (org pr) (repo pr) (Number pr)) = true
  /\ addresses pr (CallListIssueComments (org pr) (repo pr) (Number pr)) = true.
Proof. cbn. rewrite !String.eqb_refl, Z.eqb_refl. repeat split. Qed.

Lemma addresses_comments (pr : PullRequestQuery) (id : Z) (comment : string) :
  addresses pr (CallDeleteComment (org pr) (repo pr) id) = true
  /\ addresses pr (CallCreateComment (org pr) (repo pr) (Number pr) comment) = true.
Proof. cbn. rewrite !String.eqb_refl, Z.eqb_refl. split; reflexivity. Qed.

Lemma addresses_status (pr : PullRequestQuery) (s : Status) :
  addresses pr (CallGetCombinedStatus (org pr) (repo pr) (HeadRefOID pr)) = true
  /\ addresses pr (CallCreateStatus (org pr) (repo pr) (HeadRefOID pr) s) = true.
Proof. cbn. rewrite !String.eqb_refl. split; reflexivity. Qed.

Lemma forallb_of_Forall {A : Type} (P : A -> bool) (Q : A -> Prop) (xs : list A) :
  (forall x, Q x -> P x = true) -> Forall Q xs -> forallb P xs = true.
Proof.
  intros H HQ. induction HQ as [|x xs Hx _ IH]; [reflexivity|].
  cbn. rewrite (H x Hx), IH. reflexivity.
Qed.

Lemma addressed_runUpdateLabels (ghc : githubClient) (pr : PullRequestQuery)
  (prSuite : PRSuite) (labels : list string) :
  emits (addresses pr) (runUpdateLabels ghc pr prSuite labels).
Proof.
  intros tr. unfold runUpdateLabels, updateLabels.
  destruct (addLoop_each ghc pr prSuite (fun _ => True) labels [] tr)
    as [calls [Hc Hall]]; [auto|].
  assert (Hp : forallb (addresses pr) calls = true).
  { eapply forallb_of_Forall; [|exact Hall].
    intros c [l [-> _]]. apply addresses_labels. }
  destruct (addLoop ghc pr prSuite labels [] tr) as [[early|added] tr1];
    cbn [snd] in Hc; subst tr1.
  - exists calls. split; [reflexivity | exact Hp].
  - match goal with
    | |- context [removeLoop ?g ?p ?s ?l ?pl ?a ?t] =>
        destruct (removeLoop_each g p s (fun _ => True) l pl a t)
          as [calls' [Hc' Hall']]; [auto|];
        assert (Hp' : forallb (addresses pr) calls' = true)
          by (eapply forallb_of_Forall; [|exact Hall'];
              intros c [l0 [-> _]]; apply addresses_labels);
        destruct (removeLoop g p s l pl a t) as [[early|removed] tr2]
    end; cbn [snd] in Hc'; subst tr2;
      (exists (calls ++ calls'); rewrite app_assoc, forallb_app, Hp, Hp';
       split; reflexivity).
Qed.

Lemma addressed_deleteStale (ghc : githubClient) (pr : PullRequestQuery)
  (cs : list IssueComment) (isStale : IssueComment -> bool) :
  emits (addresses pr) (deleteStale ghc (org pr) (repo pr) cs isStale).
Proof.
  induction cs as [|c rest IH]; cbn [deleteStale].
  - apply emits_ret.
  - destruct (isStale c); [|exact IH].
    apply emits_bind; [|intros _; exact IH].
    apply emits_wrapErr, emits_command. apply addresses_comments. exact EmptyString.
Qed.

Lemma addressed_updateComments (ghc : githubClient) (pr : PullRequestQuery)
  (prSuite : PRSuite) (comment : string) :
  emits (addresses pr) (updateComments ghc pr prSuite comment).
Proof.
  unfold updateComments.
  apply emits_bind; [apply emits_wrapErr, emits_request, addresses_reads|].
  intros comments.
  apply emits_bind; [apply emits_wrapErr, emits_request; reflexivity|].
  intros botUserChecker.
  destruct (match lastComment (botCommentsOf botUserChecker comments) with
            | Some c => String.eqb (Body c) comment
            | None => false
            end); [apply emits_ret|].
  apply emits_bind;
    [|intros _; apply emits_command; apply (addresses_comments pr 0%Z)].
  apply emits_wrapErr. apply addressed_deleteStale.
Qed.

Lemma addressed_updateStatus (unicodeEqualFold : string -> string -> bool)
  (ghc : githubClient) (pr : PullRequestQuery) (prSuite : PRSuite) (state : string) :
  emits (addresses pr) (updateStatus unicodeEqualFold ghc pr prSuite state).
Proof.
  unfold updateStatus.
  destruct (commitLoop unicodeEqualFold (HeadRefOID pr) (Commits pr));
    [apply emits_ret|].
  apply emits_bind;
    [apply emits_request; apply (addresses_status pr (statusFor state))|].
  intros cs.
  destruct (String.eqb (SHA cs) (HeadRefOID pr) && String.eqb (CombinedState cs) state);
    [apply emits_ret | apply emits_command; apply addresses_status].
Qed.

Lemma addressed_fetchChanges (env : collaborators) (pr : PullRequestQuery)
  (changes : list PullRequestChange) (prSuite : PRSuite) (productYAML : string) :
  emits (addresses pr) (fetchChanges env pr changes prSuite productYAML).
Proof.
  revert prSuite productYAML. induction changes as [|c rest IH];
    intros prSuite productYAML; cbn [fetchChanges].
  - apply emits_ret.
  - destruct (fetchFileFromURI env (rawURLForBlobURL (ChangeBlobURL c)));
      [apply IH | apply emits_fail].
Qed.

Lemma addressed_NewPRSuiteForPR (env : collaborators) (ghc : githubClient)
  (pr : PullRequestQuery) :
  emits (addresses pr) (NewPRSuiteForPR env ghc pr).
Proof.
  unfold NewPRSuiteForPR.
  apply emits_bind; [apply emits_wrapErr, emits_request, addresses_reads|].
  intros issueLabels.
  destruct (GetStableTxt env) as [stable|e0]; [|apply emits_fail].
  apply emits_bind; [apply emits_wrapErr, emits_request, addresses_reads|].
  intros changes.
  apply emits_bind; [apply addressed_fetchChanges|].
  intros [built yaml].
  destruct (String.eqb yaml ""); [apply emits_ret|].
  destruct (yamlUnmarshal env yaml); apply emits_ret.
Qed.

(** The three reconcilers as [handle] chains them, for the calls made. *)
Ltac reconcilers_address :=
  apply emits_bind; [apply addressed_runUpdateLabels|]; intros ?;
  apply emits_bind; [apply addressed_updateComments|]; intros _;
  apply emits_bind; [apply addressed_updateStatus|]; intros _.

Lemma addressed_handle (unicodeToLower unicodeToUpper : string -> string)
  (unicodeEqualFold : string -> string -> bool) (env : collaborators)
  (ghc : githubClient) (pr : PullRequestQuery) :
  emits (addresses pr)
    (handle unicodeToLower unicodeToUpper unicodeEqualFold env ghc pr).
Proof.
  unfold handle. apply emits_bind; [apply addressed_NewPRSuiteForPR|].
  intros prSuite0. cbv zeta.
  destruct (negb (isConformancePR unicodeToLower pr)).
  { reconcilers_address. apply emits_ret. }
  destruct (ItIsAValidAndSupportedRelease env _) as [[[|first rest]|] prSuite].
  - intros tr. exists []. rewrite app_nil_r. split; reflexivity.
  - reconcilers_address. apply emits_fail.
  - destruct (ReadFile env _) as [content|e1|e1];
      try (reconcilers_address; apply emits_fail);
      (destruct (GetLabelsAndCommentsFromSuiteResultsBuffer env _)
         as [[[[finalComment labels] state] [e|]] prSuite'];
       [apply emits_fail|];
       destruct (String.eqb finalComment "" && Nat.eqb (List.length labels) 0);
       [apply emits_ret|];
       reconcilers_address; apply emits_ret).
Qed.

(** X20: every call of a run of [handle] is made for the pull request it
    was given: for its owner and repository, and for its number or its head
    commit.  No other pull request, issue or commit is read or written. *)
Theorem handle_addresses_its_pull_request
  (unicodeToLower unicodeToUpper : string -> string)
  (unicodeEqualFold : string -> string -> bool) (env : collaborators)
  (ghc : githubClient) (pr : PullRequestQuery) (tr : trace) :
  exists calls,
    snd (handle unicodeToLower unicodeToUpper unicodeEqualFold env ghc pr tr)
    = tr ++ calls
    /\ forallb (addresses pr) calls = true.
Proof. apply addressed_handle. Qed.

(** ** The entry points *)

Lemma event_query_unverified (unicodeEqualFold : string -> string -> bool)
  (orgName repoName : string) (number : Z) (pr : GitHubPullRequest) :
  ~ verified unicodeEqualFold
      (NewPullRequestQueryForGithubPullRequest orgName repoName number pr).
Proof.
  intros [context [[before [commit [after [cb [ca [H _]]]]]] _]].
  cbn in H. destruct before; discriminate H.
Qed.

(** X27: [HandlePullRequestEvent] does nothing for an action other than
    opened and reopened.  For these two it runs [handle] on a query that
    names the author of the pull request as the owner of the repository, in
    place of the owner named by the event, and that has no head commit: so
    every call is made for the repository of that name under the login of
    the author, and the status reconciler never finds the head commit
    verified. *)
Theorem HandlePullRequestEvent_runs (unicodeToLower unicodeToUpper : string -> string)
  (unicodeEqualFold : string -> string -> bool) (env : collaborators)
  (ghc : githubClient) (pre : PullRequestEvent) (tr : trace) :
  (Action pre <> "opened" -> Action pre <> "reopened" ->
   HandlePullRequestEvent unicodeToLower unicodeToUpper unicodeEqualFold env ghc pre tr
   = (Ok tt, tr))
  /\ (exists calls,
         snd (HandlePullRequestEvent unicodeToLower unicodeToUpper unicodeEqualFold
                env ghc pre tr) = tr ++ calls
         /\ forallb
              (addresses
                 {| Number := toInt32 (EventNumber pre);
                    HeadRefOID := "";
                    AuthorLogin := GitHubUserLogin (EventPullRequest pre);
                    RepositoryName := EventRepoName pre;
                    RepositoryOwnerLogin := GitHubUserLogin (EventPullRequest pre);
                    LabelNodes := [];
                    FileNodes := [];
                    Title := GitHubTitle (EventPullRequest pre);
                    Commits := [] |}) calls = true)
  /\ ~ verified unicodeEqualFold
         (NewPullRequestQueryForGithubPullRequest (EventRepoOwnerLogin pre)
            (EventRepoName pre) (EventNumber pre) (EventPullRequest pre)).
Proof.
  split; [|split; [|apply event_query_unverified]].
  - intros Ho Hr. unfold HandlePullRequestEvent, PullRequestActionOpened,
      PullRequestActionReopened.
    apply String.eqb_neq in Ho. apply String.eqb_neq in Hr. rewrite Ho, Hr.
    reflexivity.
  - unfold HandlePullRequestEvent.
    destruct (String.eqb (Action pre) PullRequestActionOpened
              || String.eqb (Action pre) PullRequestActionReopened).
    + apply (addressed_handle unicodeToLower unicodeToUpper unicodeEqualFold env ghc
               (NewPullRequestQueryForGithubPullRequest (EventRepoOwnerLogin pre)
                  (EventRepoName pre) (EventNumber pre) (EventPullRequest pre))).
    + exists []. rewrite app_nil_r. split; reflexivity.
Qed.

(** A closed pull request causes no call; an opened one is handled under
    the login of its author. *)
Lemma HandlePullRequestEvent_runs_witness :
  HandlePullRequestEvent noCase noCase noFold nothingNewEnv okClient
    (openedEvent "closed") [] = (Ok tt, [])
  /\ HandlePullRequestEvent noCase noCase noFold nothingNewEnv okClient
       (openedEvent "opened") []
     = (Ok tt, [ CallGetIssueLabels "vendor" "k8s-conformance" 42;
                 CallGetPullRequestChanges "vendor" "k8s-conformance" 42 ]).
Proof.
  split.
  - apply (proj1 (HandlePullRequestEvent_runs noCase noCase noFold nothingNewEnv
                    okClient (openedEvent "closed") [])); discriminate.
  - vm_compute. reflexivity.
Defined.

(** X28: [HandleIssueCommentEvent] does nothing for a comment on an issue
    that is not a pull request; when the pull request cannot be fetched it
    returns that error and [handle] does not run; otherwise it runs
    [handle] on the query built from the pull request fetched. *)
Theorem HandleIssueCommentEvent_runs (unicodeToLower unicodeToUpper : string -> string)
  (unicodeEqualFold : string -> string -> bool)
  (GetPullRequest : trace -> string -> string -> Z -> GitHubPullRequest + string)
  (env : collaborators) (ghc : githubClient) (ice : IssueCommentEvent) (tr : trace) :
  (IssueIsPullRequest ice = false ->
   HandleIssueCommentEvent unicodeToLower unicodeToUpper unicodeEqualFold
     GetPullRequest env ghc ice tr = (Ok tt, tr))
  /\ (forall e,
        IssueIsPullRequest ice = true ->
        GetPullRequest tr (CommentRepoOwnerLogin ice) (CommentRepoName ice)
          (IssueNumber ice) = inr e ->
        HandleIssueCommentEvent unicodeToLower unicodeToUpper unicodeEqualFold
          GetPullRequest env ghc ice tr = (Err e, tr))
  /\ (forall pr,
        IssueIsPullRequest ice = true ->
        GetPullRequest tr (CommentRepoOwnerLogin ice) (CommentRepoName ice)
          (IssueNumber ice) = inl pr ->
        HandleIssueCommentEvent unicodeToLower unicodeToUpper unicodeEqualFold
          GetPullRequest env ghc ice tr
        = handle unicodeToLower unicodeToUpper unicodeEqualFold env ghc
            (NewPullRequestQueryForGithubPullRequest (CommentRepoOwnerLogin ice)
               (CommentRepoName ice) (IssueNumber ice) pr) tr
        /\ exists calls,
             snd (HandleIssueCommentEvent unicodeToLower unicodeToUpper
                    unicodeEqualFold GetPullRequest env ghc ice tr) = tr ++ calls
             /\ forallb
                  (addresses
                     (NewPullRequestQueryForGithubPullRequest
                        (CommentRepoOwnerLogin ice) (CommentRepoName ice)
                        (IssueNumber ice) pr)) calls = true).
Proof.
  unfold HandleIssueCommentEvent. split; [|split].
  - intros H. rewrite H. reflexivity.
  - intros e H He. rewrite H. cbn [negb]. rewrite He. reflexivity.
  - intros pr H Hpr. rewrite H. cbn [negb]. rewrite Hpr. split; [reflexivity|].
    apply addressed_handle.
Qed.

(** ** [HandleAll] *)

(** X29: of the configured repositories, [HandleAll] uses the entries that
    have exactly one slash and skips the others: for each entry of the form
    org/repo, in order, the org is added to the orgs to search and a clause
    for the repository is added to the query text. *)
Theorem reposLoop_skips_malformed (repos orgs : list string) (queryOpenPRs : string) :
  reposLoop repos orgs queryOpenPRs
  = (orgs ++ map beforeSlash (filter wellFormedRepo repos),
     (queryOpenPRs ++ Join (map repoClause (filter wellFormedRepo repos)) "")%string).
Proof.
  assert (Hnil : forall s : string, (s ++ "")%string = s).
  { induction s as [|c s IH]; cbn; [reflexivity | rewrite IH; reflexivity]. }
  assert (Hjoin : forall x xs, Join (x :: xs) "" = (x ++ Join xs "")%string).
  { intros x [|y ys]; cbn [Join]; [rewrite Hnil; reflexivity | reflexivity]. }
  revert orgs queryOpenPRs.
  induction repos as [|repo rest IH]; intros orgs queryOpenPRs; cbn [reposLoop filter].
  - cbn. rewrite app_nil_r, Hnil. reflexivity.
  - replace (Nat.eqb (countSlashes repo + 1) 2) with (wellFormedRepo repo)
      by (unfold wellFormedRepo; rewrite Nat.add_1_r; reflexivity).
    destruct (wellFormedRepo repo); cbn [negb].
    + rewrite IH. cbn [map]. rewrite Hjoin, <- app_assoc, append_assoc.
      reflexivity.
    + apply IH.
Qed.

Lemma handleEach_returns (unicodeToLower unicodeToUpper : string -> string)
  (unicodeEqualFold : string -> string -> bool) (env : collaborators)
  (ghc : githubClient) (prs : list PullRequestQuery) (tr : trace) :
  (forall prSuite, fst (ItIsAValidAndSupportedRelease env prSuite) <> Some EmptyString) ->
  fst (handleEach unicodeToLower unicodeToUpper unicodeEqualFold env ghc prs tr)
  = Ok tt.
Proof.
  intros Htext. revert tr. induction prs as [|pr rest IH]; intros tr;
    cbn [handleEach]; [reflexivity|].
  pose proof (neverPanics_handle unicodeToLower unicodeToUpper unicodeEqualFold
                env ghc pr Htext tr) as H.
  destruct (handle unicodeToLower unicodeToUpper unicodeEqualFold env ghc pr tr)
    as [[u|e|] tr']; [apply IH | apply IH | exfalso; apply H; reflexivity].
Qed.

(** X30: [HandleAll] makes no call when neither org nor repository is
    configured.  Otherwise a failed search ends it with that error before
    any pull request is handled; and once every search has returned, each
    pull request found is handled in order and [HandleAll] returns nil
    whatever errors [handle] returns, the release validator being one that
    never answers with an empty error text. *)
Theorem HandleAll_outcomes (unicodeToLower unicodeToUpper : string -> string)
  (unicodeEqualFold : string -> string -> bool) (pagesLeft : nat)
  (env : collaborators) (query : querier) (ghc : githubClient)
  (orgs repos : list string) (asked : list queryCall) (tr : trace) :
  (forall prSuite, fst (ItIsAValidAndSupportedRelease env prSuite) <> Some EmptyString) ->
  (orgs = [] -> repos = [] ->
   HandleAll unicodeToLower unicodeToUpper unicodeEqualFold pagesLeft env query ghc
     orgs repos asked tr = (Some (Ok tt), asked, tr))
  /\ (orgs <> [] \/ repos <> [] ->
      forall e asked',
        searchOrgs pagesLeft query
          (snd (reposLoop repos orgs openPRsQuery))
          (fst (reposLoop repos orgs openPRsQuery)) [] asked
        = (Some (inr e), asked') ->
        HandleAll unicodeToLower unicodeToUpper unicodeEqualFold pagesLeft env query
          ghc orgs repos asked tr = (Some (Err e), asked', tr))
  /\ (orgs <> [] \/ repos <> [] ->
      forall prs asked',
        searchOrgs pagesLeft query
          (snd (reposLoop repos orgs openPRsQuery))
          (fst (reposLoop repos orgs openPRsQuery)) [] asked
        = (Some (inl prs), asked') ->
        HandleAll unicodeToLower unicodeToUpper unicodeEqualFold pagesLeft env query
          ghc orgs repos asked tr
        = (Some (Ok tt), asked',
           snd (handleEach unicodeToLower unicodeToUpper unicodeEqualFold env ghc
                  prs tr))).
Proof.
  intros Htext.
  assert (Hconf : orgs <> [] \/ repos <> [] ->
                  Nat.eqb (List.length orgs) 0 && Nat.eqb (List.length repos) 0 = false).
  { intros [H|H]; [destruct orgs; [contradiction | reflexivity]|].
    destruct repos; [contradiction | apply andb_false_r]. }
  split; [|split].
  - intros -> ->. reflexivity.
  - intros Hc e asked' Hs. unfold HandleAll. rewrite (Hconf Hc).
    destruct (reposLoop repos orgs openPRsQuery) as [orgs' q].
    cbn [fst snd] in Hs. rewrite Hs. reflexivity.
  - intros Hc prs asked' Hs. unfold HandleAll. rewrite (Hconf Hc).
    destruct (reposLoop repos orgs openPRsQuery) as [orgs' q].
    cbn [fst snd] in Hs. rewrite Hs.
    pose proof (handleEach_returns unicodeToLower unicodeToUpper unicodeEqualFold
                  env ghc prs tr Htext) as Hr.
    destruct (handleEach unicodeToLower unicodeToUpper unicodeEqualFold env ghc prs tr)
      as [[u|e|] tr']; [reflexivity | discriminate Hr | discriminate Hr].
Qed.

(** One well-formed repository of three configured: one search, under the
    org cncf, and the two pull requests found are handled, the second one
    ending in nil after the title gate. *)
Lemma HandleAll_outcomes_witness :
  fst (reposLoop configuredRepos [] openPRsQuery) = ["cncf"]
  /\ fst (fst (HandleAll noCase noCase noFold 5 nothingNewEnv onePage okClient
                 [] configuredRepos [] [])) = Some (Ok tt)
  /\ map QueryOrg
       (snd (fst (HandleAll noCase noCase noFold 5 nothingNewEnv onePage okClient
                    [] configuredRepos [] []))) = ["cncf"]
  /\ List.length
       (snd (HandleAll noCase noCase noFold 5 nothingNewEnv onePage okClient
               [] configuredRepos [] [])) = 11.
Proof.
  split; [reflexivity|].
  assert (Htext : forall prSuite,
             fst (ItIsAValidAndSupportedRelease nothingNewEnv prSuite)
             <> Some EmptyString) by (intros prSuite; discriminate).
  destruct (HandleAll_outcomes noCase noCase noFold 5 nothingNewEnv onePage okClient
              [] configuredRepos [] [] Htext) as [_ [_ H]].
  rewrite (H (or_intror (fun F : configuredRepos = [] =>
                           eq_ind configuredRepos
                             (fun l => match l with [] => False | _ => True end)
                             I [] F))
             [samplePR; readmePR]
             (snd (search 5 onePage (snd (reposLoop configuredRepos [] openPRsQuery))
                     "cncf" []))
             eq_refl).
  split; [reflexivity|]. split; vm_compute; reflexivity.
Defined.
